(** * Cognitor CMS front-end: API client, search, navigation, proxy routes
      and the content-reference resolver, embedded in Rocq.

    The TypeScript sources are embedded shallowly.  JSON data keeps its
    dynamic shape ([JS.value]); asynchronous, effectful code runs in a
    state-and-exception monad over a [World] holding everything the host
    provides (clock, network, browser storage, random numbers) together
    with the one long-lived object of the application, the singleton
    [cognitorApi].

    Scope of the model.  Numbers are the integers and NaN (no fractions,
    no infinities, no rounding of large doubles, and -0 is 0): arithmetic
    is exact up to 2^53 in magnitude, and the properties of the routes
    are stated within that range.  Strings are
    sequences of code units below 256, so that case mapping and white
    space are those of Latin-1.  Console output is not recorded. *)

From Stdlib Require Import ZArith String Ascii List Lia DecimalString.
From stdpp Require Import gmap strings list.

Set Warnings "-register-all".

Open Scope string_scope.
Open Scope list_scope.
Open Scope Z_scope.

(* ===================================================================== *)
(** * The JavaScript values and primitives the sources rely on            *)
(* ===================================================================== *)

Module JS.

Inductive number :=
| NaN
| Int (z : Z).

Inductive value :=
| VUndefined
| VNull
| VBool (b : bool)
| VNum (n : number)
| VStr (s : string)
| VArr (items : list value)
| VObj (props : list (string * value)).

(** What a [throw] carries.  [CognitorApiError] mirrors the class declared
    in client.ts; [TypeError] and [Error] are the built-in ones; [Thrown]
    is a thrown value that is not an instance of Error. *)
Inductive exn :=
| CognitorApiError (statusCode : Z) (code : value) (message : value) (details : value)
| TypeError (message : string)
| Error (message : string)
| Thrown (v : value).

Inductive result (A : Type) :=
| Return (a : A)
| Throw (e : exn).
Arguments Return {A} a.
Arguments Throw {A} e.

Definition rbind {A B} (r : result A) (k : A -> result B) : result B :=
  match r with
  | Return a => k a
  | Throw e => Throw e
  end.

Fixpoint rmap {A B} (f : A -> result B) (l : list A) : result (list B) :=
  match l with
  | [] => Return []
  | x :: l' => rbind (f x) (fun y => rbind (rmap f l') (fun ys => Return (y :: ys)))
  end.

(** ** Truthiness, [||], [typeof], property access *)

Definition truthy (v : value) : bool :=
  match v with
  | VUndefined | VNull => false
  | VBool b => b
  | VNum NaN => false
  | VNum (Int z) => negb (z =? 0)
  | VStr s => negb (String.eqb s "")
  | VArr _ | VObj _ => true
  end.

(** [a || b] *)
Definition or (a b : value) : value := if truthy a then a else b.

(** [typeof v === 'object'] : true of null, arrays and objects. *)
Definition typeof_object (v : value) : bool :=
  match v with
  | VNull | VArr _ | VObj _ => true
  | _ => false
  end.

Fixpoint lookup_prop (k : string) (props : list (string * value)) : option value :=
  match props with
  | [] => None
  | (k', v) :: rest => if String.eqb k k' then Some v else lookup_prop k rest
  end.

(** [k in v] for an object [v]. *)
Definition has_prop (k : string) (v : value) : bool :=
  match v with
  | VObj props => bool_decide (is_Some (lookup_prop k props))
  | _ => false
  end.

(** [v.k] / [v[k]] for a receiver that is neither null nor undefined.
    Arrays and strings answer [length]; methods and other inherited
    properties are not values of the model. *)
Definition prop (v : value) (k : string) : value :=
  match v with
  | VObj props => default VUndefined (lookup_prop k props)
  | VArr items => if String.eqb k "length" then VNum (Int (Z.of_nat (length items))) else VUndefined
  | VStr s => if String.eqb k "length" then VNum (Int (Z.of_nat (String.length s))) else VUndefined
  | _ => VUndefined
  end.

(** [v.k] in general: reading a property of null or undefined throws. *)
Definition read (v : value) (k : string) : result value :=
  match v with
  | VUndefined =>
      Throw (TypeError ("Cannot read properties of undefined (reading '" +:+ k +:+ "')"))
  | VNull =>
      Throw (TypeError ("Cannot read properties of null (reading '" +:+ k +:+ "')"))
  | _ => Return (prop v k)
  end.

(** Object-literal construction and spread keep insertion order; a key
    written twice keeps its first position and its last value. *)
Fixpoint set_prop {V} (k : string) (v : V) (props : list (string * V)) : list (string * V) :=
  match props with
  | [] => [(k, v)]
  | (k', v') :: rest =>
      if String.eqb k k' then (k, v) :: rest else (k', v') :: set_prop k v rest
  end.

Definition spread {V} (base extra : list (string * V)) : list (string * V) :=
  fold_left (fun acc kv => set_prop (fst kv) (snd kv) acc) extra base.

(** ** Numbers *)

(** Subtraction and multiplication are those of the integers.  They are
    the operations of the code as long as the operands and the result
    stay within 2^53 in magnitude, where doubles hold integers exactly;
    the properties that rest on them carry such a bound. *)
Definition num_sub (a b : number) : number :=
  match a, b with
  | Int x, Int y => Int (x - y)
  | _, _ => NaN
  end.

Definition num_mul (a b : number) : number :=
  match a, b with
  | Int x, Int y => Int (x * y)
  | _, _ => NaN
  end.

Definition num_truthy (n : number) : bool := truthy (VNum n).

(** [n || d] on numbers, for a truthy default [d]. *)
Definition num_or (n : option number) (d : Z) : Z :=
  match n with
  | Some (Int z) => if z =? 0 then d else z
  | _ => d
  end.

Definition string_of_Z (z : Z) : string := NilZero.string_of_int (Z.to_int z).

Definition string_of_number (n : number) : string :=
  match n with
  | NaN => "NaN"
  | Int z => string_of_Z z
  end.

(** ** Strings *)

Definition code (c : ascii) : N := N_of_ascii c.

(** WhiteSpace and LineTerminator below 256: TAB, LF, VT, FF, CR, SP, NBSP. *)
Definition is_whitespace (c : ascii) : bool :=
  let n := code c in
  (((9 <=? n) && (n <=? 13)) || (n =? 32) || (n =? 160))%N.

Fixpoint trimStart (s : string) : string :=
  match s with
  | String c s' => if is_whitespace c then trimStart s' else s
  | EmptyString => EmptyString
  end.

Definition trimEnd (s : string) : string := String.rev (trimStart (String.rev s)).

Definition trim (s : string) : string := trimEnd (trimStart s).

Definition lower_char (c : ascii) : ascii :=
  let n := code c in
  if (((65 <=? n) && (n <=? 90))
      || ((192 <=? n) && (n <=? 222) && negb (n =? 215)))%N
  then ascii_of_N (n + 32) else c.

Fixpoint toLowerCase (s : string) : string :=
  match s with
  | EmptyString => EmptyString
  | String c s' => String (lower_char c) (toLowerCase s')
  end.

Definition startsWith (s p : string) : bool := String.prefix p s.

Fixpoint includes (s t : string) : bool :=
  String.prefix t s ||
  match s with
  | EmptyString => false
  | String _ s' => includes s' t
  end.

Fixpoint drop_chars (n : nat) (s : string) : string :=
  match n, s with
  | S n', String _ s' => drop_chars n' s'
  | _, _ => s
  end.

(** [s.slice(1)] *)
Definition slice1 (s : string) : string := drop_chars 1 s.

(** [s.replace(pat, rep)] for a string pattern: the first occurrence only. *)
Fixpoint replace (s pat rep : string) : string :=
  if String.prefix pat s then rep +:+ drop_chars (String.length pat) s
  else match s with
       | EmptyString => EmptyString
       | String c s' => String c (replace s' pat rep)
       end.

(** [s.split(sep)] for a separator of one character. *)
Fixpoint split (sep : ascii) (s : string) : list string :=
  match s with
  | EmptyString => [EmptyString]
  | String c s' =>
      if Ascii.eqb c sep then EmptyString :: split sep s'
      else match split sep s' with
           | piece :: rest => String c piece :: rest
           | [] => [String c EmptyString]
           end
  end.

(** [parts.join(sep)] on strings. *)
Definition join (sep : string) (parts : list string) : string := String.concat sep parts.

Definition digit_value (c : ascii) : option Z :=
  let n := code c in
  if ((48 <=? n) && (n <=? 57))%N then Some (Z.of_N n - 48)
  else if ((97 <=? n) && (n <=? 122))%N then Some (Z.of_N n - 87)
  else if ((65 <=? n) && (n <=? 90))%N then Some (Z.of_N n - 55)
  else None.

Fixpoint digits (radix : Z) (s : string) (acc : option Z) : option Z :=
  match s with
  | EmptyString => acc
  | String c s' =>
      match digit_value c with
      | Some d => if d <? radix then digits radix s' (Some (default 0 acc * radix + d)) else acc
      | None => acc
      end
  end.

(** [parseInt(s)] with no radix argument: the integer that the digits
    denote.  This is the value of the code up to 2^53 in magnitude; beyond,
    the code holds the nearest double (an infinity in the end), and the
    properties that rest on [parseInt] carry a bound. *)
Definition parseInt (s : string) : number :=
  let s0 := trimStart s in
  let '(sign, s1) :=
    match s0 with
    | String "-" r => (-1, r)
    | String "+" r => (1, r)
    | _ => (1, s0)
    end in
  let '(radix, s2) :=
    match s1 with
    | String "0" (String "x" r) | String "0" (String "X" r) => (16, r)
    | _ => (10, s1)
    end in
  match digits radix s2 None with
  | Some n => Int (sign * n)
  | None => NaN
  end.

(** ** ToString *)

(** The abstract operation ToString, as used by template literals, by
    [String(v)] and by [join].  A plain object prints as
    [[object Object]]; one that carries a [toString] entry of its own has
    shadowed the inherited method with something that cannot be called,
    and the conversion throws. *)
Fixpoint ToString (v : value) : result string :=
  match v with
  | VUndefined => Return "undefined"
  | VNull => Return "null"
  | VBool true => Return "true"
  | VBool false => Return "false"
  | VNum n => Return (string_of_number n)
  | VStr s => Return s
  | VArr items =>
      (fix go (l : list value) : result string :=
         match l with
         | [] => Return ""
         | x :: rest =>
             rbind (match x with
                    | VUndefined | VNull => Return ""
                    | _ => ToString x
                    end) (fun s =>
             match rest with
             | [] => Return s
             | _ => rbind (go rest) (fun t => Return (s +:+ "," +:+ t))
             end)
         end) items
  | VObj props =>
      match lookup_prop "toString" props with
      | Some _ => Throw (TypeError "Cannot convert object to primitive value")
      | None => Return "[object Object]"
      end
  end.

(** The method call [v.toString()]. *)
Definition toString (v : value) : result string :=
  match v with
  | VUndefined => Throw (TypeError "Cannot read properties of undefined (reading 'toString')")
  | VNull => Throw (TypeError "Cannot read properties of null (reading 'toString')")
  | VObj props =>
      match lookup_prop "toString" props with
      | Some _ => Throw (TypeError "toString is not a function")
      | None => Return "[object Object]"
      end
  | _ => ToString v
  end.

(** ** Array.prototype.slice(0, end) *)

Definition slice0 {A} (l : list A) (e : number) : list A :=
  match e with
  | NaN => []
  | Int z =>
      if z <? 0 then take (Z.to_nat (Z.of_nat (length l) + z)) l
      else take (Z.to_nat z) l
  end.

End JS.

Import JS.

(* ===================================================================== *)
(** * The host: network, clock, browser storage, random numbers           *)
(* ===================================================================== *)

Module Host.

(** [next: { revalidate, tags }], the caching hint handed to the framework. *)
Record NextFetchRequestConfig := {
  revalidate : Z;
  tags : list string;
}.

(** A request body is either a string passed as it is or the result of
    [JSON.stringify] on a value. *)
Inductive Body :=
| Text (s : string)
| Stringified (v : value).

Record RequestInit := {
  method : string;
  headers : list (string * string);
  cache : string;
  next : option NextFetchRequestConfig;
  body : option Body;
}.

Record Fetch := {
  url : string;
  init : RequestInit;
}.

(** What [fetch] resolves to; [json] is the outcome of [response.json()]. *)
Record Response := {
  status : Z;
  statusText : string;
  json : result value;
}.

Definition ok (r : Response) : bool := (200 <=? status r) && (status r <=? 299).

Inductive FetchOutcome :=
| Rejects (e : exn)
| Resolves (r : Response).

(** An entry of [localStorage], known by what [JSON.parse] makes of it. *)
Inductive stored :=
| Blank                 (* the empty string *)
| Malformed             (* a non-empty text that JSON.parse rejects *)
| Encoded (v : value).  (* the text JSON.stringify gives for [v] *)

Record Storage := {
  items : gmap string stored;
  writable : bool;       (* false: setItem throws (quota, private mode) *)
}.

End Host.

(** The class of client.ts owns four fields. *)
Record CognitorApiClient := {
  baseUrl : string;
  _siteId : string;
  apiKey : option string;
  rateLimitTracker : gmap string Z;
}.

Record World := {
  time : nat -> Z;                 (* the n-th reading of Date.now() *)
  reads : nat;                     (* readings taken so far *)
  backend : list Host.Fetch -> Host.Fetch -> Host.FetchOutcome;
  issued : list Host.Fetch;        (* fetches issued so far, newest first *)
  window : option Host.Storage;    (* None where [typeof window === 'undefined'] *)
  randoms : nat -> string;         (* the n-th Math.random().toString() *)
  drawn : nat;
  cognitorApi : CognitorApiClient; (* the singleton of client.ts *)
}.

(** ** Asynchronous code: state and exceptions *)

Definition M (A : Type) : Type := World -> result A * World.

#[global] Instance M_ret : MRet M := fun A a w => (Return a, w).

#[global] Instance M_bind : MBind M := fun A B k m w =>
  match m w with
  | (Return a, w') => k a w'
  | (Throw e, w') => (Throw e, w')
  end.

#[global] Instance result_ret : MRet result := fun A a => Return a.
#[global] Instance result_bind : MBind result := fun A B k r => rbind r k.

Definition throw {A} (e : exn) : M A := fun w => (Throw e, w).

(** [try { body } catch (e) { handler }] *)
Definition try_catch {A} (body : M A) (handler : exn -> M A) : M A := fun w =>
  match body w with
  | (Return a, w') => (Return a, w')
  | (Throw e, w') => handler e w'
  end.

Definition lift {A} (r : result A) : M A := fun w => (r, w).

Definition world : M World := fun w => (Return w, w).

Definition this : M CognitorApiClient := fun w => (Return (cognitorApi w), w).

Definition set_rateLimitTracker (t : gmap string Z) : M unit := fun w =>
  (Return tt,
   {| time := time w; reads := reads w; backend := backend w; issued := issued w;
      window := window w; randoms := randoms w; drawn := drawn w;
      cognitorApi := {| baseUrl := baseUrl (cognitorApi w);
                        _siteId := _siteId (cognitorApi w);
                        apiKey := apiKey (cognitorApi w);
                        rateLimitTracker := t |} |}).

(** [Date.now()] *)
Definition Date_now : M Z := fun w =>
  (Return (time w (reads w)),
   {| time := time w; reads := S (reads w); backend := backend w; issued := issued w;
      window := window w; randoms := randoms w; drawn := drawn w;
      cognitorApi := cognitorApi w |}).

(** [fetch(url, init)]: the request goes out, then the backend answers. *)
Definition fetch (u : string) (i : Host.RequestInit) : M Host.Response := fun w =>
  let f := {| Host.url := u; Host.init := i |} in
  (match backend w (issued w) f with
   | Host.Rejects e => Throw e
   | Host.Resolves r => Return r
   end,
   {| time := time w; reads := reads w; backend := backend w; issued := f :: issued w;
      window := window w; randoms := randoms w; drawn := drawn w;
      cognitorApi := cognitorApi w |}).

(** [Math.random().toString()] *)
Definition Math_random_toString : M string := fun w =>
  (Return (randoms w (drawn w)),
   {| time := time w; reads := reads w; backend := backend w; issued := issued w;
      window := window w; randoms := randoms w; drawn := S (drawn w);
      cognitorApi := cognitorApi w |}).

Definition set_window (s : option Host.Storage) : M unit := fun w =>
  (Return tt,
   {| time := time w; reads := reads w; backend := backend w; issued := issued w;
      window := s; randoms := randoms w; drawn := drawn w;
      cognitorApi := cognitorApi w |}).

(* ===================================================================== *)
(** * client.ts                                                           *)
(* ===================================================================== *)

Module Client.

Record RequestOptions := {
  method : option string;
  headers : option (list (string * string));
  body : value;                       (* VUndefined when absent *)
  cache : option string;
  next : option Host.NextFetchRequestConfig;
}.

Definition no_options : RequestOptions :=
  {| method := None; headers := None; body := VUndefined; cache := None; next := None |}.

Definition checkRateLimit (endpoint : string) : M unit :=
  now ← Date_now;
  c ← this;
  let lastRequest := default 0 (rateLimitTracker c !! endpoint) in
  let timeDiff := now - lastRequest in
  if timeDiff <? 1000 then
    mret tt
  else
    set_rateLimitTracker (<[endpoint := now]> (rateLimitTracker c)).

Definition buildUrl (c : CognitorApiClient) (endpoint : string) : string :=
  let cleanEndpoint := if startsWith endpoint "/" then slice1 endpoint else endpoint in
  if startsWith cleanEndpoint "search/sites/" then
    baseUrl c +:+ "/" +:+ cleanEndpoint
  else if startsWith cleanEndpoint "search/" then
    let searchPath := replace cleanEndpoint "search/" "" in
    baseUrl c +:+ "/search/sites/" +:+ _siteId c +:+ "/" +:+ searchPath
  else if startsWith cleanEndpoint "public/" then
    baseUrl c +:+ "/" +:+ cleanEndpoint
  else
    baseUrl c +:+ "/public/" +:+ _siteId c +:+ "/" +:+ cleanEndpoint.

Definition getHeaders (c : CognitorApiClient) (customHeaders : list (string * string))
  : list (string * string) :=
  let headers :=
    spread [("Content-Type", "application/json"); ("Accept", "application/json")]
           customHeaders in
  match apiKey c with
  | Some k => if String.eqb k "" then headers
              else set_prop "Authorization" ("Bearer " +:+ k) headers
  | None => headers
  end.

(** The shape [request] gives to what the backend sent. *)
Definition transform (rawData : value) : value :=
  match rawData with
  | VArr raw =>
      let n := VNum (Int (Z.of_nat (length raw))) in
      VObj [("success", VBool true);
            ("data", VObj [("items", rawData); ("total", n); ("page", VNum (Int 1));
                           ("limit", n);
                           ("pagination",
                            VObj [("page", VNum (Int 1)); ("limit", n); ("total", n);
                                  ("totalPages", VNum (Int 1));
                                  ("hasNext", VBool false); ("hasPrev", VBool false)])]);
            ("message", VStr "Success")]
  | _ =>
      if truthy rawData && typeof_object rawData && has_prop "data" rawData then rawData
      else VObj [("success", VBool true); ("data", rawData); ("message", VStr "Success")]
  end.

Definition http_line (r : Host.Response) : string :=
  "HTTP " +:+ string_of_Z (Host.status r) +:+ ": " +:+ Host.statusText r.

(** The [RequestInit] that [request] assembles from its options. *)
Definition requestInit (c : CognitorApiClient) (options : RequestOptions) : Host.RequestInit :=
  let method := default "GET" (method options) in
  let customHeaders := default [] (headers options) in
  let body := body options in
  let cache := default "default" (cache options) in
  {| Host.method := method;
     Host.headers := getHeaders c customHeaders;
     Host.cache := cache;
     Host.next := next options;
     Host.body :=
       if truthy body && negb (String.eqb method "GET") then
         Some (match body with
               | VStr s => Host.Text s
               | _ => Host.Stringified body
               end)
       else None |}.

(** [new CognitorApiError(statusCode, code, message, details)].  The
    constructor passes the message to [Error], which stores it as a
    string: [ToString(message)], and the empty string of the prototype
    when the message is undefined.  A message that cannot be converted
    makes the constructor itself throw. *)
Definition new_CognitorApiError (statusCode : Z) (code message details : value) : result exn :=
  match message with
  | VUndefined => Return (CognitorApiError statusCode code (VStr "") details)
  | _ => text ← ToString message;
         Return (CognitorApiError statusCode code (VStr text) details)
  end.

Definition request (endpoint : string) (options : RequestOptions) : M value :=
  checkRateLimit endpoint;;
  c ← this;
  let url := buildUrl c endpoint in
  let requestInit := requestInit c options in
  try_catch
    (response ← fetch url requestInit;
     if negb (Host.ok response) then
       errorData ← try_catch (lift (Host.json response))
                     (fun _ => mret (VObj [("code", VStr "UNKNOWN_ERROR");
                                           ("message", VStr (http_line response));
                                           ("statusCode", VNum (Int (Host.status response)))]));
       code ← lift (read errorData "code");
       message ← lift (read errorData "message");
       details ← lift (read errorData "details");
       error ← lift (new_CognitorApiError (Host.status response) code
                       (or message (VStr (http_line response))) details);
       throw error
     else
       rawData ← lift (Host.json response);
       mret (transform rawData))
    (fun error =>
       match error with
       | CognitorApiError _ _ _ _ => throw error
       | TypeError m | Error m =>
           (* [error.message] of an Error is a string already *)
           throw (CognitorApiError 0 (VStr "NETWORK_ERROR") (VStr m) VUndefined)
       | Thrown _ =>
           throw (CognitorApiError 0 (VStr "NETWORK_ERROR")
                    (VStr "Unknown network error") VUndefined)
       end).

(** [new URLSearchParams()] ... [toString()]: the form-urlencoded
    serialisation, with code units above 127 sent as their UTF-8 bytes. *)
Definition hex_digit (n : N) : ascii :=
  if (n <? 10)%N then ascii_of_N (48 + n) else ascii_of_N (55 + n).

Definition percent (b : N) : string :=
  String "%" (String (hex_digit (b / 16)) (String (hex_digit (b mod 16)) EmptyString)).

Definition encode_unit (c : ascii) : string :=
  let n := code c in
  if (((48 <=? n) && (n <=? 57)) || ((65 <=? n) && (n <=? 90)) || ((97 <=? n) && (n <=? 122))
      || (n =? 42) || (n =? 45) || (n =? 46) || (n =? 95))%N then String c EmptyString
  else if (n =? 32)%N then "+"
  else if (n <? 128)%N then percent n
  else percent (192 + n / 64) +:+ percent (128 + n mod 64).

Fixpoint urlencode (s : string) : string :=
  match s with
  | EmptyString => EmptyString
  | String c s' => encode_unit c +:+ urlencode s'
  end.

Definition searchParams_toString (pairs : list (string * string)) : string :=
  join "&" (map (fun kv => urlencode (fst kv) +:+ "=" +:+ urlencode (snd kv)) pairs).

(** The [forEach] of [get]: entries whose value is undefined or null are
    skipped, the others are appended as [String(value)]. *)
Fixpoint append_params (params : list (string * value)) : result (list (string * string)) :=
  match params with
  | [] => Return []
  | (key, v) :: rest =>
      match v with
      | VUndefined | VNull => append_params rest
      | _ => s ← ToString v; more ← append_params rest; Return ((key, s) :: more)
      end
  end.

Definition get (endpoint : string) (params : option (list (string * value)))
    (options : RequestOptions) : M value :=
  url ← match params with
        | Some ps =>
            searchParams ← lift (append_params ps);
            let qs := searchParams_toString searchParams in
            mret (if String.eqb qs "" then endpoint else endpoint +:+ "?" +:+ qs)
        | None => mret endpoint
        end;
  request url {| method := Some "GET"; headers := headers options; body := body options;
                 cache := cache options; next := next options |}.

Definition post (endpoint : string) (body : value) (options : RequestOptions) : M value :=
  request endpoint {| method := Some "POST"; headers := headers options; body := body;
                      cache := cache options; next := next options |}.

Definition put (endpoint : string) (body : value) (options : RequestOptions) : M value :=
  request endpoint {| method := Some "PUT"; headers := headers options; body := body;
                      cache := cache options; next := next options |}.

Definition delete (endpoint : string) (options : RequestOptions) : M value :=
  request endpoint {| method := Some "DELETE"; headers := headers options;
                      body := body options; cache := cache options; next := next options |}.

Definition healthCheck : M bool :=
  try_catch (get "health" None no_options;; mret true) (fun _ => mret false).

End Client.

(** The parts of the JavaScript engine that the model leaves open: the
    relational comparison of two arbitrary values (which converts strings
    to numbers that need not be integers) and the upper-casing of a
    string (which can leave Latin-1).  On two integers the comparison is
    the usual one. *)
Class Engine := {
  IsLessThan : value -> value -> result bool;
  IsLessThan_Int : forall a b : Z, IsLessThan (VNum (Int a)) (VNum (Int b)) = Return (a <? b);
  toUpperCase : string -> string;
}.

(* ===================================================================== *)
(** * search.ts                                                           *)
(* ===================================================================== *)

Module Search.

Record DateRange := {
  from : string;
  to : string;
}.

Record SearchFilters := {
  category : option string;
  tags : option (list string);
  contentType : option string;
  dateRange : option DateRange;
}.

(** [query] is declared a string, yet the content-reference resolver may
    hand over whatever the CMS stored under [search_term]. *)
Record SearchQuery := {
  query : value;
  limit : option number;
  offset : option number;
  filters : option SearchFilters;
}.

(** [if (s) ...] for an optional string. *)
Definition present (s : option string) : option string :=
  match s with
  | Some t => if String.eqb t "" then None else Some t
  | None => None
  end.

Definition entry (k : string) (s : option string) : list (string * value) :=
  match present s with
  | Some t => [(k, VStr t)]
  | None => []
  end.

Definition queryParams (q : SearchQuery) : list (string * value) :=
  [("q", query q)]
  ++ match limit q with
     | Some n => if num_truthy n then [("size", VNum n)] else []
     | None => []
     end
  ++ match offset q with
     | Some (Int o) =>
         if o =? 0 then [] else [("page", VNum (Int (o / num_or (limit q) 10 + 1)))]
     | _ => []
     end
  ++ match filters q with
     | Some f =>
         entry "category" (category f)
         ++ entry "content_type" (contentType f)
         ++ match tags f with
            | Some (t :: ts) => [("tags", VStr (join "," (t :: ts)))]
            | _ => []
            end
         ++ match dateRange f with
            | Some r => entry "date_from" (Some (from r)) ++ entry "date_to" (Some (to r))
            | None => []
            end
     | None => []
     end.

(** [v.split(sep)]: only strings have the method. *)
Definition split_method (v : value) (sep : ascii) : result (list string) :=
  match v with
  | VStr s => Return (split sep s)
  | VUndefined => Throw (TypeError "Cannot read properties of undefined (reading 'split')")
  | VNull => Throw (TypeError "Cannot read properties of null (reading 'split')")
  | _ => Throw (TypeError "split is not a function")
  end.

(** The callback of [results.map] in [search]. *)
Definition transformResult (r : value) : result value :=
  id0 ← read r "id";
  id ← toString id0;
  let doc_type := prop r "doc_type" in
  let content := prop r "content" in
  let keywords := prop r "keywords" in
  tags ← (if truthy keywords then split_method keywords "," else Return []);
  wordCount ← (if truthy content then
                 words ← split_method content " "; Return (Z.of_nat (length words))
               else Return 0);
  words ← match content with
          | VUndefined | VNull => Return 0
          | _ => ws ← split_method content " "; Return (Z.of_nat (length ws))
          end;
  let readTime := Z.max 1 ((words + 199) / 200) in
  Return (VObj [("id", VStr id);
                ("type", match doc_type with
                         | VStr "content_element" => VStr "page"
                         | _ => doc_type
                         end);
                ("title", prop r "title");
                ("excerpt", or (or content (prop r "description")) (VStr ""));
                ("url", or (prop r "url") (VStr "#"));
                ("score", prop r "score");
                ("publishedAt", prop r "created_at");
                ("category", VUndefined);
                ("tags", VArr (map VStr tags));
                ("metadata", VObj [("contentType", doc_type);
                                   ("wordCount", VNum (Int wordCount));
                                   ("readTime", VNum (Int readTime))]);
                ("highlight", prop r "highlight")]).

(** [a.map(f)] on a value that should be an array. *)
Definition map_method (a : value) (f : value -> result value) : result value :=
  match a with
  | VArr l => l' ← rmap f l; Return (VArr l')
  | VUndefined => Throw (TypeError "Cannot read properties of undefined (reading 'map')")
  | VNull => Throw (TypeError "Cannot read properties of null (reading 'map')")
  | _ => Throw (TypeError "map is not a function")
  end.

(** The answer of [search] when nothing was found or the call failed. *)
Definition empty_page (q : SearchQuery) (message : string) : value :=
  VObj [("data", VObj [("items", VArr []); ("total", VNum (Int 0)); ("page", VNum (Int 1));
                       ("limit", VNum (Int (num_or (limit q) 10)))]);
        ("success", VBool false);
        ("message", VStr message)].

Definition search_options : Client.RequestOptions :=
  {| Client.method := None; Client.headers := None; Client.body := VUndefined;
     Client.cache := Some "default";
     Client.next := Some {| Host.revalidate := 300; Host.tags := ["search"] |} |}.

Definition search `{Engine} (q : SearchQuery) : M value :=
  let queryParams := queryParams q in
  try_catch
    (c ← this;
     response ← Client.get ("search/sites/" +:+ _siteId c) (Some queryParams) search_options;
     success ← lift (read response "success");
     data ← lift (read response "data");
     if truthy success && truthy data then
       let results := prop data "results" in
       let total := prop data "total" in
       let page := prop data "page" in
       let size := prop data "size" in
       let total_pages := prop data "total_pages" in
       transformedResults ← lift (map_method results transformResult);
       hasNext ← lift (IsLessThan page total_pages);
       hasPrev ← lift (IsLessThan (VNum (Int 1)) page);
       found ← lift (ToString total);
       mret (VObj [("data", VObj [("items", transformedResults); ("total", total);
                                  ("page", page); ("limit", size);
                                  ("pagination",
                                   VObj [("page", page); ("limit", size); ("total", total);
                                         ("totalPages", total_pages);
                                         ("hasNext", VBool hasNext);
                                         ("hasPrev", VBool hasPrev)])]);
                   ("success", VBool true);
                   ("message", VStr ("Found " +:+ found +:+ " results"))])
     else
       mret (empty_page q "No results found"))
    (fun _ => mret (empty_page q "Search failed")).

(** *** getSuggestions *)

Definition staticSuggestions : list (string * string) :=
  [("1", "steuerberater"); ("2", "beratung"); ("3", String "246" "sterreich");
   ("4", "kontakt"); ("5", "unternehmen"); ("6", "service")].

Definition term_suggestion (s : string * string) : value :=
  VObj [("id", VStr (fst s)); ("text", VStr (snd s)); ("type", VStr "term")].

Definition getStaticSuggestions (term : string) (limit : number) : list value :=
  slice0 (map term_suggestion
            (List.filter (fun s => includes (toLowerCase (snd s)) (toLowerCase term))
                         staticSuggestions))
         limit.

Fixpoint mapM {A B} (f : A -> M B) (l : list A) : M (list B) :=
  match l with
  | [] => mret []
  | x :: l' => y ← f x; ys ← mapM f l'; mret (y :: ys)
  end.

(** The callback of [response.data.map] in [getSuggestions]. *)
Definition transformSuggestion (suggestion : value) : M value :=
  id0 ← lift (read suggestion "id");
  printed ← match id0 with
            | VUndefined | VNull => mret VUndefined
            | _ => s ← lift (toString id0); mret (VStr s)
            end;
  id ← (if truthy printed then mret printed
        else r ← Math_random_toString; mret (VStr r));
  mret (VObj [("id", id);
              ("text", or (or (prop suggestion "text") (prop suggestion "title")) suggestion);
              ("type", or (prop suggestion "type") (VStr "term"));
              ("url", prop suggestion "url")]).

Definition suggest_options : Client.RequestOptions :=
  {| Client.method := None; Client.headers := None; Client.body := VUndefined;
     Client.cache := Some "default";
     Client.next := Some {| Host.revalidate := 600; Host.tags := ["search-suggestions"] |} |}.

Definition suggest_endpoint (c : CognitorApiClient) : string :=
  "search/sites/" +:+ _siteId c +:+ "/suggest".

Definition getSuggestions (term : string) (limit : option number) : M value :=
  let limit := default (Int 5) limit in
  if String.eqb (trim term) "" then
    mret (VObj [("data", VArr []); ("success", VBool true)])
  else
    try_catch
      (c ← this;
       response ← Client.get (suggest_endpoint c)
                    (Some [("q", VStr term); ("limit", VNum limit)]) suggest_options;
       success ← lift (read response "success");
       data ← lift (read response "data");
       match data with
       | VArr (d :: ds) =>
           if truthy success then
             suggestions ← mapM transformSuggestion (d :: ds);
             mret (VObj [("data", VArr suggestions); ("success", VBool true);
                         ("message", VStr "API suggestions loaded successfully")])
           else
             let static := getStaticSuggestions term limit in
             mret (VObj [("data", VArr static); ("success", VBool true);
                         ("message", VStr (if (0 <? Z.of_nat (length static))
                                           then "Static suggestions provided"
                                           else "No suggestions found"))])
       | _ =>
           let static := getStaticSuggestions term limit in
           mret (VObj [("data", VArr static); ("success", VBool true);
                       ("message", VStr (if (0 <? Z.of_nat (length static))
                                         then "Static suggestions provided"
                                         else "No suggestions found"))])
       end)
      (fun _ =>
         let static := getStaticSuggestions term limit in
         mret (VObj [("data", VArr static); ("success", VBool true);
                     ("message", VStr "Fallback suggestions provided")])).

(** *** Recent searches, kept in [localStorage] *)

Definition recentKey : string := "cognitor-recent-searches".

Definition localStorage_getItem (key : string) : M (option Host.stored) :=
  w ← world;
  match window w with
  | None => throw (Error "localStorage is not defined")
  | Some st => mret (Host.items st !! key)
  end.

Definition localStorage_setItem (key : string) (text : Host.stored) : M unit :=
  w ← world;
  match window w with
  | None => throw (Error "localStorage is not defined")
  | Some st =>
      if Host.writable st then
        set_window (Some {| Host.items := <[key := text]> (Host.items st);
                            Host.writable := Host.writable st |})
      else throw (Error "QuotaExceededError")
  end.

Definition JSON_parse (text : Host.stored) : result value :=
  match text with
  | Host.Encoded v => Return v
  | _ => Throw (Error "SyntaxError")
  end.

Definition recent_entry (term : value) : value :=
  VObj [("text", term); ("type", VStr "page")].

Definition getRecentSearches (limit : option number) : M value :=
  let limit := default (Int 5) limit in
  try_catch
    (w ← world;
     match window w with
     | None => mret (VArr [])
     | Some _ =>
         recentSearches ← localStorage_getItem recentKey;
         match recentSearches with
         | None | Some Host.Blank => mret (VArr [])
         | Some text =>
             searches ← lift (JSON_parse text);
             match searches with
             | VArr l => mret (VArr (map recent_entry (slice0 l limit)))
             | _ => throw (TypeError "searches.slice(...).map is not a function")
             end
         end
     end)
    (fun _ => mret (VArr [])).

(** [search !== term] for a string [term]. *)
Definition differs (term : string) (search : value) : bool :=
  match search with
  | VStr s => negb (String.eqb s term)
  | _ => true
  end.

Definition maxRecentSearches : Z := 10.

Definition saveRecentSearch (term : string) : M unit :=
  try_catch
    (w ← world;
     match window w with
     | None => mret tt
     | Some _ =>
         existing ← localStorage_getItem recentKey;
         recentSearches ← match existing with
                          | None | Some Host.Blank => mret (VArr [])
                          | Some text => lift (JSON_parse text)
                          end;
         match recentSearches with
         | VArr l =>
             let filtered := List.filter (differs term) l in
             let unshifted := VStr term :: filtered in
             let kept := slice0 unshifted (Int maxRecentSearches) in
             localStorage_setItem recentKey (Host.Encoded (VArr kept))
         | _ => throw (TypeError "recentSearches.filter is not a function")
         end
     end)
    (fun _ => mret tt).

(** *** getPopularSearches, clearRecentSearches, getSearchAnalytics *)

Definition popularSearches : list (string * string) :=
  [("1", "steuerberater"); ("2", "beratung"); ("3", String "246" "sterreich");
   ("4", "kontakt"); ("5", "service"); ("6", "unternehmen"); ("7", "hilfe");
   ("8", "support")].

Definition getPopularSearches (limit : option number) : M value :=
  let limit := default (Int 10) limit in
  let staticPopularSearches := slice0 (map term_suggestion popularSearches) limit in
  mret (VObj [("data", VArr staticPopularSearches); ("success", VBool true);
              ("message", VStr "Popular searches loaded successfully")]).

Definition localStorage_removeItem (key : string) : M unit :=
  w ← world;
  match window w with
  | None => throw (Error "localStorage is not defined")
  | Some st =>
      set_window (Some {| Host.items := base.delete key (Host.items st);
                          Host.writable := Host.writable st |})
  end.

Definition clearRecentSearches : M unit :=
  try_catch
    (w ← world;
     match window w with
     | Some _ => localStorage_removeItem recentKey
     | None => mret tt
     end)
    (fun _ => mret tt).

Definition analytics_options : Client.RequestOptions :=
  {| Client.method := None; Client.headers := None; Client.body := VUndefined;
     Client.cache := Some "force-cache";
     Client.next := Some {| Host.revalidate := 3600; Host.tags := ["search-analytics"] |} |}.

Definition getSearchAnalytics (period : option string) : M value :=
  let period := default "30d" period in
  Client.get "search/analytics" (Some [("period", VStr period)]) analytics_options.

End Search.

(* ===================================================================== *)
(** * pages.ts                                                            *)
(* ===================================================================== *)

Module Pages.

Record GetPagesParams := {
  limit : option number;
  offset : option number;
  status : option string;
  category : option string;
  tag : option string;
  search : option string;
}.

Definition number_entry (k : string) (n : option number) : list (string * value) :=
  match n with
  | Some x => if num_truthy x then [(k, VNum x)] else []
  | None => []
  end.

Definition pages_options : Client.RequestOptions :=
  {| Client.method := None; Client.headers := None; Client.body := VUndefined;
     Client.cache := Some "force-cache";
     Client.next := Some {| Host.revalidate := 3600; Host.tags := ["pages"] |} |}.

Definition getPages (params : GetPagesParams) : M value :=
  let queryParams :=
    (number_entry "limit" (limit params)
     ++ number_entry "offset" (offset params)
     ++ Search.entry "status" (status params)
     ++ Search.entry "category" (category params)
     ++ Search.entry "tag" (tag params)
     ++ Search.entry "search" (search params))%list in
  Client.get "pages" (Some queryParams) pages_options.

Definition published_options : Client.RequestOptions :=
  {| Client.method := None; Client.headers := None; Client.body := VUndefined;
     Client.cache := Some "force-cache";
     Client.next := Some {| Host.revalidate := 1800; Host.tags := ["pages"; "sitemap"] |} |}.

Definition getAllPublishedPages : M value :=
  try_catch
    (response ← Client.get "pages"
                  (Some [("status", VStr "published"); ("limit", VStr "100")])
                  published_options;
     success ← lift (read response "success");
     items ← (if truthy success then
                data ← lift (read response "data"); lift (read data "items")
              else mret VUndefined);
     if truthy success && truthy items then
       mret (VObj [("success", VBool true); ("data", items);
                   ("message", prop response "message");
                   ("pagination", prop response "pagination")])
     else
       mret (VObj [("success", VBool false); ("data", VArr []);
                   ("message", VStr "No pages found")]))
    (fun error => throw error).

Record GetPageParams := {
  slug : string;
  preview : option bool;
}.

Definition cacheOptions (params : GetPageParams) : Client.RequestOptions :=
  match preview params with
  | Some true =>
      {| Client.method := None; Client.headers := None; Client.body := VUndefined;
         Client.cache := Some "no-store"; Client.next := None |}
  | _ =>
      {| Client.method := None; Client.headers := None; Client.body := VUndefined;
         Client.cache := Some "force-cache";
         Client.next := Some {| Host.revalidate := 1800;
                                Host.tags := ["page"; "page-" +:+ slug params] |} |}
  end.

(** [items.length === 0] *)
Definition is_zero (v : value) : bool :=
  match v with
  | VNum (Int 0) => true
  | _ => false
  end.

(** [items[0]] for a value that is neither null nor undefined. *)
Definition first_item (items : value) : value :=
  match items with
  | VArr (x :: _) => x
  | VStr (String c _) => VStr (String c EmptyString)
  | VObj props => default VUndefined (lookup_prop "0" props)
  | _ => VUndefined
  end.

Definition page_not_found (message : value) : value :=
  VObj [("success", VBool false); ("data", VNull); ("message", message)].

Definition getPageBySlug (params : GetPageParams) : M value :=
  let queryParams :=
    [("slug", VStr (slug params))]
    ++ match preview params with
       | Some true => [("preview", VBool true)]
       | _ => []
       end in
  let cacheOptions := cacheOptions params in
  try_catch
    (response ← Client.get "pages" (Some queryParams) cacheOptions;
     success ← lift (read response "success");
     items ← (if truthy success then
                data ← lift (read response "data"); lift (read data "items")
              else mret VUndefined);
     if negb (truthy success) || negb (truthy items) || is_zero (prop items "length") then
       mret (page_not_found (VStr "Page not found"))
     else
       let pageMetadata := first_item items in
       id ← lift (read pageMetadata "id");
       printed ← lift (ToString id);
       fullPageResponse ← Client.get ("pages/" +:+ printed) (Some []) cacheOptions;
       fullSuccess ← lift (read fullPageResponse "success");
       if negb (truthy fullSuccess) then
         mret (page_not_found (or (prop fullPageResponse "message")
                                  (VStr "Failed to load page content")))
       else
         mret (VObj [("success", VBool true);
                     ("data", prop fullPageResponse "data");
                     ("message", prop fullPageResponse "message");
                     ("pagination", prop response "pagination")]))
    (fun error => throw error).

End Pages.

(* ===================================================================== *)
(** * navigation.ts                                                       *)
(* ===================================================================== *)

Module Navigation.

Inductive NavigationItem := {
  id : string;
  title : string;
  url : option string;
  slug : option string;
  external : option bool;
  target : option string;
  children : option (list NavigationItem);
  order : Z;
  isActive : option bool;
}.

(** [word.charAt(0)] *)
Definition charAt0 (word : string) : string :=
  match word with
  | String c _ => String c EmptyString
  | EmptyString => EmptyString
  end.

Definition formatSegmentTitle `{Engine} (segment : string) : string :=
  join " " (map (fun word => toUpperCase (charAt0 word) +:+ slice1 word) (split "-" segment)).

(** [path.split('/').filter(Boolean)] *)
Definition segments_of (path : string) : list string :=
  List.filter (fun s => negb (String.eqb s "")) (split "/" path).

(** One turn of the [forEach]: the running path grows by the segment and
    an entry is pushed. *)
Definition push_segment `{Engine} (count : nat)
    (state : string * list NavigationItem) (entry : nat * string)
  : string * list NavigationItem :=
  let '(currentPath, breadcrumbs) := state in
  let '(index, segment) := entry in
  let currentPath := currentPath +:+ "/" +:+ segment in
  (currentPath,
   breadcrumbs ++ [{| id := "breadcrumb-" +:+ string_of_Z (Z.of_nat index);
                      title := formatSegmentTitle segment;
                      url := Some currentPath;
                      slug := None; external := None; target := None; children := None;
                      order := Z.of_nat index + 1;
                      isActive := Some (Z.of_nat index =? Z.of_nat count - 1) |}]).

Definition home (count : nat) : NavigationItem :=
  {| id := "home"; title := "Home"; url := Some "/";
     slug := None; external := None; target := None; children := None;
     order := 0;
     isActive := Some (Z.of_nat count =? 0) |}.

Definition indexed {A} (l : list A) : list (nat * A) := combine (seq 0 (length l)) l.

Definition generateFallbackBreadcrumbs `{Engine} (path : string) : list NavigationItem :=
  let segments := segments_of path in
  let count := length segments in
  snd (fold_left (push_segment count) (indexed segments) ("", [home count])).

Definition isNavigationItemActive (item : NavigationItem) (currentPath : string) : bool :=
  if match url item with Some u => String.eqb u currentPath | None => false end then true
  else if match Search.present (slug item) with
          | Some s => String.eqb currentPath ("/" +:+ s)
          | None => false
          end then true
  else match Search.present (url item) with
       | Some u => startsWith currentPath u && negb (String.eqb u "/")
       | None => false
       end.

Fixpoint markActive (currentPath : string) (item : NavigationItem) : NavigationItem :=
  {| id := id item; title := title item; url := url item; slug := slug item;
     external := external item; target := target item;
     children := match children item with
                 | Some cs => Some (map (markActive currentPath) cs)
                 | None => None
                 end;
     order := order item;
     isActive := Some (isNavigationItemActive item currentPath) |}.

Definition markActiveNavigation (navigation : list NavigationItem) (currentPath : string)
  : list NavigationItem :=
  map (markActive currentPath) navigation.

(** What [getBreadcrumbs] resolves to: the data of the API response, or
    the entries generated from the path. *)
Inductive Breadcrumbs :=
| FromApi (data : value)
| Generated (items : list NavigationItem).

Definition breadcrumbs_options : Client.RequestOptions :=
  {| Client.method := None; Client.headers := None; Client.body := VUndefined;
     Client.cache := Some "force-cache";
     Client.next := Some {| Host.revalidate := 1800; Host.tags := ["breadcrumbs"] |} |}.

Definition getBreadcrumbs `{Engine} (currentPath : string) : M Breadcrumbs :=
  try_catch
    (response ← Client.get "navigation/breadcrumbs" (Some [("path", VStr currentPath)])
                  breadcrumbs_options;
     data ← lift (read response "data");
     mret (FromApi data))
    (fun _ => mret (Generated (generateFallbackBreadcrumbs currentPath))).

End Navigation.

(* ===================================================================== *)
(** * The proxy routes: app/api/search and app/api/search/suggestions     *)
(* ===================================================================== *)

Module Routes.

Record NextResponse := {
  body : value;
  status : Z;
}.

(** [searchParams.get(name)]: the first value under [name], or null. *)
Fixpoint searchParams_get (name : string) (searchParams : list (string * string))
  : option string :=
  match searchParams with
  | [] => None
  | (k, v) :: rest => if String.eqb k name then Some v else searchParams_get name rest
  end.

(** [searchParams.get(name) || fallback] *)
Definition get_or (name fallback : string) (searchParams : list (string * string)) : string :=
  default fallback (Search.present (searchParams_get name searchParams)).

(** [!query || query.trim().length === 0] *)
Definition blank (q : option string) : bool :=
  match Search.present q with
  | Some s => Nat.eqb (String.length (trim s)) 0
  | None => true
  end.

Definition message_of (error : exn) : value :=
  match error with
  | CognitorApiError _ _ m _ => m
  | TypeError m | Error m => VStr m
  | Thrown _ => VStr "Unknown error"
  end.

Definition bad_request : NextResponse :=
  {| body := VObj [("error", VStr "Query parameter is required")]; status := 400 |}.

(** The object literal passed to [searchService.search], for a request
    that carries a query. *)
Definition search_arguments (searchParams : list (string * string)) : option Search.SearchQuery :=
  let query := searchParams_get "q" searchParams in
  let page := parseInt (get_or "page" "1" searchParams) in
  let limit := parseInt (get_or "limit" "10" searchParams) in
  let category := Search.present (searchParams_get "category" searchParams) in
  let tags := option_map (split ",") (searchParams_get "tags" searchParams) in
  if blank query then None
  else
    Some {| Search.query := VStr (trim (default "" query));
            Search.limit := Some limit;
            Search.offset := Some (num_mul (num_sub page (Int 1)) limit);
            Search.filters := Some {| Search.category := category;
                                      Search.tags := tags;
                                      Search.contentType := None;
                                      Search.dateRange := None |} |}.

(** GET /api/search *)
Definition search_GET `{Engine} (searchParams : list (string * string)) : M NextResponse :=
  try_catch
    (match search_arguments searchParams with
     | None => mret bad_request
     | Some arguments =>
         response ← Search.search arguments;
         mret {| body := response; status := 200 |}
     end)
    (fun error =>
       mret {| body := VObj [("error", VStr "Search failed"); ("details", message_of error)];
               status := 500 |}).

(** The two arguments passed to [searchService.getSuggestions]. *)
Definition suggestions_arguments (searchParams : list (string * string))
  : option (string * number) :=
  let term := searchParams_get "q" searchParams in
  let limit := parseInt (get_or "limit" "5" searchParams) in
  if blank term then None else Some (trim (default "" term), limit).

(** GET /api/search/suggestions *)
Definition suggestions_GET (searchParams : list (string * string)) : M NextResponse :=
  try_catch
    (match suggestions_arguments searchParams with
     | None => mret bad_request
     | Some (term, limit) =>
         response ← Search.getSuggestions term (Some limit);
         mret {| body := response; status := 200 |}
     end)
    (fun error =>
       mret {| body := VObj [("error", VStr "Failed to get suggestions");
                             ("details", message_of error)];
               status := 500 |}).

End Routes.

(* ===================================================================== *)
(** * The content-reference resolver                                      *)
(* ===================================================================== *)

Module Content.

Definition referencePatterns : list string :=
  ["references"; "refs"; "items"; "content_items";
   "news_ids"; "article_ids"; "post_ids"; "page_ids";
   "news"; "articles"; "posts"; "pages";
   "content"; "related_content"].

(** The [for ... of] over the patterns: the first field holding an array
    wins; with none, the reference data stay empty. *)
Fixpoint find_references (data : value) (patterns : list string) : result (list value) :=
  match patterns with
  | [] => Return []
  | pattern :: rest =>
      v ← read data pattern;
      match v with
      | VArr l => Return l
      | _ => find_references data rest
      end
  end.

(** [referenceData.some(item => typeof item === 'object' && item.title)] *)
Fixpoint some_resolved (referenceData : list value) : result bool :=
  match referenceData with
  | [] => Return false
  | item :: rest =>
      if typeof_object item then
        title ← read item "title";
        if truthy title then Return true else some_resolved rest
      else some_resolved rest
  end.

Definition searchQuery (data : value) (contentType : string) : value :=
  if includes contentType "news" then VStr "news"
  else if includes contentType "article" then VStr "article"
  else if includes contentType "post" then VStr "post"
  else if truthy (prop data "search_term") then prop data "search_term"
  else if truthy (prop data "category") then prop data "category"
  else VStr "content".

(** [r.success && r.data.items && r.data.items.length > 0], giving the
    items when the test passes. *)
Definition found_items `{Engine} (r : value) : result (option value) :=
  success ← read r "success";
  if truthy success then
    data ← read r "data";
    items ← read data "items";
    if truthy items then
      positive ← IsLessThan (VNum (Int 0)) (prop items "length");
      Return (if (positive : bool) then Some items else None)
    else Return None
  else Return None.

Definition latest_published (n : Z) : Pages.GetPagesParams :=
  {| Pages.limit := Some (Int n); Pages.offset := None; Pages.status := Some "published";
     Pages.category := None; Pages.tag := None; Pages.search := None |}.

(** The numeric-ID test of the source only feeds a log line and is left
    out; everything else follows the source statement by statement. *)
Definition resolveContentReferences `{Engine}
    (data : value) (contentType : string) (limit : option number) : M value :=
  try_catch
    (referenceData ← lift (find_references data referencePatterns);
     resolved ← (if (0 <? Z.of_nat (length referenceData))
                 then lift (some_resolved referenceData) else mret false);
     if (resolved : bool) then
       mret (VArr (slice0 referenceData (Int (num_or limit 10))))
     else
       let searchQuery := searchQuery data contentType in
       viaSearch ← try_catch
                     (searchResponse ←
                        Search.search {| Search.query := searchQuery;
                                         Search.limit := Some (Int (num_or limit 10));
                                         Search.offset := None;
                                         Search.filters := None |};
                      lift (found_items searchResponse))
                     (fun _ => mret None);
       match viaSearch with
       | Some items => mret items
       | None =>
           response ← Pages.getPages (latest_published (num_or limit 10));
           viaPages ← lift (found_items response);
           match viaPages with
           | Some items => mret items
           | None => mret (VArr [])
           end
       end)
    (fun error => throw error).

End Content.

(* ===================================================================== *)
(** * The theme loader                                                    *)
(* ===================================================================== *)

Module Theme.

Definition requiredColors : list string :=
  ["primary"; "secondary"; "background"; "foreground";
   "muted"; "accent"; "destructive"; "border"; "input"; "ring"].

(** The [for ... of] over the required colours: false at the first one
    that the theme lacks. *)
Fixpoint has_colors (colors : value) (required : list string) : bool :=
  match required with
  | [] => true
  | color :: rest => if truthy (prop colors color) then has_colors colors rest else false
  end.

(** [validateTheme]: the theme itself, or null. *)
Definition validateTheme (themeData : value) : value :=
  match
    (id ← read themeData "id";
     if negb (truthy id) || negb (truthy (prop themeData "name"))
        || negb (truthy (prop themeData "colors")) then Return VNull
     else if has_colors (prop themeData "colors") requiredColors then Return themeData
     else Return VNull)
  with
  | Return v => v
  | Throw _ => VNull
  end.

Definition builtInColors : list (string * value) :=
  [("primary", VStr "hsl(222.2 84% 4.9%)");
   ("secondary", VStr "hsl(210 40% 96%)");
   ("background", VStr "hsl(0 0% 100%)");
   ("foreground", VStr "hsl(222.2 84% 4.9%)");
   ("muted", VStr "hsl(210 40% 96%)");
   ("accent", VStr "hsl(210 40% 96%)");
   ("destructive", VStr "hsl(0 84.2% 60.2%)");
   ("border", VStr "hsl(214.3 31.8% 91.4%)");
   ("input", VStr "hsl(214.3 31.8% 91.4%)");
   ("ring", VStr "hsl(222.2 84% 4.9%)")].

Definition getBuiltInDefaultTheme : value :=
  VObj [("id", VStr "default");
        ("name", VStr "Default Theme");
        ("colors", VObj builtInColors);
        ("typography",
         VObj [("fontFamily", VStr "Inter, sans-serif");
               ("fontSize",
                VObj [("xs", VStr "0.75rem"); ("sm", VStr "0.875rem"); ("base", VStr "1rem");
                      ("lg", VStr "1.125rem"); ("xl", VStr "1.25rem");
                      ("2xl", VStr "1.5rem"); ("3xl", VStr "1.875rem");
                      ("4xl", VStr "2.25rem")]);
               ("fontWeight",
                VObj [("normal", VStr "400"); ("medium", VStr "500");
                      ("semibold", VStr "600"); ("bold", VStr "700")]);
               ("lineHeight",
                VObj [("tight", VStr "1.25"); ("normal", VStr "1.5");
                      ("relaxed", VStr "1.75")])]);
        ("spacing",
         VObj [("xs", VStr "0.25rem"); ("sm", VStr "0.5rem"); ("md", VStr "1rem");
               ("lg", VStr "1.5rem"); ("xl", VStr "2rem"); ("2xl", VStr "3rem");
               ("3xl", VStr "4rem"); ("4xl", VStr "6rem")])].

(** The [RequestInit] of a [fetch] called with a URL only. *)
Definition bare : Host.RequestInit :=
  {| Host.method := "GET"; Host.headers := []; Host.cache := "default";
     Host.next := None; Host.body := None |}.

Definition theme_file (name : string) : string := "/themes/" +:+ name +:+ ".json".

Definition loadSiteTheme (siteId : string) : M value :=
  try_catch
    (response ← fetch (theme_file siteId) bare;
     if Host.ok response then
       themeData ← lift (Host.json response);
       mret (validateTheme themeData)
     else mret VNull)
    (fun _ => mret VNull).

Definition loadDefaultTheme (themeName : string) : M value :=
  try_catch
    (response ← fetch (theme_file themeName) bare;
     if Host.ok response then
       themeData ← lift (Host.json response);
       mret (validateTheme themeData)
     else mret getBuiltInDefaultTheme)
    (fun _ => mret getBuiltInDefaultTheme).

Definition loadTheme (siteId : string) (fallbackTheme : option string) : M value :=
  let fallbackTheme := default "default" fallbackTheme in
  try_catch
    (theme ← loadSiteTheme siteId;
     if truthy theme then mret theme
     else if negb (String.eqb fallbackTheme siteId) then loadDefaultTheme fallbackTheme
     else mret VNull)
    (fun _ =>
       if negb (String.eqb fallbackTheme siteId) then
         try_catch (loadDefaultTheme fallbackTheme) (fun _ => mret VNull)
       else mret VNull).

End Theme.

(* ===================================================================== *)
(** * The revalidation route: POST /api/revalidate                        *)
(* ===================================================================== *)

Module Revalidate.

(** A call to the cache of the framework; the calls are taken to return. *)
Inductive Revalidation :=
| Path (path : value)
| Tag (tag : value).

(** [secret !== process.env.REVALIDATION_SECRET] *)
Definition differs (secret : value) (configured : option string) : bool :=
  match secret, configured with
  | VStr s, Some c => negb (String.eqb s c)
  | VUndefined, None => false
  | _, _ => true
  end.

(** [if (v && Array.isArray(v))]: what the loop goes through. *)
Definition each (v : value) : list value :=
  match v with
  | VArr l => l
  | _ => []
  end.

(** One loop: every entry is revalidated and then printed into the log
    line; an entry that cannot be printed ends the loop with the
    exception, after its own call. *)
Fixpoint visit (call : value -> Revalidation) (l : list value)
  : list Revalidation * option exn :=
  match l with
  | [] => ([], None)
  | x :: rest =>
      match ToString x with
      | Return _ => let '(calls, e) := visit call rest in (call x :: calls, e)
      | Throw e => ([call x], Some e)
      end
  end.

(** [String(error)]: for an error object its name, then ": " and its
    message unless the message is empty. *)
Definition named (name message : string) : string :=
  if String.eqb message "" then name else name +:+ ": " +:+ message.

Definition error_text (e : exn) : string :=
  match e with
  | TypeError m => named "TypeError" m
  | Error m => named "Error" m
  | CognitorApiError _ _ m _ =>
      named "CognitorApiError" match m with VStr t => t | _ => "" end
  | Thrown v => match ToString v with Return t => t | Throw _ => "" end
  end.

Definition failure (e : exn) : Routes.NextResponse :=
  {| Routes.body := VObj [("message", VStr "Revalidation failed");
                          ("error", VStr (error_text e))];
     Routes.status := 500 |}.

(** The handler, given the configured secret, the outcome of
    [request.json()] and the text of [new Date().toISOString()]; it
    answers and leaves behind the calls it made, in order. *)
Definition POST (configured : option string) (timestamp : string) (body : result value)
  : Routes.NextResponse * list Revalidation :=
  match (b ← body; secret ← read b "secret"; Return (b, secret)) with
  | Throw e => (failure e, [])
  | Return (b, secret) =>
      if differs secret configured then
        ({| Routes.body := VObj [("message", VStr "Invalid secret")];
            Routes.status := 401 |}, [])
      else
        match visit Path (each (prop b "paths")) with
        | (paths, Some e) => (failure e, paths)
        | (paths, None) =>
            match visit Tag (each (prop b "tags")) with
            | (tags, Some e) => (failure e, paths ++ tags)
            | (tags, None) =>
                ({| Routes.body := VObj [("success", VBool true);
                                         ("message", VStr "Revalidation completed");
                                         ("timestamp", VStr timestamp)];
                    Routes.status := 200 |}, paths ++ tags)
            end
        end
  end.

End Revalidate.

(* ===================================================================== *)
(** * An engine for worked examples                                       *)
(* ===================================================================== *)

(** It compares integers, booleans, null and pairs of strings as
    ECMAScript does and answers false elsewhere; it upper-cases the
    letters of ASCII. *)
Module Example_engine.

Fixpoint string_ltb (a b : string) : bool :=
  match a, b with
  | _, EmptyString => false
  | EmptyString, String _ _ => true
  | String x a', String y b' =>
      if (code x <? code y)%N then true
      else if (code y <? code x)%N then false
      else string_ltb a' b'
  end.

Definition to_integer (v : value) : option Z :=
  match v with
  | VNum (Int z) => Some z
  | VNull => Some 0
  | VBool b => Some (if b then 1 else 0)
  | _ => None
  end.

Definition less_than (a b : value) : result bool :=
  match a, b with
  | VStr x, VStr y => Return (string_ltb x y)
  | _, _ =>
      match to_integer a, to_integer b with
      | Some x, Some y => Return (x <? y)
      | _, _ => Return false
      end
  end.

Definition upper_char (c : ascii) : ascii :=
  let n := code c in
  if ((97 <=? n) && (n <=? 122))%N then ascii_of_N (n - 32) else c.

Fixpoint upper (s : string) : string :=
  match s with
  | EmptyString => EmptyString
  | String c s' => String (upper_char c) (upper s')
  end.

End Example_engine.

Definition example_engine : Engine := {|
  IsLessThan := Example_engine.less_than;
  IsLessThan_Int := fun a b => eq_refl;
  toUpperCase := Example_engine.upper;
|}.


(* ===================================================================== *)
(** * Vocabulary of the properties                                        *)
(* ===================================================================== *)

(** Unfolds the monad down to functions on worlds. *)
Ltac run :=
  unfold mbind, M_bind, mret, M_ret, result_bind, result_ret,
    try_catch, throw, lift, this, world in *;
  cbn [fst snd] in *.

(** Splits on the scrutinee of an innermost [match] (or [if]) of the goal. *)
Ltac case_step :=
  match goal with
  | |- context [match ?x with _ => _ end] =>
      lazymatch x with
      | context [match _ with _ => _ end] => fail
      | _ => destruct x eqn:?; cbn
      end
  end.

(** ** Worlds for worked examples *)

Definition example_client : CognitorApiClient :=
  {| baseUrl := "https://cms.example/api"; _siteId := "site-1"; apiKey := None;
     rateLimitTracker := ∅ |}.

(** A world whose network is down, on the server (no [window]). *)
Definition offline : World :=
  {| time := fun _ => 1700000000000; reads := 0;
     backend := fun _ _ => Host.Rejects (TypeError "fetch failed");
     issued := []; window := None;
     randoms := fun _ => "0.5"; drawn := 0;
     cognitorApi := example_client |}.

(** Three requests to one endpoint, at 5000, 5500 and 6200 ms. *)
Definition three_requests : World :=
  {| time := fun n => nth n [5000; 5500; 6200] 0; reads := 0;
     backend := backend offline; issued := []; window := None;
     randoms := randoms offline; drawn := 0;
     cognitorApi := example_client |}.

(** ** The client *)

(** The client after [checkRateLimit endpoint] in world [w]. *)
Definition recorded (endpoint : string) (w : World) : CognitorApiClient :=
  let now := time w (reads w) in
  if now - default 0 (rateLimitTracker (cognitorApi w) !! endpoint) <? 1000
  then cognitorApi w
  else {| baseUrl := baseUrl (cognitorApi w); _siteId := _siteId (cognitorApi w);
          apiKey := apiKey (cognitorApi w);
          rateLimitTracker := <[endpoint := now]> (rateLimitTracker (cognitorApi w)) |}.

Definition checked (endpoint : string) (w : World) : World :=
  {| time := time w; reads := S (reads w); backend := backend w; issued := issued w;
     window := window w; randoms := randoms w; drawn := drawn w;
     cognitorApi := recorded endpoint w |}.

(** The one fetch that [request endpoint options] sends from [w]. *)
Definition outbound (endpoint : string) (options : Client.RequestOptions) (w : World)
  : Host.Fetch :=
  {| Host.url := Client.buildUrl (recorded endpoint w) endpoint;
     Host.init := Client.requestInit (recorded endpoint w) options |}.

(** The world that [request endpoint options] leaves behind. *)
Definition requested (endpoint : string) (options : Client.RequestOptions) (w : World)
  : World :=
  {| time := time w; reads := S (reads w); backend := backend w;
     issued := outbound endpoint options w :: issued w;
     window := window w; randoms := randoms w; drawn := drawn w;
     cognitorApi := recorded endpoint w |}.

Definition is_api_error {A} (r : result A) : Prop :=
  match r with
  | Throw (CognitorApiError _ _ _ _) => True
  | _ => False
  end.

(** The last part of C7 as the specification words it: a request that
    comes less than 1000 ms after the previous request to the same
    endpoint leaves the tracker entry as it was. *)
Definition quiet_period_as_stated : Prop :=
  forall (w : World) (endpoint : string) (previous current : Client.RequestOptions),
    let w1 := snd (Client.request endpoint previous w) in
    let w2 := snd (Client.request endpoint current w1) in
    time w1 (reads w1) - time w (reads w) < 1000 ->
    rateLimitTracker (cognitorApi w2) !! endpoint
    = rateLimitTracker (cognitorApi w1) !! endpoint.

(** ** The search service *)

(** The call to the backend did not deliver: it threw, or its response
    is not marked successful. *)
Definition failed (call : result value * World) : Prop :=
  match fst call with
  | Throw _ => True
  | Return response => truthy (prop response "success") = false
  end.

Definition plain_query (text : string) : Search.SearchQuery :=
  {| Search.query := VStr text; Search.limit := None; Search.offset := None;
     Search.filters := None |}.

(** The suggest call did not deliver: it threw, or what it returned as
    data is empty or is not an array. *)
Definition no_suggestions (call : result value * World) : Prop :=
  match fst call with
  | Throw _ => True
  | Return response =>
      match prop response "data" with
      | VArr (_ :: _) => False
      | _ => True
      end
  end.

(** The static list, cut down to the entries whose text contains the term
    whatever the case of the letters. *)
Definition matching_static (term : string) : list (string * string) :=
  List.filter (fun s => includes (toLowerCase (snd s)) (toLowerCase term))
              Search.staticSuggestions.

(** The fixed list of static suggestions. *)
Definition static_list : list value :=
  [VObj [("id", VStr "1"); ("text", VStr "steuerberater"); ("type", VStr "term")];
   VObj [("id", VStr "2"); ("text", VStr "beratung"); ("type", VStr "term")];
   VObj [("id", VStr "3"); ("text", VStr (String "246" "sterreich")); ("type", VStr "term")];
   VObj [("id", VStr "4"); ("text", VStr "kontakt"); ("type", VStr "term")];
   VObj [("id", VStr "5"); ("text", VStr "unternehmen"); ("type", VStr "term")];
   VObj [("id", VStr "6"); ("text", VStr "service"); ("type", VStr "term")]].

(** The text of the entry contains the term, letters compared in lower
    case. *)
Definition mentions (term : string) (entry : value) : bool :=
  match prop entry "text" with
  | VStr text => includes (toLowerCase text) (toLowerCase term)
  | _ => false
  end.

(** The static suggestions that mention the term, in the order of the
    list. *)
Definition static_matches (term : string) : list value :=
  List.filter (mentions term) static_list.

(** The suggest call of [getSuggestions term limit] in the world [w]. *)
Definition suggest_call (term : string) (limit : number) (w : World) : result value * World :=
  Client.get (Search.suggest_endpoint (cognitorApi w))
    (Some [("q", VStr term); ("limit", VNum limit)]) Search.suggest_options w.

(** The fallback of C4 as the specification words it: for a term that is
    not blank and a suggest call that does not deliver, the answer is
    successful and its data are static suggestions that mention the term,
    taken from the front of the list and [limit] of them at most. *)
Definition static_fallback_as_stated : Prop :=
  forall (term : string) (limit : Z) (w : World),
    trim term <> "" ->
    no_suggestions (suggest_call term (Int limit) w) ->
    exists r data rest,
      fst (Search.getSuggestions term (Some (Int limit)) w) = Return r
      /\ prop r "success" = VBool true
      /\ prop r "data" = VArr data
      /\ static_matches term = data ++ rest
      /\ Z.of_nat (length data) <= limit.

(** The storage holds the list [terms] of recent searches: as the JSON
    text of that list, or, for the empty list, also as no entry at all. *)
Definition holds_list (st : Host.Storage) (terms : list string) : Prop :=
  Host.items st !! "cognitor-recent-searches" = Some (Host.Encoded (VArr (map VStr terms)))
  \/ (terms = []
      /\ (Host.items st !! "cognitor-recent-searches" = None
          \/ Host.items st !! "cognitor-recent-searches" = Some Host.Blank)).

Definition stored_list (w : World) (terms : list string) : Prop :=
  exists st, window w = Some st /\ holds_list st terms.

(** The terms of [l] other than [term], in their order. *)
Definition others (term : string) (l : list string) : list string :=
  List.filter (fun s => negb (String.eqb s term)) l.

(** What [getRecentSearches] returns for a stored term. *)
Definition recent (term : string) : value :=
  VObj [("text", VStr term); ("type", VStr "page")].

(** C8 as the specification words it: whatever list is stored, after
    [saveRecentSearch term] the stored list starts with the term, holds
    it once, has 10 entries at most and keeps the other terms in their
    order; and [getRecentSearches limit] returns entries from the front
    of that list, [limit] of them at most. *)
Definition recent_searches_as_stated : Prop :=
  forall (term : string) (old : list string) (limit : Z) (w : World),
    stored_list w old ->
    let w' := snd (Search.saveRecentSearch term w) in
    exists (new returned rest : list string),
      stored_list w' new
      /\ new !! 0%nat = Some term
      /\ count_occ string_dec new term = 1%nat
      /\ (length new <= 10)%nat
      /\ sublist (tail new) old
      /\ fst (Search.getRecentSearches (Some (Int limit)) w') = Return (VArr (map recent returned))
      /\ new = returned ++ rest
      /\ Z.of_nat (length returned) <= limit.

(** A browser whose storage holds the given recent searches. *)
Definition browser (terms : list string) : World :=
  {| time := time offline; reads := 0; backend := backend offline; issued := [];
     window := Some {| Host.items := {[ Search.recentKey := Host.Encoded (VArr (map VStr terms)) ]};
                       Host.writable := true |};
     randoms := randoms offline; drawn := 0;
     cognitorApi := example_client |}.

(** ** Navigation *)

(** A menu for worked examples: a home link and a section with a page
    below it. *)
Definition link (id title url : string) (children : option (list Navigation.NavigationItem))
  : Navigation.NavigationItem :=
  {| Navigation.id := id; Navigation.title := title; Navigation.url := Some url;
     Navigation.slug := None; Navigation.external := None; Navigation.target := None;
     Navigation.children := children; Navigation.order := 0;
     Navigation.isActive := None |}.

Definition example_menu : list Navigation.NavigationItem :=
  [link "1" "Home" "/" None;
   link "2" "Services" "/services" (Some [link "3" "Tax" "/services/tax" None])].

(** The running path after the segments [l]: each one behind a slash. *)
Fixpoint slashed (l : list string) : string :=
  match l with
  | [] => ""
  | s :: rest => "/" +:+ s +:+ slashed rest
  end.

(** The entries that the [forEach] of [generateFallbackBreadcrumbs] pushes
    for the segments [rest], the first of them having index [index] and
    the running path being [currentPath]. *)
Fixpoint pushed `{Engine} (count index : nat) (currentPath : string) (rest : list string)
  : list Navigation.NavigationItem :=
  match rest with
  | [] => []
  | segment :: rest' =>
      {| Navigation.id := "breadcrumb-" +:+ string_of_Z (Z.of_nat index);
         Navigation.title := Navigation.formatSegmentTitle segment;
         Navigation.url := Some (currentPath +:+ "/" +:+ segment);
         Navigation.slug := None; Navigation.external := None;
         Navigation.target := None; Navigation.children := None;
         Navigation.order := Z.of_nat index + 1;
         Navigation.isActive := Some (Z.of_nat index =? Z.of_nat count - 1) |}
      :: pushed count (S index) (currentPath +:+ "/" +:+ segment) rest'
  end.

(** No slash occurs in the string. *)
Fixpoint slashless (s : string) : bool :=
  match s with
  | EmptyString => true
  | String c s' => negb (Ascii.eqb c "/") && slashless s'
  end.

(** The path has the non-empty segments [segments]: it is made of pieces
    that hold no slash, joined by slashes, and the segments are the
    pieces that are not empty, in their order. *)
Definition has_segments (path : string) (segments : list string) : Prop :=
  exists pieces : list string,
    path = String.concat "/" pieces
    /\ Forall (fun piece => slashless piece = true) pieces
    /\ segments = List.filter (fun piece => negb (String.eqb piece "")) pieces.

(** ** The proxy routes *)

Definition number_value (n : option number) : value :=
  match n with
  | Some x => VNum x
  | None => VUndefined
  end.

(** A forwarded value is the inbound one when it prints as the text of
    the parameter, or when the parameter is absent and so is the value. *)
Definition as_given (forwarded : value) (parameter : option string) : Prop :=
  match parameter with
  | Some text => ToString forwarded = Return text
  | None => forwarded = VUndefined
  end.

(** C2 as the specification words it, for GET /api/search: the query, the
    limit, the page, the category and the tags reach the search service
    with the values they have in the request. *)
Definition search_passes_unchanged (searchParams : list (string * string)) : Prop :=
  exists arguments filters,
    Routes.search_arguments searchParams = Some arguments
    /\ Search.filters arguments = Some filters
    /\ as_given (Search.query arguments) (Routes.searchParams_get "q" searchParams)
    /\ as_given (number_value (Search.limit arguments))
                (Routes.searchParams_get "limit" searchParams)
    /\ as_given (number_value (Search.offset arguments))
                (Routes.searchParams_get "page" searchParams)
    /\ Search.category filters = Routes.searchParams_get "category" searchParams
    /\ option_map (join ",") (Search.tags filters)
       = Routes.searchParams_get "tags" searchParams.

(** The same for GET /api/search/suggestions. *)
Definition suggestions_passes_unchanged (searchParams : list (string * string)) : Prop :=
  exists term limit,
    Routes.suggestions_arguments searchParams = Some (term, limit)
    /\ Some term = Routes.searchParams_get "q" searchParams
    /\ as_given (VNum limit) (Routes.searchParams_get "limit" searchParams).

(** ?q=%20cms%20&limit=10&page=2&category=news&tags=a,b *)
Definition example_request : list (string * string) :=
  [("q", " cms "); ("limit", "10"); ("page", "2"); ("category", "news"); ("tags", "a,b")].

Definition ok_response (response : value) : Routes.NextResponse :=
  {| Routes.body := response; Routes.status := 200 |}.

(** The first value that the request gives for the parameter [name]. *)
Definition inbound (name : string) (searchParams : list (string * string)) : option string :=
  option_map snd (List.find (fun entry => String.eqb (fst entry) name) searchParams).

(** White space: TAB, LF, VT, FF, CR, SP and NBSP. *)
Definition white_space (c : ascii) : bool :=
  existsb (N.eqb (N_of_ascii c)) [9; 10; 11; 12; 13; 32; 160]%N.

Fixpoint only_white_space (s : string) : bool :=
  match s with
  | EmptyString => true
  | String c s' => white_space c && only_white_space s'
  end.

(** The request carries no query: [q] is missing, empty, or white space
    only. *)
Definition without_query (searchParams : list (string * string)) : Prop :=
  match inbound "q" searchParams with
  | None => True
  | Some text => only_white_space text = true
  end.

(** The text of a parameter, or [fallback] when the parameter is missing
    or empty. *)
Definition text_or (fallback : string) (parameter : option string) : string :=
  match parameter with
  | None | Some EmptyString => fallback
  | Some text => text
  end.

(** The parameter when it is there and not empty. *)
Definition non_empty (parameter : option string) : option string :=
  match parameter with
  | Some EmptyString => None
  | other => other
  end.

(** The numbers on which the arithmetic of the routes is exact: not a
    number, or an integer of magnitude 2^26 at most, so that products stay
    below 2^53. *)
Definition small (n : number) : Prop :=
  match n with
  | NaN => True
  | Int z => -67108864 <= z <= 67108864
  end.

(** ?q=%20%20&limit=10 *)
Definition blank_request : list (string * string) := [("q", "  "); ("limit", "10")].

(** ** The content-reference resolver *)





(** { items: [ { title: "" } ] } *)
Definition untitled_block : list (string * value) :=
  [("items", VArr [VObj [("title", VStr "")]])].

(** { items: [ null, { title: "A" } ] } *)
Definition block_with_null : list (string * value) :=
  [("items", VArr [VNull; VObj [("title", VStr "A")]])].








(* ===================================================================== *)
(** * Vocabulary of the further properties                                *)
(* ===================================================================== *)

(** The value of the header [name], if it is among [headers]. *)
Fixpoint header (name : string) (headers : list (string * string)) : option string :=
  match headers with
  | [] => None
  | (k, v) :: rest => if String.eqb name k then Some v else header name rest
  end.

(** The options that [get] hands to [request]. *)
Definition as_get (options : Client.RequestOptions) : Client.RequestOptions :=
  {| Client.method := Some "GET"; Client.headers := Client.headers options;
     Client.body := Client.body options; Client.cache := Client.cache options;
     Client.next := Client.next options |}.

(** The time recorded for an endpoint, 0 when there is none. *)
Definition last_recorded (w : World) (endpoint : string) : Z :=
  default 0 (rateLimitTracker (cognitorApi w) !! endpoint).

(** A world whose backend answers every request with [response]. *)
Definition answering (response : Host.Response) : World :=
  {| time := time offline; reads := 0;
     backend := fun _ _ => Host.Resolves response;
     issued := []; window := None;
     randoms := randoms offline; drawn := 0;
     cognitorApi := example_client |}.

(** What the [catch] of [request] throws for the exception [e] that
    reached it. *)
Definition reported (e : exn) : exn :=
  match e with
  | CognitorApiError _ _ _ _ => e
  | TypeError m | Error m => CognitorApiError 0 (VStr "NETWORK_ERROR") (VStr m) VUndefined
  | Thrown _ =>
      CognitorApiError 0 (VStr "NETWORK_ERROR") (VStr "Unknown network error") VUndefined
  end.

(** The body that stands in for an error body that is not JSON. *)
Definition unknown_error (response : Host.Response) : value :=
  VObj [("code", VStr "UNKNOWN_ERROR");
        ("message",
         VStr ("HTTP " +:+ string_of_Z (Host.status response) +:+ ": "
               +:+ Host.statusText response));
        ("statusCode", VNum (Int (Host.status response)))].

(** A 400 whose message cannot be converted to a string:
    { "code": "BAD", "message": { "toString": 1 } } *)
Definition unprintable_error_response : Host.Response :=
  {| Host.status := 400; Host.statusText := "Bad Request";
     Host.json := Return (VObj [("code", VStr "BAD");
                                ("message", VObj [("toString", VNum (Int 1))])]) |}.

Definition not_found_response : Host.Response :=
  {| Host.status := 404; Host.statusText := "Not Found";
     Host.json := Return (VObj [("code", VStr "PAGE_NOT_FOUND")]) |}.

Definition null_error_response : Host.Response :=
  {| Host.status := 503; Host.statusText := "Service Unavailable";
     Host.json := Return VNull |}.

(** An answer of the search backend with two results. *)
Definition found_response : Host.Response :=
  {| Host.status := 200; Host.statusText := "OK";
     Host.json :=
       Return (VObj [("results",
                      VArr [VObj [("id", VNum (Int 7)); ("doc_type", VStr "content_element");
                                  ("title", VStr "Steuern"); ("content", VStr "a b c")];
                            VObj [("id", VNum (Int 9)); ("doc_type", VStr "news");
                                  ("title", VStr "Neu"); ("keywords", VStr "x,y")]]);
                     ("total", VNum (Int 2)); ("page", VNum (Int 1));
                     ("size", VNum (Int 10)); ("total_pages", VNum (Int 1))]) |}.

(** The list of recent searches that [JSON.parse] finds in a storage, if
    it finds an array. *)
Definition readable (st : Host.Storage) : option (list value) :=
  match Host.items st !! Search.recentKey with
  | None | Some Host.Blank => Some []
  | Some (Host.Encoded (VArr l)) => Some l
  | _ => None
  end.

(** The list [saveRecentSearch term] writes over the list [l]. *)
Definition kept (term : string) (l : list value) : list value :=
  slice0 (VStr term :: List.filter (Search.differs term) l) (Int Search.maxRecentSearches).

(** The world after [saveRecentSearch term]. *)
Definition saved (term : string) (w : World) : World :=
  match window w with
  | Some st =>
      match readable st with
      | Some l =>
          if Host.writable st then
            snd (set_window
                   (Some {| Host.items :=
                              <[Search.recentKey := Host.Encoded (VArr (kept term l))]>
                                (Host.items st);
                            Host.writable := Host.writable st |}) w)
          else w
      | None => w
      end
  | None => w
  end.

(** The entry of the browser storage under [key], if there is a storage
    and an entry. *)
Definition stored_at (w : World) (key : string) : option Host.stored :=
  st ← window w; Host.items st !! key.

(** What [search] makes of [found_response]. *)
Definition found_page : value :=
  Eval vm_compute in
    match fst (@Search.search example_engine (plain_query "cms") (answering found_response)) with
    | Return r => r
    | Throw _ => VUndefined
    end.

(** A result of the search backend, and what [search] makes of it. *)
Definition example_result : value :=
  VObj [("id", VNum (Int 7)); ("doc_type", VStr "content_element");
        ("title", VStr "Steuern"); ("content", VStr "a b c")].

Definition example_item : value :=
  Eval vm_compute in
    match Search.transformResult example_result with
    | Return item => item
    | Throw _ => VUndefined
    end.

(** The request of [getBreadcrumbs]. *)
Definition breadcrumbs_request (currentPath : string) : M value :=
  Client.get "navigation/breadcrumbs" (Some [("path", VStr currentPath)])
    Navigation.breadcrumbs_options.

(** ** Themes *)

(** The fetch of the file of the theme [name]. *)
Definition theme_fetch (name : string) : Host.Fetch :=
  {| Host.url := Theme.theme_file name; Host.init := Theme.bare |}.

(** A theme with an id, a name and each of the ten required colours. *)
Definition complete (theme : value) : Prop :=
  truthy (prop theme "id") = true
  /\ truthy (prop theme "name") = true
  /\ truthy (prop theme "colors") = true
  /\ Forall (fun color => truthy (prop (prop theme "colors") color) = true)
            ["primary"; "secondary"; "background"; "foreground";
             "muted"; "accent"; "destructive"; "border"; "input"; "ring"].

(** The file asked for is not there: the fetch fails or answers with a
    status outside 200..299. *)
Definition missing (outcome : Host.FetchOutcome) : Prop :=
  match outcome with
  | Host.Rejects _ => True
  | Host.Resolves r => Host.ok r = false
  end.

(** ** Revalidation *)


(** The secret the route accepts in the body: the configured one, or none
    at all where none is configured. *)
Definition accepted_secret (configured : option string) : value :=
  match configured with
  | Some c => VStr c
  | None => VUndefined
  end.

Definition example_body : value :=
  VObj [("secret", VStr "s3cret"); ("paths", VArr [VStr "/a"; VStr "/b"]);
        ("tags", VArr [VStr "pages"])].

(** ** Pages *)

(** [params.preview] as a condition. *)
Definition previewing (params : Pages.GetPageParams) : bool :=
  match Pages.preview params with
  | Some true => true
  | _ => false
  end.

(** The fetch is a GET that carries the caching options [options]. *)
Definition cached_as (options : Client.RequestOptions) (f : Host.Fetch) : Prop :=
  Host.method (Host.init f) = "GET"
  /\ Host.cache (Host.init f) = default "default" (Client.cache options)
  /\ Host.next (Host.init f) = Client.next options.

(* ===================================================================== *)
(** * Properties of the client                                            *)
(* ===================================================================== *)

Lemma checkRateLimit_run endpoint w :
  Client.checkRateLimit endpoint w = (Return tt, checked endpoint w).
Proof.
  unfold Client.checkRateLimit, checked, recorded, Date_now, set_rateLimitTracker. run.
  destruct (_ <? 1000); reflexivity.
Qed.

Lemma recorded_fields endpoint w :
  baseUrl (recorded endpoint w) = baseUrl (cognitorApi w)
  /\ _siteId (recorded endpoint w) = _siteId (cognitorApi w)
  /\ apiKey (recorded endpoint w) = apiKey (cognitorApi w).
Proof. unfold recorded. destruct (_ <? 1000); auto. Qed.

Lemma buildUrl_recorded endpoint e w :
  Client.buildUrl (recorded endpoint w) e = Client.buildUrl (cognitorApi w) e.
Proof.
  destruct (recorded_fields endpoint w) as (Hb & Hs & _).
  unfold Client.buildUrl. rewrite Hb, Hs. reflexivity.
Qed.

Lemma requestInit_recorded endpoint options w :
  Client.requestInit (recorded endpoint w) options
  = Client.requestInit (cognitorApi w) options.
Proof.
  destruct (recorded_fields endpoint w) as (_ & _ & Hk).
  unfold Client.requestInit, Client.getHeaders. rewrite Hk. reflexivity.
Qed.

(** Whatever the backend answers, [request] leaves the world in the
    state [requested]: one reading of the clock, one fetch. *)
Lemma request_world endpoint options w :
  snd (Client.request endpoint options w) = requested endpoint options w.
Proof.
  unfold Client.request. run. rewrite checkRateLimit_run.
  unfold fetch, requested, outbound, checked; cbn.
  repeat case_step; reflexivity.
Qed.

(** Every exception that leaves [request] is a [CognitorApiError]. *)
Lemma request_throws_api_error endpoint options w e :
  fst (Client.request endpoint options w) = Throw e ->
  is_api_error (@Throw value e).
Proof.
  unfold Client.request. run. rewrite checkRateLimit_run.
  unfold fetch; cbn.
  repeat case_step; intros [= <-]; exact I.
Qed.

(** A rejected fetch and a response that is not ok both end in a throw. *)
Lemma request_fails endpoint options w :
  match backend w (issued w) (outbound endpoint options w) with
  | Host.Rejects _ => True
  | Host.Resolves r => Host.ok r = false
  end ->
  exists e, fst (Client.request endpoint options w) = Throw e.
Proof.
  unfold Client.request, outbound. run. rewrite checkRateLimit_run.
  unfold fetch; cbn.
  destruct (backend w (issued w) _) as [e0 | r]; cbn.
  - intros _. destruct e0; cbn; eauto.
  - intros ->; cbn. repeat case_step; eauto.
Qed.

(** C5.  The rate limiter never blocks or rejects: from every world (every
    clock reading, every content of the tracker) [checkRateLimit] returns
    normally, and the enclosing [request] goes on to issue its fetch, to
    the URL built from the endpoint. *)
Theorem rate_limiter_never_blocks
    (endpoint : string) (options : Client.RequestOptions) (w : World) :
  (exists w', Client.checkRateLimit endpoint w = (Return tt, w'))
  /\ issued (snd (Client.request endpoint options w))
     = {| Host.url := Client.buildUrl (cognitorApi w) endpoint;
          Host.init := Client.requestInit (cognitorApi w) options |} :: issued w.
Proof.
  split.
  - exists (checked endpoint w). apply checkRateLimit_run.
  - rewrite request_world. unfold requested, outbound; cbn.
    rewrite buildUrl_recorded, requestInit_recorded. reflexivity.
Qed.

(** C6.  [request] retries nothing: one invocation adds exactly one fetch
    to those issued, whatever the backend answers (and however it would
    answer a second attempt); when that fetch is rejected or its response
    is not ok, [request] throws a [CognitorApiError]. *)
Theorem request_retries_nothing
    (endpoint : string) (options : Client.RequestOptions) (w : World) :
  let r := fst (Client.request endpoint options w) in
  let w' := snd (Client.request endpoint options w) in
  let f := outbound endpoint options w in
  issued w' = f :: issued w
  /\ length (issued w') = S (length (issued w))
  /\ match backend w (issued w) f with
     | Host.Rejects _ => is_api_error r
     | Host.Resolves response => if Host.ok response then True else is_api_error r
     end.
Proof.
  cbn zeta. rewrite request_world. repeat split.
  pose proof (request_fails endpoint options w) as Hfails.
  pose proof (request_throws_api_error endpoint options w) as Hkind.
  destruct (backend w (issued w) (outbound endpoint options w)) as [e | response].
  - destruct (Hfails I) as [e' He']. rewrite He'. exact (Hkind e' He').
  - destruct (Host.ok response) eqn:Hok; [exact I |].
    destruct (Hfails eq_refl) as [e' He']. rewrite He'. exact (Hkind e' He').
Qed.

(** The tracker entry of "pages" before and after each of the three
    requests: the second request is not recorded. *)
Example three_requests_trace :
  let w1 := snd (Client.request "pages" Client.no_options three_requests) in
  let w2 := snd (Client.request "pages" Client.no_options w1) in
  let w3 := snd (Client.request "pages" Client.no_options w2) in
  map (fun w => rateLimitTracker (cognitorApi w) !! "pages") [three_requests; w1; w2; w3]
  = [None; Some 5000; Some 5000; Some 6200].
Proof. cbn zeta. rewrite !request_world. vm_compute. reflexivity. Qed.

(** C7, counterexample.  The second request (5500) comes too early to be
    recorded, so the entry still reads 5000 when the third arrives at
    6200: 700 ms after the previous request, the entry is overwritten. *)
Lemma quiet_period_counterexample : ~ quiet_period_as_stated.
Proof.
  intros claim.
  specialize (claim (snd (Client.request "pages" Client.no_options three_requests))
                    "pages" Client.no_options Client.no_options).
  cbn zeta in claim. rewrite !request_world in claim.
  specialize (claim ltac:(reflexivity)).
  vm_compute in claim. discriminate claim.
Qed.

(** C7, as amended.  [request] changes no field of the client but the
    tracker, and of the tracker no entry but the endpoint's; the entry is
    left alone when less than 1000 ms separate the clock reading from the
    time recorded for the endpoint (0 when there is none), and is set to
    the clock reading otherwise. *)
Theorem request_frame
    (endpoint : string) (options : Client.RequestOptions) (w : World) :
  let c := cognitorApi w in
  let c' := cognitorApi (snd (Client.request endpoint options w)) in
  let now := time w (reads w) in
  baseUrl c' = baseUrl c /\ _siteId c' = _siteId c /\ apiKey c' = apiKey c
  /\ (forall other, other <> endpoint ->
        rateLimitTracker c' !! other = rateLimitTracker c !! other)
  /\ rateLimitTracker c'
     = if now - default 0 (rateLimitTracker c !! endpoint) <? 1000
       then rateLimitTracker c
       else <[endpoint := now]> (rateLimitTracker c).
Proof.
  cbn zeta. rewrite request_world. unfold requested; cbn.
  destruct (recorded_fields endpoint w) as (Hb & Hs & Hk).
  repeat split; try assumption.
  - intros other Hother. unfold recorded.
    destruct (_ <? 1000); cbn; [reflexivity |].
    apply lookup_insert_ne. congruence.
  - unfold recorded. destruct (_ <? 1000); reflexivity.
Qed.

Lemma request_frame_witness :
  rateLimitTracker
    (cognitorApi (snd (Client.request "pages" Client.no_options three_requests)))
    !! "navigation"
  = rateLimitTracker (cognitorApi three_requests) !! "navigation".
Proof.
  apply (request_frame "pages" Client.no_options three_requests).
  discriminate.
Defined.

(* ===================================================================== *)
(** * Properties of the search service                                    *)
(* ===================================================================== *)

#[local] Arguments Client.get : simpl never.

(** [search] catches whatever goes wrong: it always returns. *)
Lemma search_never_throws `{Engine} (q : Search.SearchQuery) (w : World) :
  exists r, fst (Search.search q w) = Return r.
Proof.
  unfold Search.search. run. repeat case_step; eauto.
Qed.

Lemma truthy_read_false (v : value) (k : string) :
  truthy (prop v k) = false ->
  match read v k with
  | Return x => truthy x = false
  | Throw _ => True
  end.
Proof. destruct v; cbn; auto. Qed.

Lemma search_failed `{Engine} (q : Search.SearchQuery) (w : World) :
  let call := Client.get ("search/sites/" +:+ _siteId (cognitorApi w))
                (Some (Search.queryParams q)) Search.search_options w in
  failed call ->
  exists message, Search.search q w = (Return (Search.empty_page q message), snd call).
Proof.
  cbn zeta. unfold failed, Search.search. run.
  destruct (Client.get _ _ _ w) as [[response | e] w']; cbn; [| eauto].
  intros Hfalse. apply truthy_read_false in Hfalse.
  destruct (read response "success") as [success | e]; cbn; [| eauto].
  rewrite Hfalse; cbn.
  destruct (read response "data"); cbn; eauto.
Qed.

(** C3.  [search] turns every failure into an empty page: when the call to
    the backend throws or its response is not successful, [search]
    returns (it does not throw) a response with [success = false], no
    items, [total = 0], [page = 1] and [limit = query.limit || 10]. *)
Theorem search_failure_is_empty_page `{Engine} (q : Search.SearchQuery) (w : World) :
  let call := Client.get ("search/sites/" +:+ _siteId (cognitorApi w))
                (Some (Search.queryParams q)) Search.search_options w in
  failed call ->
  exists r,
    Search.search q w = (Return r, snd call)
    /\ prop r "success" = VBool false
    /\ prop (prop r "data") "items" = VArr []
    /\ prop (prop r "data") "total" = VNum (Int 0)
    /\ prop (prop r "data") "page" = VNum (Int 1)
    /\ prop (prop r "data") "limit"
       = VNum (Int match Search.limit q with
                   | Some (Int n) => if n =? 0 then 10 else n
                   | _ => 10
                   end).
Proof.
  intros call Hfailed.
  destruct (search_failed q w Hfailed) as [message Hrun].
  exists (Search.empty_page q message). split; [exact Hrun |].
  repeat split.
Qed.

Lemma search_failure_is_empty_page_witness :
  exists r,
    @Search.search example_engine (plain_query "cms") offline
    = (Return r,
       snd (Client.get ("search/sites/" +:+ _siteId (cognitorApi offline))
              (Some (Search.queryParams (plain_query "cms"))) Search.search_options offline))
    /\ prop r "success" = VBool false
    /\ prop (prop r "data") "items" = VArr []
    /\ prop (prop r "data") "total" = VNum (Int 0)
    /\ prop (prop r "data") "page" = VNum (Int 1)
    /\ prop (prop r "data") "limit" = VNum (Int 10).
Proof.
  apply (@search_failure_is_empty_page example_engine (plain_query "cms") offline).
  vm_compute. exact I.
Defined.

Lemma slice0_take {A} (l : list A) (n : Z) :
  0 <= n -> slice0 l (Int n) = take (Z.to_nat n) l.
Proof.
  intros Hn. unfold slice0. destruct (n <? 0) eqn:Hneg; [lia | reflexivity].
Qed.

Lemma slice0_map {A B} (f : A -> B) (l : list A) (e : number) :
  slice0 (map f l) e = map f (slice0 l e).
Proof.
  destruct e as [| z]; [reflexivity |].
  unfold slice0. rewrite length_map. destruct (z <? 0); apply firstn_map.
Qed.

Lemma getStaticSuggestions_slice (term : string) (limit : number) :
  Search.getStaticSuggestions term limit
  = map Search.term_suggestion (slice0 (matching_static term) limit).
Proof. apply slice0_map. Qed.

(** With a term that is not blank and a suggest call that does not
    deliver, the static suggestions are the answer, marked successful. *)
Lemma getSuggestions_fallback (term : string) (limit : option number) (w : World) :
  trim term <> "" ->
  let n := default (Int 5) limit in
  let call := Client.get (Search.suggest_endpoint (cognitorApi w))
                (Some [("q", VStr term); ("limit", VNum n)]) Search.suggest_options w in
  no_suggestions call ->
  exists message,
    Search.getSuggestions term limit w
    = (Return (VObj [("data", VArr (Search.getStaticSuggestions term n));
                     ("success", VBool true); ("message", VStr message)]),
       snd call).
Proof.
  intros Hterm. cbn zeta. unfold no_suggestions, Search.getSuggestions.
  destruct (String.eqb (trim term) "") eqn:Hblank.
  { apply String.eqb_eq in Hblank. contradiction. }
  run.
  destruct (Client.get _ _ _ w) as [[response | e] w']; cbn; [| eauto].
  destruct (read response "success") as [success | e] eqn:Hsuccess; cbn; [| eauto].
  assert (read response "data" = Return (prop response "data")) as ->.
  { destruct response; cbn in *; congruence. }
  cbn. destruct (prop response "data") as [| | | | | [| d ds] |]; cbn;
    intros Hdata; try contradiction; eauto.
Qed.

Lemma filter_map {A B} (p : B -> bool) (f : A -> B) (l : list A) :
  List.filter p (map f l) = map f (List.filter (fun x => p (f x)) l).
Proof.
  induction l as [| x l IH]; [reflexivity |].
  cbn. destruct (p (f x)); cbn; rewrite IH; reflexivity.
Qed.

(** The static suggestions of the code are the fixed list, and those it
    keeps for a term are the ones that mention it. *)
Lemma static_matches_eq (term : string) :
  static_matches term = map Search.term_suggestion (matching_static term).
Proof.
  unfold static_matches, matching_static.
  change static_list with (map Search.term_suggestion Search.staticSuggestions).
  apply filter_map.
Qed.

Lemma slice0_counting_from_the_end {A} (l : list A) (n : Z) :
  n < 0 -> slice0 l (Int n) = take (length l - Z.to_nat (- n)) l.
Proof.
  intros Hn. unfold slice0. destruct (n <? 0) eqn:Hneg; [| lia].
  f_equal. lia.
Qed.

(** C4, counterexample.  With the network down, [getSuggestions("e", -1)]
    answers with four of the five static suggestions that mention "e":
    [slice(0, -1)] drops the last entry; four entries are not -1 entries
    at most. *)
Lemma static_fallback_counterexample : ~ static_fallback_as_stated.
Proof.
  intros claim.
  destruct (claim "e" (-1) offline) as (r & data & rest & Hrun & _ & Hdata & _ & Hlength).
  - vm_compute. discriminate.
  - vm_compute. exact I.
  - vm_compute in Hrun. injection Hrun as <-.
    vm_compute in Hdata. injection Hdata as <-.
    vm_compute in Hlength. apply Hlength. reflexivity.
Qed.

(** C4, as amended.  [getSuggestions] never surfaces a failure of the
    suggest API.  A term that is empty or blank is answered at once,
    successfully and with no data, the world untouched (no call is made).
    For any other term, if the suggest call throws or returns data that
    are empty or not an array, the answer is successful and its data are
    the static suggestions that mention the term (letters compared in
    lower case), cut by [slice(0, limit)]: the first [limit] of them, so
    [limit] entries at most, for a limit of 0 or more; all but the last
    [-limit] of them for a limit below 0; none for a limit that is not a
    number. *)
Theorem getSuggestions_never_fails (term : string) (limit : number) (w : World) :
  (trim term = "" ->
   Search.getSuggestions term (Some limit) w
   = (Return (VObj [("data", VArr []); ("success", VBool true)]), w))
  /\ (trim term <> "" ->
      no_suggestions (suggest_call term limit w) ->
      exists r data,
        Search.getSuggestions term (Some limit) w = (Return r, snd (suggest_call term limit w))
        /\ prop r "success" = VBool true
        /\ prop r "data" = VArr data
        /\ (forall n : Z,
              limit = Int n -> 0 <= n ->
              data = take (Z.to_nat n) (static_matches term)
              /\ (length data <= Z.to_nat n)%nat)
        /\ (forall n : Z,
              limit = Int n -> n < 0 ->
              data = take (length (static_matches term) - Z.to_nat (- n))
                          (static_matches term))
        /\ (limit = NaN -> data = [])).
Proof.
  split.
  - intros Hblank. unfold Search.getSuggestions. rewrite Hblank. reflexivity.
  - intros Hterm Hcall.
    destruct (getSuggestions_fallback term (Some limit) w Hterm Hcall)
      as [message Hrun].
    eexists _, (slice0 (static_matches term) limit). split; [exact Hrun |].
    split; [reflexivity |]. split.
    + rewrite static_matches_eq, slice0_map, <- getStaticSuggestions_slice. reflexivity.
    + split; [| split].
      * intros n -> Hn. rewrite slice0_take by assumption.
        split; [reflexivity |]. rewrite length_take. lia.
      * intros n -> Hn. apply slice0_counting_from_the_end. exact Hn.
      * intros ->. reflexivity.
Qed.

Lemma getSuggestions_never_fails_witness :
  exists r,
    Search.getSuggestions "Er" (Some (Int 2)) offline
    = (Return r, snd (suggest_call "Er" (Int 2) offline))
    /\ prop r "success" = VBool true
    /\ prop r "data"
       = VArr [VObj [("id", VStr "1"); ("text", VStr "steuerberater"); ("type", VStr "term")];
               VObj [("id", VStr "2"); ("text", VStr "beratung"); ("type", VStr "term")]].
Proof.
  destruct (proj2 (getSuggestions_never_fails "Er" (Int 2) offline))
    as (r & data & Hrun & Hsuccess & Hdata & Hcount & _).
  - vm_compute. discriminate.
  - vm_compute. exact I.
  - exists r. split; [exact Hrun |]. split; [exact Hsuccess |].
    rewrite Hdata. destruct (Hcount 2 eq_refl) as [-> _]; [discriminate | reflexivity].
Defined.

(** The entries of the witness: "Er" is found in every static suggestion
    but "kontakt"; the limit 2 keeps the first two. *)
Example static_matches_Er :
  take 2 (static_matches "Er")
  = [VObj [("id", VStr "1"); ("text", VStr "steuerberater"); ("type", VStr "term")];
     VObj [("id", VStr "2"); ("text", VStr "beratung"); ("type", VStr "term")]]
  /\ length (static_matches "Er") = 5%nat.
Proof. vm_compute. split; reflexivity. Qed.

(** A limit that is not a count is read as [slice] reads it: below zero
    it counts from the end.  With the network down,
    [getSuggestions("e", -1)] gives four of the five matching entries. *)
Example getSuggestions_negative_limit :
  exists r, fst (Search.getSuggestions "e" (Some (Int (-1))) offline) = Return r
            /\ prop r "data" = VArr (map Search.term_suggestion
                                         (take 4 (matching_static "e")))
            /\ length (matching_static "e") = 5%nat.
Proof. eexists. vm_compute. repeat split. Qed.

(** ** Recent searches *)

#[local] Arguments Search.recentKey : simpl never.

Lemma filter_differs (term : string) (l : list string) :
  List.filter (Search.differs term) (map VStr l) = map VStr (others term l).
Proof.
  induction l as [| s l IH]; [reflexivity |].
  cbn. destruct (String.eqb s term); cbn; rewrite IH; reflexivity.
Qed.

Lemma others_without (term : string) (l : list string) : ~ In term (others term l).
Proof.
  unfold others. intros Hin. apply filter_In in Hin as [_ Hne].
  rewrite String.eqb_refl in Hne. discriminate.
Qed.

Lemma others_sublist (term : string) (l : list string) : sublist (others term l) l.
Proof.
  induction l as [| s l IH]; cbn; [constructor |].
  destruct (String.eqb s term); cbn; [apply sublist_cons | apply sublist_skip]; exact IH.
Qed.

Lemma saveRecentSearch_run (term : string) (old : list string) (w : World)
    (st : Host.Storage) :
  window w = Some st -> Host.writable st = true -> holds_list st old ->
  Search.saveRecentSearch term w
  = (Return tt,
     {| time := time w; reads := reads w; backend := backend w; issued := issued w;
        window :=
          Some {| Host.items :=
                    <[Search.recentKey :=
                        Host.Encoded (VArr (map VStr (term :: take 9 (others term old))))]>
                      (Host.items st);
                  Host.writable := Host.writable st |};
        randoms := randoms w; drawn := drawn w; cognitorApi := cognitorApi w |}).
Proof.
  intros Hwindow Hwritable Hheld.
  unfold Search.saveRecentSearch, Search.localStorage_getItem,
    Search.localStorage_setItem, set_window.
  run. repeat (rewrite Hwindow; cbn).
  unfold holds_list in Hheld.
  change "cognitor-recent-searches" with Search.recentKey in Hheld.
  destruct Hheld as [Hitem | [-> [Hitem | Hitem]]]; rewrite Hitem; cbn;
    repeat (rewrite Hwindow; cbn); rewrite Hwritable; cbn; try reflexivity.
  rewrite filter_differs.
  change (Z.to_nat Search.maxRecentSearches) with 10%nat. cbn.
  rewrite firstn_map. reflexivity.
Qed.

Lemma getRecentSearches_run (terms : list string) (limit : number) (w : World) :
  stored_list w terms ->
  Search.getRecentSearches (Some limit) w
  = (Return (VArr (map Search.recent_entry (map VStr (slice0 terms limit)))), w).
Proof.
  intros (st & Hwindow & Hheld).
  unfold Search.getRecentSearches, Search.localStorage_getItem.
  run. repeat (rewrite Hwindow; cbn).
  unfold holds_list in Hheld.
  change "cognitor-recent-searches" with Search.recentKey in Hheld.
  destruct Hheld as [Hitem | [-> [Hitem | Hitem]]]; rewrite Hitem; cbn.
  - rewrite slice0_map. reflexivity.
  - destruct limit as [| z]; [reflexivity |]. cbn. destruct (z <? 0); rewrite take_nil; reflexivity.
  - destruct limit as [| z]; [reflexivity |]. cbn. destruct (z <? 0); rewrite take_nil; reflexivity.
Qed.

(** C8, counterexample.  In a browser that holds the searches b, a, c and
    accepts the write, saving "a" stores a, b, c; [getRecentSearches(-1)]
    then returns the entries of a and b: [slice(0, -1)] drops the last
    one, and two entries are not -1 entries at most. *)
Lemma recent_searches_counterexample : ~ recent_searches_as_stated.
Proof.
  intros claim.
  destruct (claim "a" ["b"; "a"; "c"] (-1) (browser ["b"; "a"; "c"]))
    as (new & returned & rest & _ & _ & _ & _ & _ & Hreturned & _ & Hlength).
  - eexists. split; [reflexivity |]. left. cbn. apply lookup_singleton_eq.
  - vm_compute in Hreturned. injection Hreturned as Hreturned.
    destruct returned as [| r1 [| r2 [| r3 returned]]]; try discriminate Hreturned.
    cbn in Hlength. lia.
Qed.

(** C8, as amended.  In a browser whose storage accepts the write and
    holds a list of recent searches, [saveRecentSearch term] stores a
    list that starts with [term], contains it once, has at most 10
    entries, and continues with the other terms of the old list in their
    old order (as far as the 10 entries reach); [getRecentSearches limit]
    then returns, as entries [{ text, type: 'page' }], the stored terms
    cut by [slice(0, limit)]: the first [limit] of them, so [limit]
    entries at most, for a limit of 0 or more; all but the last [-limit]
    for a limit below 0; none for a limit that is not a number. *)
Theorem saveRecentSearch_invariant
    (term : string) (old : list string) (limit : number) (w : World) (st : Host.Storage) :
  window w = Some st -> Host.writable st = true -> holds_list st old ->
  exists (new returned : list string) (w' : World),
    Search.saveRecentSearch term w = (Return tt, w')
    /\ stored_list w' new
    /\ new !! 0%nat = Some term
    /\ count_occ string_dec new term = 1%nat
    /\ (length new <= 10)%nat
    /\ tail new = take 9 (others term old)
    /\ sublist (tail new) old
    /\ Search.getRecentSearches (Some limit) w'
       = (Return (VArr (map (fun stored => VObj [("text", VStr stored); ("type", VStr "page")])
                            returned)), w')
    /\ (forall n : Z,
          limit = Int n -> 0 <= n ->
          returned = take (Z.to_nat n) new /\ (length returned <= Z.to_nat n)%nat)
    /\ (forall n : Z,
          limit = Int n -> n < 0 -> returned = take (length new - Z.to_nat (- n)) new)
    /\ (limit = NaN -> returned = []).
Proof.
  intros Hwindow Hwritable Hheld.
  pose proof (saveRecentSearch_run term old w st Hwindow Hwritable Hheld) as Hrun.
  eexists (term :: take 9 (others term old)),
          (slice0 (term :: take 9 (others term old)) limit), _.
  split; [exact Hrun |].
  assert (stored_list
            {| time := time w; reads := reads w; backend := backend w; issued := issued w;
               window :=
                 Some {| Host.items :=
                           <[Search.recentKey :=
                               Host.Encoded
                                 (VArr (map VStr (term :: take 9 (others term old))))]>
                             (Host.items st);
                         Host.writable := Host.writable st |};
               randoms := randoms w; drawn := drawn w; cognitorApi := cognitorApi w |}
            (term :: take 9 (others term old))) as Hstored.
  { eexists. split; [reflexivity |]. left. cbn. apply lookup_insert_eq. }
  split; [exact Hstored |].
  split; [reflexivity |].
  split.
  { cbn. destruct (string_dec term term) as [_ | Hne]; [| contradiction].
    f_equal. apply count_occ_not_In. intros Hin.
    apply (others_without term old). apply list_elem_of_In.
    apply (elem_of_sublist (take 9 (others term old))); [| apply sublist_take].
    apply list_elem_of_In. exact Hin. }
  split.
  { cbn. rewrite length_take. lia. }
  split; [reflexivity |].
  split.
  { cbn. etransitivity; [apply sublist_take | apply others_sublist]. }
  split.
  { rewrite (getRecentSearches_run _ limit _ Hstored), map_map. reflexivity. }
  split; [| split].
  - intros n -> Hn. rewrite slice0_take by assumption.
    split; [reflexivity |]. rewrite length_take. lia.
  - intros n -> Hn. apply slice0_counting_from_the_end. exact Hn.
  - intros ->. reflexivity.
Qed.

Lemma saveRecentSearch_invariant_witness :
  exists w' : World,
    Search.saveRecentSearch "a" (browser ["b"; "a"; "c"]) = (Return tt, w')
    /\ stored_list w' ["a"; "b"; "c"]
    /\ Search.getRecentSearches (Some (Int 2)) w'
       = (Return (VArr [VObj [("text", VStr "a"); ("type", VStr "page")];
                        VObj [("text", VStr "b"); ("type", VStr "page")]]), w').
Proof.
  destruct (saveRecentSearch_invariant "a" ["b"; "a"; "c"] (Int 2) (browser ["b"; "a"; "c"])
              {| Host.items :=
                   {[ Search.recentKey := Host.Encoded (VArr (map VStr ["b"; "a"; "c"])) ]};
                 Host.writable := true |})
    as (new & returned & w' & Hrun & Hstored & Hfirst & _ & _ & Htail & _ & Hget & Hcount & _).
  - reflexivity.
  - reflexivity.
  - left. cbn. apply lookup_singleton_eq.
  - assert (new = ["a"; "b"; "c"]) as ->.
    { destruct new as [| first rest]; [discriminate Hfirst |].
      injection Hfirst as ->. cbn in Htail. rewrite Htail. reflexivity. }
    destruct (Hcount 2 eq_refl) as [-> _]; [discriminate |].
    exists w'. split; [exact Hrun |]. split; [exact Hstored |]. exact Hget.
Defined.

(* ===================================================================== *)
(** * Properties of the navigation service                                *)
(* ===================================================================== *)

Lemma lookup_map {A B} (f : A -> B) (l : list A) (i : nat) :
  map f l !! i = option_map f (l !! i).
Proof.
  revert i. induction l as [| x l IH]; intros [| i]; cbn; auto.
Qed.

(** C10.  [markActiveNavigation] changes only the [isActive] flags: the
    result has the length and the order of the input; each item keeps its
    id, title, url, slug, external, target and order; and the children of
    each item, when there are any, are marked by the same function. *)
Theorem markActiveNavigation_frame
    (navigation : list Navigation.NavigationItem) (currentPath : string) :
  let marked := Navigation.markActiveNavigation navigation currentPath in
  length marked = length navigation
  /\ forall (i : nat) (item : Navigation.NavigationItem),
       navigation !! i = Some item ->
       exists item',
         marked !! i = Some item'
         /\ Navigation.id item' = Navigation.id item
         /\ Navigation.title item' = Navigation.title item
         /\ Navigation.url item' = Navigation.url item
         /\ Navigation.slug item' = Navigation.slug item
         /\ Navigation.external item' = Navigation.external item
         /\ Navigation.target item' = Navigation.target item
         /\ Navigation.order item' = Navigation.order item
         /\ Navigation.isActive item'
            = Some (Navigation.isNavigationItemActive item currentPath)
         /\ Navigation.children item'
            = option_map (fun cs => Navigation.markActiveNavigation cs currentPath)
                         (Navigation.children item).
Proof.
  cbn zeta. unfold Navigation.markActiveNavigation. split.
  - apply length_map.
  - intros i item Hitem. rewrite lookup_map, Hitem. cbn.
    eexists. split; [reflexivity |].
    destruct item as [? ? ? ? ? ? children ? ?]; cbn.
    destruct children; repeat split.
Qed.

Lemma markActiveNavigation_frame_witness :
  exists item',
    Navigation.markActiveNavigation example_menu "/services/tax" !! 1%nat = Some item'
    /\ Navigation.id item' = "2"
    /\ Navigation.title item' = "Services"
    /\ Navigation.url item' = Some "/services"
    /\ Navigation.slug item' = None
    /\ Navigation.external item' = None
    /\ Navigation.target item' = None
    /\ Navigation.order item' = 0
    /\ Navigation.isActive item' = Some true
    /\ Navigation.children item'
       = Some (Navigation.markActiveNavigation [link "3" "Tax" "/services/tax" None]
                 "/services/tax").
Proof.
  apply (proj2 (markActiveNavigation_frame example_menu "/services/tax") 1%nat
           (link "2" "Services" "/services" (Some [link "3" "Tax" "/services/tax" None]))).
  reflexivity.
Defined.

(** ** Breadcrumbs *)

Lemma append_cons (x : ascii) (a b : string) : String x a +:+ b = String x (a +:+ b).
Proof. reflexivity. Qed.

Lemma append_assoc (a b c : string) : (a +:+ b) +:+ c = a +:+ (b +:+ c).
Proof.
  induction a as [| x a IH]; [reflexivity |].
  rewrite !append_cons, IH. reflexivity.
Qed.

Lemma append_empty_r (a : string) : a +:+ "" = a.
Proof.
  induction a as [| x a IH]; [reflexivity |].
  rewrite append_cons, IH. reflexivity.
Qed.

(** The running path is a slash followed by the segments joined by
    slashes, once there is a segment. *)
Lemma slashed_join (s : string) (l : list string) :
  slashed (s :: l) = "/" +:+ join "/" (s :: l).
Proof.
  revert s. induction l as [| s2 l IH]; intros s.
  - cbn. rewrite append_empty_r. reflexivity.
  - change (slashed (s :: s2 :: l)) with ("/" +:+ s +:+ slashed (s2 :: l)).
    rewrite IH. reflexivity.
Qed.

(** The [forEach] as a whole. *)
Lemma fold_push_segment `{Engine} (count : nat) (rest : list string) :
  forall (index : nat) (currentPath : string) (acc : list Navigation.NavigationItem),
    fold_left (Navigation.push_segment count)
              (combine (seq index (length rest)) rest) (currentPath, acc)
    = (currentPath +:+ slashed rest, acc ++ pushed count index currentPath rest).
Proof.
  induction rest as [| segment rest IH]; intros index currentPath acc.
  - cbn. rewrite append_empty_r, app_nil_r. reflexivity.
  - cbn [length seq combine fold_left Navigation.push_segment].
    rewrite IH. cbn [pushed slashed].
    rewrite <- app_assoc. cbn [app].
    rewrite !append_assoc. reflexivity.
Qed.

Lemma generateFallbackBreadcrumbs_pushed `{Engine} (path : string) :
  Navigation.generateFallbackBreadcrumbs path
  = Navigation.home (length (Navigation.segments_of path))
    :: pushed (length (Navigation.segments_of path)) 0 "" (Navigation.segments_of path).
Proof.
  unfold Navigation.generateFallbackBreadcrumbs, Navigation.indexed.
  rewrite fold_push_segment. reflexivity.
Qed.

Lemma length_pushed `{Engine} (count : nat) (rest : list string) :
  forall index currentPath, length (pushed count index currentPath rest) = length rest.
Proof.
  induction rest as [| s rest IH]; intros index currentPath; cbn; [| rewrite IH]; reflexivity.
Qed.

(** The entry pushed for the segment at position [j]. *)
Lemma pushed_lookup `{Engine} (count : nat) (rest : list string) :
  forall (index : nat) (currentPath : string) (j : nat),
    (j < length rest)%nat ->
    exists item,
      pushed count index currentPath rest !! j = Some item
      /\ Navigation.order item = Z.of_nat (index + j) + 1
      /\ Navigation.url item = Some (currentPath +:+ slashed (take (S j) rest))
      /\ Navigation.isActive item
         = Some (Z.of_nat (index + j) =? Z.of_nat count - 1).
Proof.
  induction rest as [| segment rest IH]; intros index currentPath j Hj;
    [cbn in Hj; lia |].
  destruct j as [| j].
  - eexists. split; [reflexivity |]. cbn [pushed Navigation.order Navigation.url
      Navigation.isActive]. rewrite Nat.add_0_r.
    repeat split. cbn. rewrite append_empty_r. reflexivity.
  - cbn in Hj.
    destruct (IH (S index) (currentPath +:+ "/" +:+ segment) j ltac:(lia))
      as (item & Hitem & Horder & Hurl & Hactive).
    exists item. split; [exact Hitem |].
    replace (index + S j)%nat with (S index + j)%nat by lia.
    repeat split; try assumption.
    rewrite Hurl. change (take (S (S j)) (segment :: rest))
      with (segment :: take (S j) rest).
    cbn [slashed]. rewrite !append_assoc. reflexivity.
Qed.

Lemma split_nonempty (sep : ascii) (s : string) : split sep s <> [].
Proof.
  destruct s as [| c s]; cbn; [discriminate |].
  destruct (Ascii.eqb c sep); [discriminate |].
  destruct (split sep s); discriminate.
Qed.

Lemma concat_cons (sep x y : string) (l : list string) :
  String.concat sep (x :: y :: l) = x +:+ sep +:+ String.concat sep (y :: l).
Proof. reflexivity. Qed.

Lemma join_split (sep : ascii) (s : string) :
  join (String sep EmptyString) (split sep s) = s.
Proof.
  unfold join. induction s as [| c s IH]; [reflexivity |].
  cbn [split]. destruct (Ascii.eqb c sep) eqn:Hc.
  - apply Ascii.eqb_eq in Hc as ->.
    destruct (split sep s) as [| piece rest] eqn:Hsplit; [destruct (split_nonempty _ _ Hsplit) |].
    rewrite concat_cons, IH. reflexivity.
  - destruct (split sep s) as [| piece rest] eqn:Hsplit; [destruct (split_nonempty _ _ Hsplit) |].
    destruct rest as [| piece' rest].
    + cbn in IH |- *. rewrite IH. reflexivity.
    + rewrite concat_cons in IH |- *. rewrite append_cons, IH. reflexivity.
Qed.

Lemma split_slashless (s : string) : slashless s = true -> split "/" s = [s].
Proof.
  induction s as [| c s IH]; [reflexivity |].
  cbn. destruct (Ascii.eqb c "/"); [discriminate |]. cbn.
  intros Hs. rewrite (IH Hs). reflexivity.
Qed.

Lemma split_slashless_append (s t : string) :
  slashless s = true -> split "/" (s +:+ String "/" t) = s :: split "/" t.
Proof.
  induction s as [| c s IH]; [reflexivity |].
  rewrite append_cons. cbn. destruct (Ascii.eqb c "/"); [discriminate |]. cbn.
  intros Hs. rewrite (IH Hs). reflexivity.
Qed.

Lemma split_pieces_slashless (s : string) : Forall (fun p => slashless p = true) (split "/" s).
Proof.
  induction s as [| c s IH]; [repeat constructor |].
  cbn [split]. destruct (Ascii.eqb c "/") eqn:Hc.
  - constructor; [reflexivity | exact IH].
  - destruct (split "/" s) as [| piece rest]; [repeat constructor; cbn; rewrite Hc; reflexivity |].
    inversion IH as [| ? ? Hpiece Hrest]; subst.
    constructor; [cbn; rewrite Hc, Hpiece; reflexivity | exact Hrest].
Qed.

Lemma split_join (pieces : list string) :
  pieces <> [] -> Forall (fun piece => slashless piece = true) pieces ->
  split "/" (String.concat "/" pieces) = pieces.
Proof.
  induction pieces as [| piece rest IH]; [contradiction |].
  intros _ Hall. apply Forall_cons in Hall as [Hpiece Hrest].
  destruct rest as [| next rest].
  - apply split_slashless. exact Hpiece.
  - rewrite concat_cons.
    change ("/" +:+ String.concat "/" (next :: rest))
      with (String "/" (String.concat "/" (next :: rest))).
    rewrite (split_slashless_append _ _ Hpiece), IH by (discriminate || assumption).
    reflexivity.
Qed.

(** The segments that the code takes from a path are its non-empty
    pieces. *)
Lemma segments_of_has_segments (path : string) (segments : list string) :
  has_segments path segments -> Navigation.segments_of path = segments.
Proof.
  intros (pieces & -> & Hall & ->). unfold Navigation.segments_of.
  destruct pieces as [| piece rest]; [reflexivity |].
  rewrite split_join by (discriminate || assumption). reflexivity.
Qed.

Lemma has_segments_segments_of (path : string) :
  has_segments path (Navigation.segments_of path).
Proof.
  exists (split "/" path). split; [symmetry; apply join_split |].
  split; [apply split_pieces_slashless | reflexivity].
Qed.

(** C9.  The fallback breadcrumbs are determined by the path.  Every path
    is made of pieces without a slash, joined by slashes, and the
    non-empty ones are its segments.  With [n] segments there are [n + 1]
    entries; the first is Home, at "/", of order 0, active exactly when
    [n = 0]; the entry at position [i] from 1 to [n] has order [i], the
    URL made of a slash and the first [i] segments joined by slashes, and
    is active exactly when [i = n]. *)
Theorem breadcrumbs_determined `{Engine} (path : string) :
  (exists segments, has_segments path segments)
  /\ forall segments : list string,
       has_segments path segments ->
       let n := length segments in
       let breadcrumbs := Navigation.generateFallbackBreadcrumbs path in
       length breadcrumbs = S n
       /\ (exists first,
             breadcrumbs !! 0%nat = Some first
             /\ Navigation.id first = "home" /\ Navigation.title first = "Home"
             /\ Navigation.url first = Some "/"
             /\ Navigation.order first = 0
             /\ Navigation.isActive first = Some (bool_decide (n = 0%nat)))
       /\ (forall i : nat, (1 <= i <= n)%nat ->
             exists item,
               breadcrumbs !! i = Some item
               /\ Navigation.order item = Z.of_nat i
               /\ Navigation.url item
                  = Some ("/" +:+ String.concat "/" (take i segments))
               /\ Navigation.isActive item = Some (bool_decide (i = n))).
Proof.
  split; [exists (Navigation.segments_of path); apply has_segments_segments_of |].
  intros segments Hsegments. cbn zeta.
  rewrite generateFallbackBreadcrumbs_pushed, (segments_of_has_segments _ _ Hsegments).
  clear Hsegments.
  split; [cbn; rewrite length_pushed; reflexivity |].
  split.
  - eexists. split; [reflexivity |]. cbn. repeat split.
    f_equal. destruct (length segments); reflexivity.
  - intros [| j] [Hlow Hhigh]; [lia |].
    destruct (pushed_lookup (length segments) segments 0 "" j ltac:(lia))
      as (item & Hitem & Horder & Hurl & Hactive).
    exists item. split; [exact Hitem |].
    split; [rewrite Horder; cbn; lia |].
    split.
    + rewrite Hurl. destruct segments as [| s rest]; [cbn in Hhigh; lia |].
      change (take (S j) (s :: rest)) with (s :: take j rest).
      rewrite slashed_join. reflexivity.
    + rewrite Hactive. f_equal. cbn [Nat.add].
      destruct (bool_decide_reflect (S j = length segments)) as [Heq | Hne].
      * apply Z.eqb_eq. lia.
      * apply Z.eqb_neq. lia.
Qed.

Lemma breadcrumbs_determined_witness :
  has_segments "/about-us//team/" ["about-us"; "team"]
  /\ exists item,
       @Navigation.generateFallbackBreadcrumbs example_engine "/about-us//team/" !! 2%nat
       = Some item
       /\ Navigation.order item = 2
       /\ Navigation.url item = Some "/about-us/team"
       /\ Navigation.isActive item = Some true.
Proof.
  assert (has_segments "/about-us//team/" ["about-us"; "team"]) as Hsegments.
  { exists [""; "about-us"; ""; "team"; ""].
    split; [reflexivity |]. split; [repeat constructor | reflexivity]. }
  split; [exact Hsegments |].
  apply (proj2 (proj2 (proj2 (@breadcrumbs_determined example_engine "/about-us//team/")
                         ["about-us"; "team"] Hsegments)) 2%nat).
  vm_compute. lia.
Defined.

(* ===================================================================== *)
(** * Properties of the proxy routes                                      *)
(* ===================================================================== *)

#[local] Arguments Search.search : simpl never.
#[local] Arguments Search.getSuggestions : simpl never.

(** [getSuggestions] always returns. *)
Lemma getSuggestions_never_throws (term : string) (limit : option number) (w : World) :
  exists r, fst (Search.getSuggestions term limit w) = Return r.
Proof.
  unfold Search.getSuggestions. run. repeat case_step; eauto.
Qed.

(** C2, counterexample.  For the request
    [?q=%20cms%20&limit=10&page=2&category=news&tags=a,b] the search
    service is handed the query "cms", not " cms ", and the offset 10 in
    place of the page 2; the suggestions route trims the term likewise. *)
Lemma routes_change_parameters :
  ~ search_passes_unchanged example_request
  /\ ~ suggestions_passes_unchanged example_request.
Proof.
  split.
  - intros (arguments & filters & Harguments & _ & Hquery & _).
    vm_compute in Harguments. injection Harguments as <-.
    vm_compute in Hquery. discriminate Hquery.
  - intros (term & limit & Harguments & Hterm & _).
    vm_compute in Harguments. injection Harguments as <- <-.
    vm_compute in Hterm. discriminate Hterm.
Qed.

Example example_request_forwarded :
  Routes.search_arguments example_request
  = Some {| Search.query := VStr "cms";
            Search.limit := Some (Int 10);
            Search.offset := Some (Int 10);
            Search.filters := Some {| Search.category := Some "news";
                                      Search.tags := Some ["a"; "b"];
                                      Search.contentType := None;
                                      Search.dateRange := None |} |}
  /\ Routes.suggestions_arguments example_request = Some ("cms", Int 10).
Proof. vm_compute. split; reflexivity. Qed.

Lemma searchParams_get_inbound (name : string) (searchParams : list (string * string)) :
  Routes.searchParams_get name searchParams = inbound name searchParams.
Proof.
  unfold inbound. induction searchParams as [| [k v] rest IH]; [reflexivity |].
  cbn. destruct (String.eqb k name); [reflexivity | exact IH].
Qed.

Lemma present_non_empty (parameter : option string) :
  Search.present parameter = non_empty parameter.
Proof. destruct parameter as [[| c text] |]; reflexivity. Qed.

Lemma get_or_text_or (name fallback : string) (searchParams : list (string * string)) :
  Routes.get_or name fallback searchParams = text_or fallback (inbound name searchParams).
Proof.
  unfold Routes.get_or. rewrite searchParams_get_inbound.
  destruct (inbound name searchParams) as [[| c text] |]; reflexivity.
Qed.

Lemma is_whitespace_white_space (c : ascii) : is_whitespace c = white_space c.
Proof. destruct c as [[] [] [] [] [] [] [] []]; reflexivity. Qed.

Lemma trimStart_white_space (s : string) : only_white_space s = true -> trimStart s = "".
Proof.
  induction s as [| c s IH]; [reflexivity |].
  cbn [only_white_space trimStart]. rewrite is_whitespace_white_space.
  destruct (white_space c); [exact IH | discriminate].
Qed.

Lemma trimStart_keeps_text (s : string) :
  only_white_space s = false -> only_white_space (trimStart s) = false.
Proof.
  induction s as [| c s IH]; [discriminate |].
  cbn [only_white_space trimStart]. rewrite is_whitespace_white_space.
  destruct (white_space c) eqn:Hc; [exact IH |].
  intros _. cbn [only_white_space]. rewrite Hc. reflexivity.
Qed.

Lemma only_white_space_rev_app (a b : string) :
  only_white_space (String.rev_app a b) = only_white_space a && only_white_space b.
Proof.
  revert b. induction a as [| c a IH]; intros b; [reflexivity |].
  cbn [String.rev_app only_white_space]. rewrite IH. cbn [only_white_space].
  destruct (white_space c), (only_white_space a); reflexivity.
Qed.

Lemma only_white_space_rev (s : string) :
  only_white_space (String.rev s) = only_white_space s.
Proof.
  unfold String.rev. rewrite only_white_space_rev_app. apply andb_true_r.
Qed.

Lemma trim_white_space (s : string) :
  Nat.eqb (String.length (trim s)) 0 = only_white_space s.
Proof.
  unfold trim, trimEnd.
  destruct (only_white_space s) eqn:Hs.
  - rewrite (trimStart_white_space s Hs). reflexivity.
  - apply trimStart_keeps_text in Hs. rewrite <- only_white_space_rev in Hs.
    apply trimStart_keeps_text in Hs. rewrite <- only_white_space_rev in Hs.
    destruct (String.rev (trimStart (String.rev (trimStart s)))); [discriminate | reflexivity].
Qed.

Lemma blank_without_query (searchParams : list (string * string)) :
  Routes.blank (Routes.searchParams_get "q" searchParams) = true
  <-> without_query searchParams.
Proof.
  unfold without_query, Routes.blank. rewrite searchParams_get_inbound.
  destruct (inbound "q" searchParams) as [[| c text] |]; cbn [Search.present String.eqb];
    try (split; reflexivity).
  rewrite trim_white_space. reflexivity.
Qed.

(** C2, as amended.  A request whose [q] is missing, empty or white space
    only is answered by both routes with status 400 and the body
    [{ error: 'Query parameter is required' }], and nothing is forwarded
    (the world is untouched).  Otherwise, for a limit and a page that are
    not numbers or are integers of magnitude 2^26 at most, the search
    route calls the search service with the query trimmed, the limit read
    by [parseInt] (from "10" when absent or empty), the offset
    [(page - 1) * limit] with the page read by [parseInt] (from "1"), the
    category (absent when empty) and the tags split at the commas, and
    answers 200 with what the service returns; the suggestions route
    calls [getSuggestions] with the term trimmed and the limit read by
    [parseInt] (from "5"), and answers 200 likewise. *)
Theorem routes_forward_normalised `{Engine}
    (searchParams : list (string * string)) (w : World) :
  let bad_request :=
    {| Routes.body := VObj [("error", VStr "Query parameter is required")];
       Routes.status := 400 |} in
  (without_query searchParams ->
   Routes.search_GET searchParams w = (Return bad_request, w)
   /\ Routes.suggestions_GET searchParams w = (Return bad_request, w))
  /\ (forall text : string,
        inbound "q" searchParams = Some text -> only_white_space text = false ->
        let limit := parseInt (text_or "10" (inbound "limit" searchParams)) in
        let page := parseInt (text_or "1" (inbound "page" searchParams)) in
        let suggest_limit := parseInt (text_or "5" (inbound "limit" searchParams)) in
        small limit -> small page -> small suggest_limit ->
        let arguments :=
          {| Search.query := VStr (trim text);
             Search.limit := Some limit;
             Search.offset :=
               Some (match page, limit with
                     | Int p, Int l => Int ((p - 1) * l)
                     | _, _ => NaN
                     end);
             Search.filters :=
               Some {| Search.category := non_empty (inbound "category" searchParams);
                       Search.tags := option_map (split ",") (inbound "tags" searchParams);
                       Search.contentType := None;
                       Search.dateRange := None |} |} in
        (exists response w',
           Search.search arguments w = (Return response, w')
           /\ Routes.search_GET searchParams w
              = (Return {| Routes.body := response; Routes.status := 200 |}, w'))
        /\ (exists response w',
              Search.getSuggestions (trim text) (Some suggest_limit) w = (Return response, w')
              /\ Routes.suggestions_GET searchParams w
                 = (Return {| Routes.body := response; Routes.status := 200 |}, w'))).
Proof.
  cbn zeta. split.
  - intros Hblank. apply blank_without_query in Hblank.
    unfold Routes.search_GET, Routes.suggestions_GET,
      Routes.search_arguments, Routes.suggestions_arguments.
    rewrite Hblank. split; reflexivity.
  - intros text Hq Htext _ _ _.
    assert (Routes.blank (Routes.searchParams_get "q" searchParams) = false) as Hblank.
    { destruct (Routes.blank _) eqn:Hblank; [| reflexivity].
      apply blank_without_query in Hblank. unfold without_query in Hblank.
      rewrite Hq in Hblank. congruence. }
    rewrite <- searchParams_get_inbound in Hq.
    rewrite <- !get_or_text_or, <- !searchParams_get_inbound, <- present_non_empty.
    split.
    + set (arguments :=
             {| Search.query := VStr (trim text);
                Search.limit := Some (parseInt (Routes.get_or "limit" "10" searchParams));
                Search.offset := _;
                Search.filters := _ |}).
      destruct (search_never_throws arguments w) as [response Hresponse].
      destruct (Search.search arguments w) as [r w'] eqn:Hrun. cbn in Hresponse. subst r.
      exists response, w'. split; [reflexivity |].
      unfold Routes.search_GET.
      replace (Routes.search_arguments searchParams) with (Some arguments).
      * run. rewrite Hrun. reflexivity.
      * unfold Routes.search_arguments. rewrite Hblank, Hq. subst arguments. cbn [default].
        do 2 f_equal.
        destruct (parseInt (Routes.get_or "page" "1" searchParams)),
          (parseInt (Routes.get_or "limit" "10" searchParams)); reflexivity.
    + destruct (getSuggestions_never_throws (trim text)
                  (Some (parseInt (Routes.get_or "limit" "5" searchParams))) w)
        as [response Hresponse].
      destruct (Search.getSuggestions _ _ w) as [r w'] eqn:Hrun. cbn in Hresponse. subst r.
      exists response, w'. split; [reflexivity |].
      unfold Routes.suggestions_GET.
      replace (Routes.suggestions_arguments searchParams)
        with (Some (trim text, parseInt (Routes.get_or "limit" "5" searchParams)))
        by (unfold Routes.suggestions_arguments; rewrite Hblank, Hq; reflexivity).
      run. rewrite Hrun. reflexivity.
Qed.

Lemma routes_forward_normalised_witness :
  (@Routes.search_GET example_engine blank_request offline
   = (Return {| Routes.body := VObj [("error", VStr "Query parameter is required")];
                Routes.status := 400 |}, offline)
   /\ Routes.suggestions_GET blank_request offline
      = (Return {| Routes.body := VObj [("error", VStr "Query parameter is required")];
                   Routes.status := 400 |}, offline))
  /\ (exists response w',
        @Search.search example_engine
          {| Search.query := VStr "cms";
             Search.limit := Some (Int 10);
             Search.offset := Some (Int 10);
             Search.filters := Some {| Search.category := Some "news";
                                       Search.tags := Some ["a"; "b"];
                                       Search.contentType := None;
                                       Search.dateRange := None |} |} offline
        = (Return response, w')
        /\ @Routes.search_GET example_engine example_request offline
           = (Return {| Routes.body := response; Routes.status := 200 |}, w'))
  /\ (exists response w',
        Search.getSuggestions "cms" (Some (Int 10)) offline = (Return response, w')
        /\ Routes.suggestions_GET example_request offline
           = (Return {| Routes.body := response; Routes.status := 200 |}, w')).
Proof.
  split.
  - apply (proj1 (@routes_forward_normalised example_engine blank_request offline)).
    reflexivity.
  - apply (proj2 (@routes_forward_normalised example_engine example_request offline) " cms ").
    + reflexivity.
    + reflexivity.
    + vm_compute. split; discriminate.
    + vm_compute. split; discriminate.
    + vm_compute. split; discriminate.
Defined.

(* ===================================================================== *)
(** * Properties of the content-reference resolver                        *)
(* ===================================================================== *)

#[local] Arguments Pages.getPages : simpl never.
#[local] Arguments Content.found_items : simpl never.






Lemma transform_object (rawData : value) : exists props, Client.transform rawData = VObj props.
Proof.
  destruct rawData as [| | b | [| z] | s | l | props]; cbn;
    rewrite ?andb_false_r; cbn; eauto.
  destruct (bool_decide _); eauto.
Qed.

(** What [request], and so [get], returns is always an object. *)
Lemma request_returns_object endpoint options w r :
  fst (Client.request endpoint options w) = Return r -> exists props, r = VObj props.
Proof.
  unfold Client.request. run. rewrite checkRateLimit_run.
  unfold fetch; cbn.
  repeat case_step; intros [= <-]; apply transform_object.
Qed.

Lemma get_returns_object endpoint params options w r :
  fst (Client.get endpoint params options w) = Return r -> exists props, r = VObj props.
Proof.
  unfold Client.get. run.
  destruct params as [ps |]; cbn.
  - destruct (Client.append_params ps); cbn; [| discriminate].
    destruct (Client.request _ _ w) as [[r' | e] w'] eqn:Hrun; cbn; [| discriminate].
    intros [= <-]. eapply request_returns_object. rewrite Hrun. reflexivity.
  - destruct (Client.request _ _ w) as [[r' | e] w'] eqn:Hrun; cbn; [| discriminate].
    intros [= <-]. eapply request_returns_object. rewrite Hrun. reflexivity.
Qed.





#[local] Arguments Search.map_method : simpl never.
#[local] Arguments Search.empty_page : simpl never.







Example untitled_block_goes_to_the_network :
  let '(result, w) :=
    @Content.resolveContentReferences example_engine (VObj untitled_block) "teaser" None
      offline in
  result = Throw (CognitorApiError 0 (VStr "NETWORK_ERROR") (VStr "fetch failed") VUndefined)
  /\ map Host.url (issued w)
     = ["https://cms.example/api/public/site-1/pages?limit=10&status=published";
        "https://cms.example/api/search/sites/site-1?q=content&size=10"].
Proof. vm_compute. split; reflexivity. Qed.

(** A null entry ahead of the resolved objects makes the test itself
    throw: [typeof null] is 'object' and null has no [title]. *)
Example null_entry_throws :
  @Content.resolveContentReferences example_engine (VObj block_with_null) "teaser" None
    offline
  = (Throw (TypeError "Cannot read properties of null (reading 'title')"), offline).
Proof. vm_compute. reflexivity. Qed.

(** An empty limit is no limit: [limit || 10] turns 0 into 10. *)
Example zero_limit_is_ten :
  @Content.resolveContentReferences example_engine
    (VObj [("refs", VArr [VObj [("title", VStr "A")]; VObj [("title", VStr "B")]])])
    "teaser" (Some (Int 0)) offline
  = (Return (VArr [VObj [("title", VStr "A")]; VObj [("title", VStr "B")]]), offline).
Proof. vm_compute. reflexivity. Qed.




(* ===================================================================== *)
(** * Further properties of the client                                    *)
(* ===================================================================== *)

(** X1.  A single leading slash does not change the URL that [buildUrl]
    gives: "/pages" and "pages" name the same resource. *)
Theorem buildUrl_leading_slash (c : CognitorApiClient) (endpoint : string) :
  startsWith endpoint "/" = false ->
  Client.buildUrl c ("/" +:+ endpoint) = Client.buildUrl c endpoint.
Proof.
  intros Hstart. unfold Client.buildUrl.
  assert (startsWith ("/" +:+ endpoint) "/" = true) as ->
    by (destruct endpoint; reflexivity).
  change (slice1 ("/" +:+ endpoint)) with endpoint.
  rewrite Hstart. reflexivity.
Qed.

Lemma buildUrl_leading_slash_witness :
  Client.buildUrl example_client "/pages" = Client.buildUrl example_client "pages".
Proof. apply (buildUrl_leading_slash example_client "pages"). reflexivity. Defined.

Lemma prefix_append (a b : string) : String.prefix a (a +:+ b) = true.
Proof.
  induction a as [| x a IH]; [destruct b; reflexivity |].
  rewrite append_cons. cbn. rewrite IH.
  destruct (ascii_dec x x); [reflexivity | contradiction].
Qed.

Lemma prefix_append_same (a b c : string) :
  String.prefix (a +:+ b) (a +:+ c) = String.prefix b c.
Proof.
  induction a as [| x a IH]; [reflexivity |].
  rewrite !append_cons. cbn. rewrite IH.
  destruct (ascii_dec x x); [reflexivity | contradiction].
Qed.

(** X2.  A legacy search endpoint, ["search/" + rest] with [rest] not
    already under ["sites/"], is rewritten to the search API of the site:
    [base/search/sites/{siteId}/rest]; only the leading ["search/"] is
    removed, whatever [rest] contains. *)
Theorem buildUrl_legacy_search (c : CognitorApiClient) (rest : string) :
  startsWith rest "sites/" = false ->
  Client.buildUrl c ("search/" +:+ rest)
  = baseUrl c +:+ "/search/sites/" +:+ _siteId c +:+ "/" +:+ rest.
Proof.
  intros Hrest. unfold Client.buildUrl.
  change (startsWith ("search/" +:+ rest) "/") with false. cbn match.
  assert (startsWith ("search/" +:+ rest) "search/sites/" = false) as ->.
  { unfold startsWith in *.
    change "search/sites/" with ("search/" +:+ "sites/").
    rewrite prefix_append_same. exact Hrest. }
  assert (startsWith ("search/" +:+ rest) "search/" = true) as ->
    by apply prefix_append.
  assert (replace ("search/" +:+ rest) "search/" "" = rest) as ->.
  { destruct rest; reflexivity. }
  reflexivity.
Qed.

Lemma buildUrl_legacy_search_witness :
  Client.buildUrl example_client "search/analytics?period=30d"
  = "https://cms.example/api/search/sites/site-1/analytics?period=30d".
Proof.
  apply (buildUrl_legacy_search example_client "analytics?period=30d"). reflexivity.
Defined.

Lemma header_set_prop_eq (name value : string) (headers : list (string * string)) :
  header name (set_prop name value headers) = Some value.
Proof.
  induction headers as [| [k v] rest IH]; cbn.
  - rewrite String.eqb_refl. reflexivity.
  - destruct (String.eqb name k) eqn:Hk; cbn.
    + rewrite String.eqb_refl. reflexivity.
    + rewrite Hk. exact IH.
Qed.

Lemma header_set_prop_ne (name other value : string) (headers : list (string * string)) :
  name <> other ->
  header name (set_prop other value headers) = header name headers.
Proof.
  intros Hne. induction headers as [| [k v] rest IH]; cbn.
  - apply String.eqb_neq in Hne. rewrite Hne. reflexivity.
  - destruct (String.eqb other k) eqn:Hk; cbn.
    + apply String.eqb_eq in Hk. subst k.
      apply String.eqb_neq in Hne. rewrite Hne. reflexivity.
    + destruct (String.eqb name k); [reflexivity | exact IH].
Qed.

Lemma set_prop_names {V} (name : string) (v : V) (props : list (string * V)) :
  forall k, In k (map fst (set_prop name v props)) <-> k = name \/ In k (map fst props).
Proof.
  intros k. induction props as [| [k' v'] rest IH]; cbn.
  - intuition.
  - destruct (String.eqb name k') eqn:Hk; cbn.
    + apply String.eqb_eq in Hk. subst k'. intuition.
    + rewrite IH. intuition.
Qed.

Lemma set_prop_NoDup {V} (name : string) (v : V) (props : list (string * V)) :
  List.NoDup (map fst props) -> List.NoDup (map fst (set_prop name v props)).
Proof.
  induction props as [| [k' v'] rest IH]; cbn; intros Hnodup.
  - constructor; [intros [] | constructor].
  - destruct (String.eqb name k') eqn:Hk; cbn.
    + apply String.eqb_eq in Hk. subst k'. exact Hnodup.
    + inversion Hnodup as [| ? ? Hnotin Hrest]; subst.
      constructor; [| exact (IH Hrest)].
      rewrite set_prop_names. intros [-> | Hin]; [| contradiction].
      rewrite String.eqb_refl in Hk. discriminate.
Qed.

Lemma spread_NoDup {V} (extra base : list (string * V)) :
  List.NoDup (map fst base) -> List.NoDup (map fst (spread base extra)).
Proof.
  unfold spread. revert base.
  induction extra as [| [k v] rest IH]; intros base Hnodup; cbn; [exact Hnodup |].
  apply IH. apply set_prop_NoDup. exact Hnodup.
Qed.

(** Whatever custom headers are passed, even with repeated names,
    [getHeaders] lists every header name once. *)
Lemma getHeaders_names_unique
    (c : CognitorApiClient) (customHeaders : list (string * string)) :
  List.NoDup (map fst (Client.getHeaders c customHeaders)).
Proof.
  unfold Client.getHeaders.
  assert (List.NoDup (map fst
            (spread [("Content-Type", "application/json"); ("Accept", "application/json")]
                    customHeaders))) as Hspread.
  { apply spread_NoDup. cbn.
    constructor; [intros [Heq | []]; discriminate Heq |].
    constructor; [intros [] | constructor]. }
  destruct (apiKey c) as [k |]; [| exact Hspread].
  destruct (String.eqb k ""); [exact Hspread |].
  apply set_prop_NoDup. exact Hspread.
Qed.

(** X3.  The API key wins: with a non-empty key configured, the
    Authorization header is the bearer token of that key, whatever the
    custom headers say; without a key, a custom Authorization header
    goes out as it is. *)
Theorem getHeaders_authorization
    (c : CognitorApiClient) (customHeaders : list (string * string)) :
  header "Authorization" (Client.getHeaders c customHeaders)
  = match apiKey c with
    | Some key =>
        if String.eqb key "" then header "Authorization" (spread [] customHeaders)
        else Some ("Bearer " +:+ key)
    | None => header "Authorization" (spread [] customHeaders)
    end.
Proof.
  assert (forall extra base base' : list (string * string),
            header "Authorization" base = header "Authorization" base' ->
            header "Authorization" (spread base extra)
            = header "Authorization" (spread base' extra)) as Hspread.
  { unfold spread. induction extra as [| [k v] rest IH]; intros base base' Hsame; cbn;
      [exact Hsame |].
    apply IH. destruct (String.eqb "Authorization" k) eqn:Hk.
    - apply String.eqb_eq in Hk. subst k. rewrite !header_set_prop_eq. reflexivity.
    - apply String.eqb_neq in Hk. rewrite !header_set_prop_ne by assumption. exact Hsame. }
  unfold Client.getHeaders.
  destruct (apiKey c) as [key |].
  - destruct (String.eqb key "").
    + apply Hspread. reflexivity.
    + apply header_set_prop_eq.
  - apply Hspread. reflexivity.
Qed.

Lemma new_CognitorApiError_Return (statusCode : Z) (code message details : value) error :
  Client.new_CognitorApiError statusCode code message details = Return error ->
  exists text, error = CognitorApiError statusCode code (VStr text) details.
Proof.
  unfold Client.new_CognitorApiError, mbind, result_bind, rbind.
  destruct message; try (intros [= <-]; eauto);
    destruct (ToString _) as [text |]; intros [= <-]; eauto.
Qed.

(** The run of [request] once the backend has answered with a response. *)
Lemma request_resolved endpoint options w response :
  backend w (issued w) (outbound endpoint options w) = Host.Resolves response ->
  fst (Client.request endpoint options w)
  = if Host.ok response then
      match Host.json response with
      | Return rawData => Return (Client.transform rawData)
      | Throw e => Throw (reported e)
      end
    else
      match match Host.json response with
            | Return errorData => errorData
            | Throw _ => unknown_error response
            end with
      | VNull =>
          Throw (CognitorApiError 0 (VStr "NETWORK_ERROR")
                   (VStr "Cannot read properties of null (reading 'code')") VUndefined)
      | VUndefined =>
          Throw (CognitorApiError 0 (VStr "NETWORK_ERROR")
                   (VStr "Cannot read properties of undefined (reading 'code')") VUndefined)
      | errorData =>
          match Client.new_CognitorApiError (Host.status response) (prop errorData "code")
                  (or (prop errorData "message") (VStr (Client.http_line response)))
                  (prop errorData "details") with
          | Return error => Throw error
          | Throw e => Throw (reported e)
          end
      end.
Proof.
  unfold outbound. intros Hbackend.
  unfold Client.request. run. rewrite checkRateLimit_run.
  unfold fetch; cbn. rewrite Hbackend; cbn.
  destruct (Host.ok response); cbn.
  - destruct (Host.json response) as [rawData | []]; reflexivity.
  - unfold unknown_error. change (Client.http_line response)
      with ("HTTP " +:+ string_of_Z (Host.status response) +:+ ": "
            +:+ Host.statusText response).
    destruct (Host.json response) as [[] | e]; cbn [read prop];
      try reflexivity;
      match goal with
      | |- context [Client.new_CognitorApiError ?s ?c ?m ?d] =>
          destruct (Client.new_CognitorApiError s c m d) as [error | []] eqn:Hnew;
          [apply new_CognitorApiError_Return in Hnew as [text ->] | | | |]; reflexivity
      end.
Qed.

(** The constructor stores the message as text, or throws what the
    conversion throws. *)
Lemma new_CognitorApiError_truthy (statusCode : Z) (code message details : value) :
  truthy message = true ->
  Client.new_CognitorApiError statusCode code message details
  = match ToString message with
    | Return text => Return (CognitorApiError statusCode code (VStr text) details)
    | Throw e => Throw e
    end.
Proof.
  destruct message; try discriminate; intros _; reflexivity.
Qed.

Lemma constructed_error (statusCode : Z) (code message details : value) :
  truthy message = true ->
  (forall text, ToString message = Return text ->
     match Client.new_CognitorApiError statusCode code message details with
     | Return error => @Throw value error
     | Throw e => Throw (reported e)
     end = Throw (CognitorApiError statusCode code (VStr text) details))
  /\ (forall reason, ToString message = Throw (TypeError reason) ->
        match Client.new_CognitorApiError statusCode code message details with
        | Return error => @Throw value error
        | Throw e => Throw (reported e)
        end = Throw (CognitorApiError 0 (VStr "NETWORK_ERROR") (VStr reason) VUndefined)).
Proof.
  intros Htruthy. rewrite (new_CognitorApiError_truthy _ _ _ _ Htruthy).
  split; [intros text -> | intros reason ->]; reflexivity.
Qed.

(** X4.  An HTTP error keeps its status as long as its message can be
    stored.  When the response is not ok and its body is not the JSON
    null, the error data are the body, or, for a body that is not JSON,
    the code UNKNOWN_ERROR with the line "HTTP status: statusText"; the
    message is that of the error data when it is truthy and that line
    otherwise.  If the message converts to a string, [request] throws a
    [CognitorApiError] with the status of the response, the code and the
    details of the error data and that string; if the conversion throws a
    TypeError, the status is lost: the error has status 0, the code
    NETWORK_ERROR and the message of the TypeError. *)
Theorem http_error_keeps_status endpoint options w response :
  backend w (issued w) (outbound endpoint options w) = Host.Resolves response ->
  Host.ok response = false ->
  Host.json response <> Return VNull ->
  Host.json response <> Return VUndefined ->
  let line :=
    "HTTP " +:+ string_of_Z (Host.status response) +:+ ": " +:+ Host.statusText response in
  let errorData :=
    match Host.json response with
    | Return body => body
    | Throw _ =>
        VObj [("code", VStr "UNKNOWN_ERROR"); ("message", VStr line);
              ("statusCode", VNum (Int (Host.status response)))]
    end in
  let message :=
    if truthy (prop errorData "message") then prop errorData "message" else VStr line in
  (forall text, ToString message = Return text ->
     fst (Client.request endpoint options w)
     = Throw (CognitorApiError (Host.status response) (prop errorData "code") (VStr text)
                (prop errorData "details")))
  /\ (forall reason, ToString message = Throw (TypeError reason) ->
        fst (Client.request endpoint options w)
        = Throw (CognitorApiError 0 (VStr "NETWORK_ERROR") (VStr reason) VUndefined)).
Proof.
  intros Hbackend Hok Hnull Hundefined. cbn zeta.
  rewrite (request_resolved _ _ _ _ Hbackend), Hok.
  destruct (Host.json response) as [body | e].
  - destruct body; try congruence; apply constructed_error; unfold or;
      match goal with
      | |- truthy (if truthy ?m then _ else _) = true =>
          destruct (truthy m) eqn:Hm; [exact Hm | reflexivity]
      end.
  - apply (constructed_error (Host.status response) (VStr "UNKNOWN_ERROR")). reflexivity.
Qed.

Lemma http_error_keeps_status_witness :
  fst (Client.request "pages/7" Client.no_options (answering not_found_response))
  = Throw (CognitorApiError 404 (VStr "PAGE_NOT_FOUND") (VStr "HTTP 404: Not Found")
             VUndefined)
  /\ fst (Client.request "pages/7" Client.no_options (answering unprintable_error_response))
     = Throw (CognitorApiError 0 (VStr "NETWORK_ERROR")
                (VStr "Cannot convert object to primitive value") VUndefined).
Proof.
  split.
  - apply (proj1 (http_error_keeps_status "pages/7" Client.no_options
                    (answering not_found_response) not_found_response
                    eq_refl eq_refl ltac:(discriminate) ltac:(discriminate))
             "HTTP 404: Not Found").
    reflexivity.
  - apply (proj2 (http_error_keeps_status "pages/7" Client.no_options
                    (answering unprintable_error_response) unprintable_error_response
                    eq_refl eq_refl ltac:(discriminate) ltac:(discriminate))
             "Cannot convert object to primitive value").
    reflexivity.
Defined.

(** X5.  A rejected fetch is reported with status 0 and the code
    NETWORK_ERROR, under the message of the rejection. *)
Theorem rejected_fetch_is_network_error endpoint options w (message : string) :
  backend w (issued w) (outbound endpoint options w) = Host.Rejects (TypeError message) ->
  fst (Client.request endpoint options w)
  = Throw (CognitorApiError 0 (VStr "NETWORK_ERROR") (VStr message) VUndefined).
Proof.
  unfold outbound. intros Hbackend.
  unfold Client.request. run. rewrite checkRateLimit_run.
  unfold fetch; cbn. rewrite Hbackend. reflexivity.
Qed.

Lemma rejected_fetch_is_network_error_witness :
  fst (Client.request "pages" Client.no_options offline)
  = Throw (CognitorApiError 0 (VStr "NETWORK_ERROR") (VStr "fetch failed") VUndefined).
Proof.
  apply (rejected_fetch_is_network_error "pages" Client.no_options offline "fetch failed").
  reflexivity.
Defined.

(** X6.  Two answers of the backend are taken for network errors and lose
    their status: an ok response whose body is not JSON (an empty 204,
    say), and a response that is not ok and whose body is the JSON
    null. *)
Theorem unreadable_answers_lose_status endpoint options w response :
  backend w (issued w) (outbound endpoint options w) = Host.Resolves response ->
  (Host.ok response = true /\ exists m, Host.json response = Throw (Error m))
  \/ (Host.ok response = false /\ Host.json response = Return VNull) ->
  exists message,
    fst (Client.request endpoint options w)
    = Throw (CognitorApiError 0 (VStr "NETWORK_ERROR") (VStr message) VUndefined).
Proof.
  intros Hbackend [[Hok [m Hjson]] | [Hok Hjson]];
    rewrite (request_resolved _ _ _ _ Hbackend), Hok, Hjson; eauto.
Qed.

Lemma unreadable_answers_lose_status_witness :
  exists message,
    fst (Client.request "pages/7" Client.no_options (answering null_error_response))
    = Throw (CognitorApiError 0 (VStr "NETWORK_ERROR") (VStr message) VUndefined).
Proof.
  apply (unreadable_answers_lose_status "pages/7" Client.no_options
           (answering null_error_response) null_error_response).
  - reflexivity.
  - right. split; reflexivity.
Defined.

Lemma transform_has_data (rawData : value) : has_prop "data" (Client.transform rawData) = true.
Proof.
  destruct rawData as [| | b | [| z] | s | l | props]; cbn;
    rewrite ?andb_false_r; try reflexivity.
  destruct (bool_decide _) eqn:Hdata; [| reflexivity].
  cbn. exact Hdata.
Qed.

Lemma transform_fixed (r : value) : has_prop "data" r = true -> Client.transform r = r.
Proof.
  destruct r; cbn; try discriminate. intros ->. reflexivity.
Qed.

(** X7.  Whatever [get] returns is an object with a [data] field, and
    it is in the shape that [request] gives to answers: giving it that
    shape again changes nothing. *)
Theorem response_has_data endpoint params options w r :
  fst (Client.get endpoint params options w) = Return r ->
  has_prop "data" r = true /\ Client.transform r = r.
Proof.
  assert (forall e o, fst (Client.request e o w) = Return r -> has_prop "data" r = true)
    as Hrequest.
  { intros e o. unfold Client.request. run. rewrite checkRateLimit_run.
    unfold fetch; cbn.
    repeat case_step; intros [= <-]; apply transform_has_data. }
  intros Hget.
  assert (has_prop "data" r = true) as Hdata.
  { revert Hget. unfold Client.get. run.
    destruct params as [ps |]; cbn.
    - destruct (Client.append_params ps); cbn; [| discriminate].
      destruct (Client.request _ _ w) as [[r' | e] w'] eqn:Hrun; cbn; [| discriminate].
      intros [= <-]. eapply Hrequest. rewrite Hrun. reflexivity.
    - destruct (Client.request _ _ w) as [[r' | e] w'] eqn:Hrun; cbn; [| discriminate].
      intros [= <-]. eapply Hrequest. rewrite Hrun. reflexivity. }
  split; [exact Hdata | apply transform_fixed; exact Hdata].
Qed.

Lemma response_has_data_witness :
  has_prop "data" (Client.transform (VArr [VNum (Int 1)])) = true
  /\ Client.transform (Client.transform (VArr [VNum (Int 1)]))
     = Client.transform (VArr [VNum (Int 1)]).
Proof.
  apply (response_has_data "pages" None Client.no_options
           (answering {| Host.status := 200; Host.statusText := "OK";
                         Host.json := Return (VArr [VNum (Int 1)]) |})).
  reflexivity.
Defined.

#[local] Arguments Client.request : simpl never.

(** [get] is [request] on the endpoint with its query string, unless a
    parameter cannot be printed. *)
Lemma get_run endpoint params options w :
  (exists e, Client.get endpoint params options w = (Throw e, w))
  \/ (exists url, Client.get endpoint params options w
                  = Client.request url (as_get options) w).
Proof.
  unfold Client.get. run.
  destruct params as [ps |]; cbn.
  - destruct (Client.append_params ps) as [pairs | e]; cbn; [| left; eauto].
    right.
    exists (if String.eqb (Client.searchParams_toString pairs) "" then endpoint
            else endpoint +:+ "?" +:+ Client.searchParams_toString pairs).
    unfold as_get. destruct (Client.request _ _ w) as [[r | e] w']; reflexivity.
  - right. exists endpoint.
    unfold as_get. destruct (Client.request _ _ w) as [[r | e] w']; reflexivity.
Qed.

(** X8.  A GET never carries a body: whatever options the caller passes,
    [get] issues at most one fetch, and that fetch has the method GET and
    no body. *)
Theorem get_sends_no_body endpoint params options w :
  issued (snd (Client.get endpoint params options w)) = issued w
  \/ exists f,
       issued (snd (Client.get endpoint params options w)) = f :: issued w
       /\ Host.method (Host.init f) = "GET"
       /\ Host.body (Host.init f) = None.
Proof.
  destruct (get_run endpoint params options w) as [[e Hthrow] | [url Hrequest]].
  - left. rewrite Hthrow. reflexivity.
  - right. rewrite Hrequest, request_world.
    eexists. split; [reflexivity |]. cbn.
    rewrite andb_false_r. split; reflexivity.
Qed.

(** X9.  The tracker never goes back and never forgets: a request leaves
    every recorded time where it was or moves it forward, the time of its
    own endpoint by 1000 ms at least when it moves, and every endpoint
    that had an entry keeps one. *)
Theorem tracker_never_goes_back endpoint options w :
  let w' := snd (Client.request endpoint options w) in
  (forall other, last_recorded w other <= last_recorded w' other)
  /\ (last_recorded w' endpoint = last_recorded w endpoint
      \/ last_recorded w endpoint + 1000 <= last_recorded w' endpoint)
  /\ (forall other, is_Some (rateLimitTracker (cognitorApi w) !! other) ->
                    is_Some (rateLimitTracker (cognitorApi w') !! other)).
Proof.
  cbn zeta. rewrite request_world. unfold last_recorded, requested, recorded; cbn.
  destruct (_ <? 1000) eqn:Hsoon; cbn.
  - repeat split; auto; intros; lia.
  - apply Z.ltb_ge in Hsoon. repeat split.
    + intros other. destruct (decide (endpoint = other)) as [<- | Hne].
      * rewrite lookup_insert_eq. cbn. lia.
      * rewrite lookup_insert_ne by assumption. lia.
    + right. rewrite lookup_insert_eq. cbn. lia.
    + intros other Hsome. destruct (decide (endpoint = other)) as [<- | Hne].
      * rewrite lookup_insert_eq. eauto.
      * rewrite lookup_insert_ne by assumption. exact Hsome.
Qed.

(** X10.  [healthCheck] never throws: it issues one GET to
    [base/public/{siteId}/health] and answers true exactly when that
    request returns. *)
Theorem healthCheck_never_throws (w : World) :
  exists b : bool,
    Client.healthCheck w = (Return b, requested "health" (as_get Client.no_options) w)
    /\ (b = true <->
        exists r, fst (Client.request "health" (as_get Client.no_options) w) = Return r)
    /\ Host.url (outbound "health" (as_get Client.no_options) w)
       = baseUrl (cognitorApi w) +:+ "/public/" +:+ _siteId (cognitorApi w) +:+ "/health".
Proof.
  pose proof (request_world "health" (as_get Client.no_options) w) as Hworld.
  assert (Host.url (outbound "health" (as_get Client.no_options) w)
          = baseUrl (cognitorApi w) +:+ "/public/" +:+ _siteId (cognitorApi w) +:+ "/health")
    as Hurl
    by (unfold outbound; cbn [Host.url]; rewrite buildUrl_recorded; reflexivity).
  unfold Client.healthCheck, Client.get. run.
  change {| Client.method := Some "GET"; Client.headers := Client.headers Client.no_options;
            Client.body := Client.body Client.no_options;
            Client.cache := Client.cache Client.no_options;
            Client.next := Client.next Client.no_options |}
    with (as_get Client.no_options).
  destruct (Client.request "health" (as_get Client.no_options) w) as [[r | e] w'];
    cbn [fst snd] in *; subst w'.
  - exists true. split; [reflexivity |]. split; [split; eauto | exact Hurl].
  - exists false. split; [reflexivity |]. split; [| exact Hurl].
    split; [discriminate | intros [r Hr]; discriminate Hr].
Qed.

(* ===================================================================== *)
(** * Further properties of the search service                            *)
(* ===================================================================== *)

#[local] Arguments Search.getStaticSuggestions : simpl never.
#[local] Arguments Search.mapM : simpl never.

(** X11.  [getSuggestions] succeeds on every input: whatever the term,
    the limit and the backend, it returns a response marked successful
    whose data are an array. *)
Theorem getSuggestions_always_succeeds
    (term : string) (limit : option number) (w : World) :
  exists r data,
    fst (Search.getSuggestions term limit w) = Return r
    /\ prop r "success" = VBool true
    /\ prop r "data" = VArr data.
Proof.
  unfold Search.getSuggestions. run.
  repeat case_step; eexists _, _; repeat split; reflexivity.
Qed.

Lemma rmap_length {A B} (f : A -> result B) (l : list A) (l' : list B) :
  rmap f l = Return l' -> length l' = length l.
Proof.
  revert l'. induction l as [| x l IH]; intros l'; cbn.
  - intros [= <-]. reflexivity.
  - destruct (f x); cbn; [| discriminate].
    destruct (rmap f l) as [ys |]; cbn; [| discriminate].
    intros [= <-]. cbn. rewrite (IH ys eq_refl). reflexivity.
Qed.

Lemma map_method_length (a : value) (f : value -> result value) (v : value) :
  Search.map_method a f = Return v ->
  exists l l', a = VArr l /\ v = VArr l' /\ length l' = length l.
Proof.
  unfold Search.map_method. destruct a; try discriminate.
  unfold mbind, result_bind. destruct (rmap f items) as [l' |] eqn:Hmap; cbn; [| discriminate].
  intros [= <-]. exists items, l'. repeat split. eapply rmap_length. exact Hmap.
Qed.

(** X12.  [search] reports success only for a successful answer of the
    backend, and then with one item per result and the total and the
    page of the backend. *)
Theorem search_success_mirrors_backend `{Engine}
    (q : Search.SearchQuery) (w : World) (r : value) :
  fst (Search.search q w) = Return r ->
  prop r "success" = VBool true ->
  exists response results items,
    Client.get ("search/sites/" +:+ _siteId (cognitorApi w))
      (Some (Search.queryParams q)) Search.search_options w
    = (Return response, snd (Search.search q w))
    /\ truthy (prop response "success") = true
    /\ prop (prop response "data") "results" = VArr results
    /\ prop (prop r "data") "items" = VArr items
    /\ length items = length results
    /\ prop (prop r "data") "total" = prop (prop response "data") "total"
    /\ prop (prop r "data") "page" = prop (prop response "data") "page".
Proof.
  unfold Search.search. run.
  destruct (Client.get _ _ _ w) as [[response | e] w1] eqn:Hget; cbn;
    [| intros [= <-]; discriminate].
  assert (exists props, response = VObj props) as [props ->]
    by (eapply get_returns_object; rewrite Hget; reflexivity).
  cbn [read]. cbn.
  destruct (truthy (default _ (lookup_prop "success" props))) eqn:Hsuccess; cbn;
    [| intros [= <-]; discriminate].
  destruct (truthy (default _ (lookup_prop "data" props))) eqn:Hdata; cbn;
    [| intros [= <-]; discriminate].
  destruct (Search.map_method _ _) as [transformed | e] eqn:Hmap; cbn;
    [| intros [= <-]; discriminate].
  destruct (map_method_length _ _ _ Hmap) as (results & items & Hresults & -> & Hlength).
  repeat case_step; cbn; intros [= <-]; try discriminate; intros _.
  exists (VObj props), results, items. repeat split; assumption.
Qed.

Lemma search_success_mirrors_backend_witness :
  exists response results items,
    Client.get ("search/sites/" +:+ _siteId (cognitorApi (answering found_response)))
      (Some (Search.queryParams (plain_query "cms"))) Search.search_options
      (answering found_response)
    = (Return response,
       snd (@Search.search example_engine (plain_query "cms") (answering found_response)))
    /\ truthy (prop response "success") = true
    /\ prop (prop response "data") "results" = VArr results
    /\ prop (prop found_page "data") "items" = VArr items
    /\ length items = length results
    /\ prop (prop found_page "data") "total" = prop (prop response "data") "total"
    /\ prop (prop found_page "data") "page" = prop (prop response "data") "page".
Proof.
  apply (@search_success_mirrors_backend example_engine (plain_query "cms")
           (answering found_response) found_page).
  - vm_compute. reflexivity.
  - vm_compute. reflexivity.
Defined.

Lemma type_is_renamed (doc_type : value) :
  match doc_type with
  | VStr "content_element" => VStr "page"
  | _ => doc_type
  end <> VStr "content_element".
Proof.
  destruct doc_type as [| | | | s | |]; try discriminate.
  repeat (destruct s as [| [[] [] [] [] [] [] [] []] s]; try discriminate).
Qed.

Lemma words_counted (content : value) (wordCount words : Z) :
  (if truthy content then
     ws ← Search.split_method content " "; Return (Z.of_nat (length ws))
   else Return 0) = Return wordCount ->
  match content with
  | VUndefined | VNull => Return 0
  | _ => ws ← Search.split_method content " "; Return (Z.of_nat (length ws))
  end = Return words ->
  0 <= wordCount <= words.
Proof.
  destruct content as [| | b | n | s | |]; cbn.
  - intros [= <-] [= <-]. lia.
  - intros [= <-] [= <-]. lia.
  - destruct b; discriminate.
  - destruct n as [| z]; [discriminate |]. destruct (z =? 0); discriminate.
  - destruct s; cbn.
    + intros [= <-] [= <-]. lia.
    + intros [= <-] [= <-]. lia.
  - discriminate.
  - discriminate.
Qed.

(** X13.  Whatever the backend sent, a result that [search] could
    transform has a string for its id, never the type "content_element",
    a url that is not empty, an array of strings for its tags, and a
    reading time of at least one minute that covers its word count at 200
    words a minute. *)
Theorem transformResult_shape (r item : value) :
  Search.transformResult r = Return item ->
  (exists id, prop item "id" = VStr id)
  /\ prop item "type" <> VStr "content_element"
  /\ truthy (prop item "url") = true
  /\ (exists tags, prop item "tags" = VArr (map VStr tags))
  /\ exists wordCount readTime,
       prop (prop item "metadata") "wordCount" = VNum (Int wordCount)
       /\ prop (prop item "metadata") "readTime" = VNum (Int readTime)
       /\ 1 <= readTime /\ 0 <= wordCount <= 200 * readTime.
Proof.
  unfold Search.transformResult, mbind, result_bind, rbind.
  destruct (read r "id") as [id0 |]; [| discriminate].
  destruct (toString id0) as [id |]; [| discriminate].
  destruct (if truthy (prop r "keywords") then _ else _) as [tags |]; [| discriminate].
  destruct (if truthy (prop r "content") then _ else _) as [wordCount |] eqn:Hcount;
    [| discriminate].
  lazymatch goal with
  | |- match ?x with Return _ => _ | Throw _ => _ end = _ -> _ =>
      destruct x as [words |] eqn:Hwords; [| discriminate]
  end.
  assert (Hbound := words_counted _ _ _ Hcount Hwords).
  intros [= <-].
  split; [eexists; reflexivity |].
  split; [apply type_is_renamed |].
  split.
  { change (truthy (or (prop r "url") (VStr "#")) = true).
    unfold or. destruct (truthy (prop r "url")) eqn:Hurl; [exact Hurl | reflexivity]. }
  split; [eexists; reflexivity |].
  eexists _, _. split; [reflexivity |]. split; [reflexivity |].
  assert (Hdiv := Z.div_mod (words + 199) 200 ltac:(lia)).
  assert (Hmod := Z.mod_pos_bound (words + 199) 200 ltac:(lia)).
  lia.
Qed.

Lemma transformResult_shape_witness :
  (exists id, prop example_item "id" = VStr id)
  /\ prop example_item "type" <> VStr "content_element"
  /\ truthy (prop example_item "url") = true
  /\ (exists tags, prop example_item "tags" = VArr (map VStr tags))
  /\ exists wordCount readTime,
       prop (prop example_item "metadata") "wordCount" = VNum (Int wordCount)
       /\ prop (prop example_item "metadata") "readTime" = VNum (Int readTime)
       /\ 1 <= readTime /\ 0 <= wordCount <= 200 * readTime.
Proof.
  apply (transformResult_shape example_result example_item).
  vm_compute. reflexivity.
Defined.

Lemma lookup_prop_app (k : string) (l1 l2 : list (string * value)) :
  lookup_prop k (l1 ++ l2)
  = match lookup_prop k l1 with
    | Some v => Some v
    | None => lookup_prop k l2
    end.
Proof.
  induction l1 as [| [k' v] l1 IH]; cbn; [reflexivity |].
  destruct (String.eqb k k'); [reflexivity | exact IH].
Qed.

Lemma entry_lookup (k k' : string) (s : option string) :
  lookup_prop k (Search.entry k' s)
  = if String.eqb k k' then option_map VStr (Search.present s) else None.
Proof.
  unfold Search.entry. destruct (Search.present s); cbn; destruct (String.eqb k k'); reflexivity.
Qed.

(** X14.  Paging survives the way from the search route to the backend:
    for a page and a limit of at least 1 (and at most a million) in the
    address, the parameters that [search] passes on carry that limit as
    [size] and that page as [page], the first page being left out. *)
Theorem route_paging_reaches_backend
    (searchParams : list (string * string)) (arguments : Search.SearchQuery)
    (page limit : Z) :
  Routes.search_arguments searchParams = Some arguments ->
  parseInt (Routes.get_or "page" "1" searchParams) = Int page ->
  parseInt (Routes.get_or "limit" "10" searchParams) = Int limit ->
  1 <= page <= 1000000 -> 1 <= limit <= 1000000 ->
  lookup_prop "size" (Search.queryParams arguments) = Some (VNum (Int limit))
  /\ lookup_prop "page" (Search.queryParams arguments)
     = (if page =? 1 then None else Some (VNum (Int page))).
Proof.
  unfold Routes.search_arguments. intros Harguments Hpage Hlimit Hp Hl.
  destruct (Routes.blank _); [discriminate |].
  injection Harguments as <-. rewrite Hpage, Hlimit.
  unfold Search.queryParams. cbn [Search.query Search.limit Search.offset Search.filters
    Search.category Search.tags Search.contentType Search.dateRange num_mul num_sub num_or].
  set (filtered := Search.entry "category" _ ++ _).
  assert (Hfiltered : lookup_prop "page" filtered = None).
  { subst filtered. rewrite !lookup_prop_app, !entry_lookup. cbn.
    destruct (option_map _ _) as [[| ? ?] |]; reflexivity. }
  assert ((limit =? 0) = false) as Hzero by lia.
  unfold num_truthy. cbn [truthy]. rewrite Hzero. cbn [negb].
  split; [reflexivity |].
  cbn [app lookup_prop String.eqb Ascii.eqb Bool.eqb].
  rewrite lookup_prop_app.
  destruct (page =? 1) eqn:Hfirst.
  - assert (((page - 1) * limit =? 0) = true) as -> by nia.
    exact Hfiltered.
  - assert (((page - 1) * limit =? 0) = false) as -> by nia.
    cbn [lookup_prop String.eqb Ascii.eqb Bool.eqb].
    rewrite Z.div_mul by lia. do 3 f_equal. lia.
Qed.

Lemma route_paging_reaches_backend_witness :
  exists arguments,
    Routes.search_arguments example_request = Some arguments
    /\ lookup_prop "size" (Search.queryParams arguments) = Some (VNum (Int 10))
    /\ lookup_prop "page" (Search.queryParams arguments) = Some (VNum (Int 2)).
Proof.
  eexists. split; [reflexivity |].
  apply (route_paging_reaches_backend example_request _ 2 10).
  - reflexivity.
  - reflexivity.
  - reflexivity.
  - lia.
  - lia.
Defined.

Lemma queryParams_filters (q : Search.SearchQuery) (k : string) :
  String.eqb k "q" = false -> String.eqb k "size" = false -> String.eqb k "page" = false ->
  lookup_prop k (Search.queryParams q)
  = match Search.filters q with
    | Some f =>
        lookup_prop k
          (Search.entry "category" (Search.category f)
           ++ Search.entry "content_type" (Search.contentType f)
           ++ match Search.tags f with
              | Some (t :: ts) => [("tags", VStr (join "," (t :: ts)))]
              | _ => []
              end
           ++ match Search.dateRange f with
              | Some r => Search.entry "date_from" (Some (Search.from r))
                          ++ Search.entry "date_to" (Some (Search.to r))
              | None => []
              end)
    | None => None
    end.
Proof.
  intros Hq Hsize Hpage. unfold Search.queryParams.
  cbn [app lookup_prop]. rewrite Hq, !lookup_prop_app.
  assert (lookup_prop k match Search.limit q with
                        | Some n => if num_truthy n then [("size", VNum n)] else []
                        | None => []
                        end = None) as ->.
  { destruct (Search.limit q) as [n |]; [| reflexivity].
    destruct (num_truthy n); cbn; [rewrite Hsize |]; reflexivity. }
  assert (lookup_prop k match Search.offset q with
                        | Some (Int o) =>
                            if o =? 0 then []
                            else [("page", VNum (Int (o / num_or (Search.limit q) 10 + 1)))]
                        | _ => []
                        end = None) as ->.
  { destruct (Search.offset q) as [[| o] |]; try reflexivity.
    destruct (o =? 0); cbn; [| rewrite Hpage]; reflexivity. }
  destruct (Search.filters q); [| reflexivity].
  rewrite !lookup_prop_app. reflexivity.
Qed.

(** X15.  The search route hands the query and the filters to the backend
    as they came: the query trimmed, the [tags] text as it was (split at
    the commas and joined again), the category when it is not empty; and
    it never sends a content type or a date range. *)
Theorem route_filters_reach_backend
    (searchParams : list (string * string)) (arguments : Search.SearchQuery) :
  Routes.search_arguments searchParams = Some arguments ->
  let sent := Search.queryParams arguments in
  lookup_prop "q" sent
  = Some (VStr (trim (default "" (Routes.searchParams_get "q" searchParams))))
  /\ lookup_prop "tags" sent = option_map VStr (Routes.searchParams_get "tags" searchParams)
  /\ lookup_prop "category" sent
     = option_map VStr (Search.present (Routes.searchParams_get "category" searchParams))
  /\ lookup_prop "content_type" sent = None
  /\ lookup_prop "date_from" sent = None
  /\ lookup_prop "date_to" sent = None.
Proof.
  unfold Routes.search_arguments. intros Harguments.
  destruct (Routes.blank _); [discriminate |].
  injection Harguments as <-. cbn zeta.
  split; [reflexivity |].
  rewrite !queryParams_filters by reflexivity.
  cbn [Search.filters Search.category Search.tags Search.contentType Search.dateRange].
  rewrite !lookup_prop_app, !entry_lookup. cbn [String.eqb Ascii.eqb Bool.eqb app].
  assert (Htags : lookup_prop "tags"
                    match option_map (split ",") (Routes.searchParams_get "tags" searchParams) with
                    | Some (t :: ts) => [("tags", VStr (join "," (t :: ts)))]
                    | _ => []
                    end
                  = option_map VStr (Routes.searchParams_get "tags" searchParams)).
  { destruct (Routes.searchParams_get "tags" searchParams) as [text |]; cbn [option_map];
      [| reflexivity].
    destruct (split "," text) as [| t ts] eqn:Hsplit; [destruct (split_nonempty _ _ Hsplit) |].
    cbn [lookup_prop String.eqb Ascii.eqb Bool.eqb option_map].
    rewrite <- Hsplit, join_split. reflexivity. }
  assert (Hother : forall k, String.eqb k "tags" = false ->
                     lookup_prop k
                       match option_map (split ",")
                               (Routes.searchParams_get "tags" searchParams) with
                       | Some (t :: ts) => [("tags", VStr (join "," (t :: ts)))]
                       | _ => []
                       end = None).
  { intros k Hk. destruct (option_map _ _) as [[| t ts] |]; cbn; [| rewrite Hk |]; reflexivity. }
  rewrite Htags, !Hother by reflexivity. cbn [Search.present option_map lookup_prop].
  repeat split; try reflexivity.
  - destruct (Routes.searchParams_get "tags" searchParams); reflexivity.
  - destruct (Routes.searchParams_get "category" searchParams) as [c |]; [| reflexivity].
    cbn. destruct (String.eqb c "") eqn:Hc; cbn; [| rewrite Hc]; reflexivity.
Qed.

Lemma route_filters_reach_backend_witness :
  exists arguments,
    Routes.search_arguments example_request = Some arguments
    /\ lookup_prop "q" (Search.queryParams arguments) = Some (VStr "cms")
    /\ lookup_prop "tags" (Search.queryParams arguments) = Some (VStr "a,b")
    /\ lookup_prop "category" (Search.queryParams arguments) = Some (VStr "news")
    /\ lookup_prop "content_type" (Search.queryParams arguments) = None
    /\ lookup_prop "date_from" (Search.queryParams arguments) = None
    /\ lookup_prop "date_to" (Search.queryParams arguments) = None.
Proof.
  eexists. split; [reflexivity |].
  apply (route_filters_reach_backend example_request). reflexivity.
Defined.

(* ===================================================================== *)
(** * Further properties of the recent searches                           *)
(* ===================================================================== *)

Lemma saveRecentSearch_world (term : string) (w : World) :
  Search.saveRecentSearch term w = (Return tt, saved term w).
Proof.
  unfold Search.saveRecentSearch, saved, Search.localStorage_getItem,
    Search.localStorage_setItem, readable, set_window, kept.
  run. destruct (window w) as [st |] eqn:Hwindow; cbn; [| reflexivity].
  repeat (rewrite Hwindow; cbn).
  destruct (Host.items st !! Search.recentKey) as [[| | v] |]; cbn;
    repeat (rewrite Hwindow; cbn); try reflexivity;
    try (destruct (Host.writable st); reflexivity).
  destruct v; cbn; repeat (rewrite Hwindow; cbn); try reflexivity.
  destruct (Host.writable st); reflexivity.
Qed.

Lemma filter_take_filter {A} (p : A -> bool) (l : list A) (n : nat) :
  List.filter p (take n (List.filter p l)) = take n (List.filter p l).
Proof.
  revert n. induction l as [| x l IH]; intros n; cbn.
  - destruct n; reflexivity.
  - destruct (p x) eqn:Hp; [| apply IH].
    destruct n as [| n]; cbn; [reflexivity |]. rewrite Hp, IH. reflexivity.
Qed.

Lemma kept_again (term : string) (l : list value) : kept term (kept term l) = kept term l.
Proof.
  unfold kept.
  assert (Hslice : forall x : list value,
            slice0 (VStr term :: x) (Int Search.maxRecentSearches) = VStr term :: take 9 x)
    by reflexivity.
  rewrite !Hslice.
  assert (List.filter (Search.differs term) (VStr term :: take 9 (List.filter (Search.differs term) l))
          = take 9 (List.filter (Search.differs term) l)) as ->.
  { cbn [List.filter Search.differs]. rewrite String.eqb_refl. cbn [negb].
    apply filter_take_filter. }
  rewrite take_take. reflexivity.
Qed.

(** X16.  Saving the same term twice in a row leaves the world as the
    first save left it, whatever the storage held. *)
Theorem saveRecentSearch_idempotent (term : string) (w : World) :
  snd (Search.saveRecentSearch term (snd (Search.saveRecentSearch term w)))
  = snd (Search.saveRecentSearch term w).
Proof.
  rewrite !saveRecentSearch_world. cbn [snd].
  unfold saved at 2 3.
  destruct (window w) as [st |] eqn:Hwindow;
    [| unfold saved; rewrite Hwindow; reflexivity].
  destruct (readable st) as [l |] eqn:Hreadable;
    [| unfold saved; rewrite Hwindow, Hreadable; reflexivity].
  destruct (Host.writable st) eqn:Hwritable;
    [| unfold saved; rewrite Hwindow, Hreadable, Hwritable; reflexivity].
  unfold saved, set_window, readable. cbn [snd window Host.items Host.writable].
  rewrite lookup_insert_eq, kept_again, insert_insert_eq. reflexivity.
Qed.

(** X17.  [saveRecentSearch] never throws and touches nothing but its own
    entry of the browser storage: no request goes out, the client and the
    other entries stay as they were; and where there is no browser
    storage, the entry does not parse to an array, or the storage refuses
    the write, nothing changes at all. *)
Theorem saveRecentSearch_is_silent (term : string) (w : World) :
  let w' := snd (Search.saveRecentSearch term w) in
  fst (Search.saveRecentSearch term w) = Return tt
  /\ issued w' = issued w
  /\ cognitorApi w' = cognitorApi w
  /\ (forall key, key <> Search.recentKey -> stored_at w' key = stored_at w key)
  /\ (window w = None -> w' = w)
  /\ (forall st, window w = Some st ->
        readable st = None \/ Host.writable st = false -> w' = w).
Proof.
  rewrite saveRecentSearch_world. cbn [fst snd]. split; [reflexivity |].
  assert (Hsame : issued w = issued w /\ cognitorApi w = cognitorApi w
                  /\ (forall key, key <> Search.recentKey -> stored_at w key = stored_at w key)
                  /\ (window w = None -> w = w)
                  /\ (forall st, window w = Some st ->
                        readable st = None \/ Host.writable st = false -> w = w))
    by (repeat split; reflexivity).
  unfold saved. destruct (window w) as [st |] eqn:Hwindow; [| exact Hsame].
  destruct (readable st) as [l |] eqn:Hreadable; [| exact Hsame].
  destruct (Host.writable st) eqn:Hwritable; [| exact Hsame].
  cbn. split; [reflexivity |]. split; [reflexivity |]. split.
  { intros key Hkey. unfold stored_at. rewrite Hwindow. cbn.
    apply lookup_insert_ne. congruence. }
  split; [discriminate |].
  intros st' [= <-] [Hnone | Hno]; congruence.
Qed.

(** X18.  [getRecentSearches] never throws and changes nothing; it
    returns an array of entries of type "page", of at most [limit]
    entries when [limit] is a count, and the empty array on the server and
    when the stored entry does not parse to an array. *)
Theorem getRecentSearches_reads_only (limit : option number) (w : World) :
  exists l,
    Search.getRecentSearches limit w = (Return (VArr l), w)
    /\ Forall (fun e => prop e "type" = VStr "page") l
    /\ (forall n, default (Int 5) limit = Int n -> 0 <= n -> (length l <= Z.to_nat n)%nat)
    /\ (window w = None -> l = [])
    /\ (forall st, window w = Some st -> readable st = None -> l = []).
Proof.
  unfold Search.getRecentSearches, Search.localStorage_getItem, readable. run.
  destruct (window w) as [st |] eqn:Hwindow; cbn.
  2: { exists []; split; [reflexivity |]; split; [apply Forall_nil |]; split; [intros; cbn; lia |]; split; intros; reflexivity. }
  repeat (rewrite Hwindow; cbn).
  destruct (Host.items st !! Search.recentKey) as [[| | [| | | | | l |]] |] eqn:Hitem; cbn.
  8: { eexists. split; [reflexivity |]. repeat split.
       - apply Forall_map. apply Forall_forall. intros; reflexivity.
       - intros n -> Hn. rewrite length_map. unfold slice0.
         assert ((n <? 0) = false) as -> by lia. rewrite length_take. lia.
       - discriminate.
       - intros st' [= <-]. rewrite Hitem. discriminate. }
  all: exists []; split; [reflexivity |]; split; [apply Forall_nil |]; split; [intros; cbn; lia |]; split; intros; reflexivity.
Qed.


(** X19.  [clearRecentSearches] never throws; afterwards the list of
    recent searches is gone while the other entries of the storage are as
    before, [getRecentSearches] returns the empty array, and the next
    term saved into a storage that accepts writes is stored alone. *)
Theorem clearRecentSearches_forgets (limit : option number) (term : string) (w : World) :
  let w' := snd (Search.clearRecentSearches w) in
  fst (Search.clearRecentSearches w) = Return tt
  /\ stored_at w' Search.recentKey = None
  /\ (forall key, key <> Search.recentKey -> stored_at w' key = stored_at w key)
  /\ Search.getRecentSearches limit w' = (Return (VArr []), w')
  /\ (forall st, window w = Some st -> Host.writable st = true ->
        stored_at (snd (Search.saveRecentSearch term w')) Search.recentKey
        = Some (Host.Encoded (VArr [VStr term]))).
Proof.
  unfold Search.clearRecentSearches, Search.localStorage_removeItem, set_window. run.
  destruct (window w) as [st |] eqn:Hwindow; cbn; repeat (rewrite Hwindow; cbn).
  - split; [reflexivity |]. split.
    { unfold stored_at. cbn. apply lookup_delete_eq. }
    split.
    { intros key Hkey. unfold stored_at. rewrite Hwindow. cbn.
      apply lookup_delete_ne. congruence. }
    split.
    { unfold Search.getRecentSearches, Search.localStorage_getItem. run. cbn.
      rewrite lookup_delete_eq. reflexivity. }
    intros st' [= <-] Hwritable. rewrite saveRecentSearch_world. cbn [snd].
    unfold saved, readable. cbn [window Host.items Host.writable].
    rewrite lookup_delete_eq, Hwritable. unfold stored_at. cbn.
    rewrite lookup_insert_eq. reflexivity.
  - split; [reflexivity |]. split; [unfold stored_at; rewrite Hwindow; reflexivity |].
    split; [reflexivity |]. split.
    { unfold Search.getRecentSearches. run. rewrite Hwindow. reflexivity. }
    discriminate.
Qed.

(* ===================================================================== *)
(** * Further properties of the navigation service                        *)
(* ===================================================================== *)

Lemma isNavigationItemActive_marked (p q : string) (item : Navigation.NavigationItem) :
  Navigation.isNavigationItemActive (Navigation.markActive p item) q
  = Navigation.isNavigationItemActive item q.
Proof. destruct item; reflexivity. Qed.

Lemma markActive_again (p q : string) :
  forall item : Navigation.NavigationItem,
    Navigation.markActive q (Navigation.markActive p item) = Navigation.markActive q item.
Proof.
  fix IH 1. intros [i t u s e g children o a].
  cbn. f_equal. destruct children as [cs |]; [| reflexivity]. f_equal.
  induction cs as [| c cs IHcs]; [reflexivity |].
  cbn. f_equal; [apply IH | exact IHcs].
Qed.

(** X20.  Marking a menu for one path and then for another gives what
    marking it for the second path alone gives, at every depth: the flags
    depend on the urls and slugs only, never on earlier flags. *)
Theorem markActiveNavigation_last_path_wins
    (navigation : list Navigation.NavigationItem) (first second : string) :
  Navigation.markActiveNavigation (Navigation.markActiveNavigation navigation first) second
  = Navigation.markActiveNavigation navigation second.
Proof.
  unfold Navigation.markActiveNavigation. rewrite map_map.
  apply map_ext. intros item. apply markActive_again.
Qed.

(** X21.  An item whose url is neither empty nor "/" is active on every
    path that starts with the characters of that url, whether or not the
    url ends at a slash of the path. *)
Theorem item_active_on_every_extension
    (item : Navigation.NavigationItem) (u rest : string) :
  Navigation.url item = Some u -> u <> "" -> u <> "/" ->
  Navigation.isNavigationItemActive item (u +:+ rest) = true.
Proof.
  intros Hurl Hempty Hroot. unfold Navigation.isNavigationItemActive.
  rewrite Hurl. destruct (String.eqb u (u +:+ rest)); [reflexivity |].
  destruct (match Search.present (Navigation.slug item) with
            | Some s => String.eqb (u +:+ rest) ("/" +:+ s)
            | None => false
            end); [reflexivity |].
  unfold Search.present, startsWith.
  apply String.eqb_neq in Hempty, Hroot. rewrite Hempty, Hroot, prefix_append.
  reflexivity.
Qed.

Lemma item_active_on_every_extension_witness :
  Navigation.isNavigationItemActive (link "2" "Services" "/services" None)
    ("/services" +:+ "-archive/2020") = true.
Proof.
  apply (item_active_on_every_extension (link "2" "Services" "/services" None)
           "/services" "-archive/2020").
  - reflexivity.
  - discriminate.
  - discriminate.
Defined.

(** X22.  An item whose url is "/" and that has no slug is active on the
    path "/" and on no other. *)
Theorem home_active_only_at_home (item : Navigation.NavigationItem) (currentPath : string) :
  Navigation.url item = Some "/" -> Search.present (Navigation.slug item) = None ->
  Navigation.isNavigationItemActive item currentPath = true <-> currentPath = "/".
Proof.
  intros Hurl Hslug. unfold Navigation.isNavigationItemActive.
  rewrite Hurl, Hslug. cbn [Search.present].
  change (String.eqb "/" "") with false. cbn match.
  change (String.eqb "/" "/") with true. cbn [negb]. rewrite andb_false_r.
  destruct (String.eqb "/" currentPath) eqn:Heq.
  - apply String.eqb_eq in Heq. split; congruence.
  - apply String.eqb_neq in Heq. split; [discriminate | congruence].
Qed.

Lemma home_active_only_at_home_witness :
  Navigation.isNavigationItemActive (link "1" "Home" "/" None) "/services" = true
  <-> "/services" = "/".
Proof.
  apply (home_active_only_at_home (link "1" "Home" "/" None) "/services"); reflexivity.
Defined.

Lemma split_append_separator (sep : ascii) (s : string) :
  split sep (s +:+ String sep "") = split sep s ++ [""].
Proof.
  induction s as [| c s IH].
  - change (split sep (String sep "") = [""; ""]).
    cbn [split]. rewrite Ascii.eqb_refl. reflexivity.
  - rewrite append_cons. cbn [split]. rewrite IH.
    destruct (Ascii.eqb c sep); [reflexivity |].
    destruct (split sep s) as [| piece rest] eqn:Hsplit; [destruct (split_nonempty _ _ Hsplit) |].
    reflexivity.
Qed.

Lemma segments_of_slashed (l : list string) :
  Forall (fun p => slashless p = true /\ p <> "") l ->
  Navigation.segments_of (slashed l) = l.
Proof.
  unfold Navigation.segments_of.
  induction l as [| s rest IH]; [reflexivity |].
  intros Hall. inversion Hall as [| ? ? [Hs Hne] Hrest]; subst.
  specialize (IH Hrest). apply String.eqb_neq in Hne.
  cbn [slashed]. change ("/" +:+ s +:+ slashed rest) with (String "/" (s +:+ slashed rest)).
  cbn [split]. change (Ascii.eqb "/" "/") with true. cbn match.
  cbn [List.filter]. change (String.eqb "" "") with true. cbn [negb].
  destruct rest as [| r rs].
  - cbn [slashed]. rewrite append_empty_r, (split_slashless s Hs).
    cbn. rewrite Hne. reflexivity.
  - cbn [slashed] in IH |- *.
    change ("/" +:+ r +:+ slashed rs) with (String "/" (r +:+ slashed rs)) in IH |- *.
    rewrite (split_slashless_append s _ Hs). cbn [List.filter]. rewrite Hne. cbn [negb].
    f_equal. cbn [split] in IH. change (Ascii.eqb "/" "/") with true in IH. cbn match in IH.
    cbn [List.filter] in IH. change (String.eqb "" "") with true in IH. cbn [negb] in IH.
    exact IH.
Qed.

Lemma segments_are_clean (path : string) :
  Forall (fun p => slashless p = true /\ p <> "") (Navigation.segments_of path).
Proof.
  unfold Navigation.segments_of. apply Forall_forall. intros p Hin.
  apply list_elem_of_In, filter_In in Hin as [Hin Hne]. split.
  - assert (Hall := split_pieces_slashless path).
    rewrite Forall_forall in Hall. apply Hall, list_elem_of_In, Hin.
  - intros ->. discriminate.
Qed.

(** X23.  The fallback breadcrumbs do not depend on how the path is
    slashed: a leading or a trailing slash changes nothing, and the path
    rebuilt from the segments, each behind one slash (the url of the last
    breadcrumb), gives the same breadcrumbs as the path itself. *)
Theorem breadcrumbs_ignore_extra_slashes `{Engine} (path : string) :
  Navigation.generateFallbackBreadcrumbs ("/" +:+ path)
  = Navigation.generateFallbackBreadcrumbs path
  /\ Navigation.generateFallbackBreadcrumbs (path +:+ "/")
     = Navigation.generateFallbackBreadcrumbs path
  /\ Navigation.generateFallbackBreadcrumbs (slashed (Navigation.segments_of path))
     = Navigation.generateFallbackBreadcrumbs path.
Proof.
  assert (Hleading : Navigation.segments_of ("/" +:+ path) = Navigation.segments_of path)
    by reflexivity.
  assert (Htrailing : Navigation.segments_of (path +:+ "/") = Navigation.segments_of path).
  { unfold Navigation.segments_of. rewrite split_append_separator, List.filter_app.
    cbn. apply app_nil_r. }
  assert (Hnormal : Navigation.segments_of (slashed (Navigation.segments_of path))
                    = Navigation.segments_of path)
    by apply segments_of_slashed, segments_are_clean.
  unfold Navigation.generateFallbackBreadcrumbs.
  rewrite Hleading, Htrailing, Hnormal. repeat split.
Qed.

Lemma breadcrumbs_ignore_extra_slashes_witness :
  @Navigation.generateFallbackBreadcrumbs example_engine ("/" +:+ "services//tax")
  = @Navigation.generateFallbackBreadcrumbs example_engine "services//tax"
  /\ @Navigation.generateFallbackBreadcrumbs example_engine ("services//tax" +:+ "/")
     = @Navigation.generateFallbackBreadcrumbs example_engine "services//tax"
  /\ @Navigation.generateFallbackBreadcrumbs example_engine
       (slashed (Navigation.segments_of "services//tax"))
     = @Navigation.generateFallbackBreadcrumbs example_engine "services//tax".
Proof. apply (@breadcrumbs_ignore_extra_slashes example_engine "services//tax"). Defined.

(** X24.  [getBreadcrumbs] never throws.  It returns the [data] of the
    answer, whatever that is, whenever the request returns, and the
    breadcrumbs generated from the path exactly when the request throws;
    the world is left as the request left it. *)
Theorem getBreadcrumbs_never_throws `{Engine} (currentPath : string) (w : World) :
  snd (Navigation.getBreadcrumbs currentPath w) = snd (breadcrumbs_request currentPath w)
  /\ match fst (breadcrumbs_request currentPath w) with
     | Return response =>
         fst (Navigation.getBreadcrumbs currentPath w)
         = Return (Navigation.FromApi (prop response "data"))
     | Throw _ =>
         fst (Navigation.getBreadcrumbs currentPath w)
         = Return (Navigation.Generated (Navigation.generateFallbackBreadcrumbs currentPath))
     end.
Proof.
  unfold Navigation.getBreadcrumbs, breadcrumbs_request. run.
  destruct (Client.get _ _ _ w) as [[response | e] w'] eqn:Hget; cbn.
  - assert (exists props, response = VObj props) as [props ->]
      by (eapply get_returns_object; rewrite Hget; reflexivity).
    split; reflexivity.
  - split; reflexivity.
Qed.

Lemma getBreadcrumbs_never_throws_witness :
  snd (@Navigation.getBreadcrumbs example_engine "/services/tax" offline)
  = snd (breadcrumbs_request "/services/tax" offline)
  /\ match fst (breadcrumbs_request "/services/tax" offline) with
     | Return response =>
         fst (@Navigation.getBreadcrumbs example_engine "/services/tax" offline)
         = Return (Navigation.FromApi (prop response "data"))
     | Throw _ =>
         fst (@Navigation.getBreadcrumbs example_engine "/services/tax" offline)
         = Return (Navigation.Generated
                     (@Navigation.generateFallbackBreadcrumbs example_engine "/services/tax"))
     end.
Proof. apply (@getBreadcrumbs_never_throws example_engine "/services/tax" offline). Defined.

(* ===================================================================== *)
(** * The theme loader                                                    *)
(* ===================================================================== *)

Lemma has_colors_Forall (colors : value) (required : list string) :
  Theme.has_colors colors required = true
  <-> Forall (fun color => truthy (prop colors color) = true) required.
Proof.
  induction required as [| color rest IH]; cbn [Theme.has_colors].
  - split; [constructor | reflexivity].
  - destruct (truthy (prop colors color)) eqn:Hcolor.
    + rewrite IH. split; [intros Hrest; constructor; assumption |].
      intros Hall. apply Forall_cons in Hall as [_ Hrest]. exact Hrest.
    + split; [discriminate |]. intros Hall. symmetry. apply Forall_cons in Hall as [Hthis _].
      exact (eq_trans (eq_sym Hthis) Hcolor).
Qed.

Lemma validateTheme_cases (theme : value) :
  (Theme.validateTheme theme = theme /\ (theme = VNull \/ complete theme))
  \/ (Theme.validateTheme theme = VNull /\ ~ complete theme).
Proof.
  unfold Theme.validateTheme, complete, mbind, result_bind, rbind.
  destruct (read theme "id") as [id |] eqn:Hread.
  - assert (id = prop theme "id") as ->
      by (unfold read in Hread; destruct theme; try discriminate;
          injection Hread as <-; reflexivity).
    destruct (truthy (prop theme "id")); cbn [negb orb];
      [| right; split; [reflexivity | intros (? & _); discriminate]].
    destruct (truthy (prop theme "name")); cbn [negb orb];
      [| right; split; [reflexivity | intros (_ & ? & _); discriminate]].
    destruct (truthy (prop theme "colors")); cbn [negb orb];
      [| right; split; [reflexivity | intros (_ & _ & ? & _); discriminate]].
    destruct (Theme.has_colors _ _) eqn:Hcolors.
    + left. split; [reflexivity |]. right. repeat split.
      apply (has_colors_Forall _ Theme.requiredColors), Hcolors.
    + right. split; [reflexivity |]. intros (_ & _ & _ & Hall).
      apply (has_colors_Forall _ Theme.requiredColors) in Hall. congruence.
  - unfold read in Hread. destruct theme; try discriminate.
    + right. split; [reflexivity |]. intros (? & _); discriminate.
    + left. split; [reflexivity |]. left. reflexivity.
Qed.


Lemma validateTheme_again (theme : value) :
  Theme.validateTheme (Theme.validateTheme theme) = Theme.validateTheme theme.
Proof.
  destruct (validateTheme_cases theme) as [[Hsame _] | [Hnull _]].
  - rewrite !Hsame. reflexivity.
  - rewrite Hnull. reflexivity.
Qed.

(** X26.  [loadTheme] never throws.  What it returns is null or a theme
    that passes validation; it fetches the file of the site, then at most
    the file of the fallback theme, and that only for a fallback other
    than the site; the client and the browser storage are left alone. *)
Theorem loadTheme_never_throws (siteId : string) (fallbackTheme : option string) (w : World) :
  let fallback := default "default" fallbackTheme in
  let w' := snd (Theme.loadTheme siteId fallbackTheme w) in
  exists theme,
    fst (Theme.loadTheme siteId fallbackTheme w) = Return theme
    /\ Theme.validateTheme theme = theme
    /\ (issued w' = theme_fetch siteId :: issued w
        \/ (fallback <> siteId
            /\ issued w' = theme_fetch fallback :: theme_fetch siteId :: issued w))
    /\ cognitorApi w' = cognitorApi w
    /\ window w' = window w.
Proof.
  cbn zeta.
  unfold Theme.loadTheme, Theme.loadSiteTheme, Theme.loadDefaultTheme, fetch, theme_fetch.
  run.
  destruct (String.eqb (default "default" fallbackTheme) siteId) eqn:Hfallback;
    [apply String.eqb_eq in Hfallback | apply String.eqb_neq in Hfallback];
    repeat case_step; cbn;
    eexists; (split; [reflexivity |]);
    (split; [first [apply validateTheme_again | reflexivity] |]);
    (split; [first [left; reflexivity | right; split; [exact Hfallback | reflexivity]] |]);
    split; reflexivity.
Qed.

(** X27.  Where neither theme file is there, [loadTheme] returns the
    built-in default theme; except that it returns null when the fallback
    theme is the site itself. *)
Theorem loadTheme_without_files (siteId : string) (fallbackTheme : option string) (w : World) :
  let fallback := default "default" fallbackTheme in
  missing (backend w (issued w) (theme_fetch siteId)) ->
  (fallback <> siteId ->
   missing (backend w (theme_fetch siteId :: issued w) (theme_fetch fallback))) ->
  fst (Theme.loadTheme siteId fallbackTheme w)
  = Return (if String.eqb fallback siteId then VNull else Theme.getBuiltInDefaultTheme).
Proof.
  cbn zeta. intros Hsite Hfallback.
  unfold Theme.loadTheme, Theme.loadSiteTheme, Theme.loadDefaultTheme, fetch, theme_fetch in *.
  run.
  destruct (backend w (issued w) _) as [e | r]; cbn in Hsite |- *.
  - destruct (String.eqb (default "default" fallbackTheme) siteId) eqn:Heq; cbn;
      [reflexivity |].
    apply String.eqb_neq in Heq. specialize (Hfallback Heq).
    destruct (backend w _ _) as [e' | r']; cbn in Hfallback |- *; [reflexivity |].
    rewrite Hfallback. reflexivity.
  - rewrite Hsite. cbn.
    destruct (String.eqb (default "default" fallbackTheme) siteId) eqn:Heq; cbn;
      [reflexivity |].
    apply String.eqb_neq in Heq. specialize (Hfallback Heq).
    destruct (backend w _ _) as [e' | r']; cbn in Hfallback |- *; [reflexivity |].
    rewrite Hfallback. reflexivity.
Qed.

Lemma loadTheme_without_files_witness :
  fst (Theme.loadTheme "site-1" None (answering not_found_response))
  = Return (if String.eqb "default" "site-1" then VNull else Theme.getBuiltInDefaultTheme).
Proof.
  apply (loadTheme_without_files "site-1" None (answering not_found_response)).
  - reflexivity.
  - intros _. reflexivity.
Defined.

(* ===================================================================== *)
(** * The revalidation route                                              *)
(* ===================================================================== *)

Lemma differs_accepted (secret : value) (configured : option string) :
  Revalidate.differs secret configured = false <-> secret = accepted_secret configured.
Proof.
  unfold Revalidate.differs, accepted_secret.
  destruct secret as [| | b | n | s | l | props], configured as [c |]; cbn;
    try (split; [discriminate | discriminate]); try (split; reflexivity).
  destruct (String.eqb s c) eqn:Heq; cbn.
  - apply String.eqb_eq in Heq as ->. split; reflexivity.
  - apply String.eqb_neq in Heq. split; [discriminate | congruence].
Qed.


(** X28.  The revalidation route touches the cache only for a request
    whose body carries the accepted secret: whenever it answers 200, or
    has revalidated anything at all, the body could be read and its
    [secret] is the configured one (or is absent where none is
    configured). *)
Theorem revalidation_needs_the_secret
    (configured : option string) (timestamp : string) (body : result value)
    (response : Routes.NextResponse) (calls : list Revalidate.Revalidation) :
  Revalidate.POST configured timestamp body = (response, calls) ->
  Routes.status response = 200 \/ calls <> [] ->
  exists b, body = Return b /\ prop b "secret" = accepted_secret configured.
Proof.
  unfold Revalidate.POST, mbind, result_bind, rbind.
  destruct body as [b | e]; [| intros [= <- <-] [Hstatus | Hcalls]; [discriminate | congruence]].
  destruct (read b "secret") as [secret |] eqn:Hread;
    [| intros [= <- <-] [Hstatus | Hcalls]; [discriminate | congruence]].
  assert (secret = prop b "secret") as ->
    by (unfold read in Hread; destruct b; try discriminate; injection Hread as <-; reflexivity).
  destruct (Revalidate.differs _ _) eqn:Hdiffers;
    [intros [= <- <-] [Hstatus | Hcalls]; [discriminate | congruence] |].
  intros _ _. exists b. split; [reflexivity |]. apply differs_accepted, Hdiffers.
Qed.

Lemma revalidation_needs_the_secret_witness :
  exists b, Return example_body = Return b /\ prop b "secret" = accepted_secret (Some "s3cret").
Proof.
  apply (revalidation_needs_the_secret (Some "s3cret") "2026-01-01T00:00:00.000Z"
           (Return example_body)
           (fst (Revalidate.POST (Some "s3cret") "2026-01-01T00:00:00.000Z"
                   (Return example_body)))
           (snd (Revalidate.POST (Some "s3cret") "2026-01-01T00:00:00.000Z"
                   (Return example_body)))).
  - reflexivity.
  - left. reflexivity.
Defined.



(* ===================================================================== *)
(** * The pages service                                                   *)
(* ===================================================================== *)

Lemma get_issued endpoint params options w :
  issued (snd (Client.get endpoint params options w)) = issued w
  \/ exists f, issued (snd (Client.get endpoint params options w)) = f :: issued w
               /\ cached_as options f.
Proof.
  destruct (get_run endpoint params options w) as [[e ->] | [url ->]]; [left; reflexivity |].
  right. rewrite request_world. eexists. split; [reflexivity |].
  unfold cached_as, outbound. cbn [Host.init]. rewrite requestInit_recorded.
  repeat split.
Qed.

Lemma getPageBySlug_world (params : Pages.GetPageParams) (w : World) :
  exists first,
    (snd (Pages.getPageBySlug params w)
     = snd (Client.get "pages" (Some first) (Pages.cacheOptions params) w))
    \/ (exists endpoint,
          snd (Pages.getPageBySlug params w)
          = snd (Client.get endpoint (Some []) (Pages.cacheOptions params)
                   (snd (Client.get "pages" (Some first) (Pages.cacheOptions params) w)))).
Proof.
  unfold Pages.getPageBySlug. run.
  exists ([("slug", VStr (Pages.slug params))]
          ++ match Pages.preview params with
             | Some true => [("preview", VBool true)]
             | _ => []
             end).
  destruct (Client.get "pages" _ _ w) as [[response | e] w1]; cbn [fst snd];
    [| left; reflexivity].
  repeat case_step;
    first [ left; reflexivity
          | match goal with
            | Hsecond : Client.get ?endpoint _ _ w1 = _ |- _ =>
                right; exists endpoint; rewrite Hsecond; reflexivity
            end ].
Qed.

(** X30.  [getPageBySlug] sends at most two requests, all of them GET
    requests with the caching options of the call: in preview mode with
    cache "no-store" and no revalidation hint, otherwise with cache
    "force-cache", revalidation after 1800 seconds and the tags "page" and
    "page-" followed by the slug. *)
Theorem getPageBySlug_requests (params : Pages.GetPageParams) (w : World) :
  exists new,
    issued (snd (Pages.getPageBySlug params w)) = new ++ issued w
    /\ (length new <= 2)%nat
    /\ Forall (cached_as (Pages.cacheOptions params)) new
    /\ Client.cache (Pages.cacheOptions params)
       = Some (if previewing params then "no-store" else "force-cache")
    /\ Client.next (Pages.cacheOptions params)
       = (if previewing params then None
          else Some {| Host.revalidate := 1800;
                       Host.tags := ["page"; "page-" +:+ Pages.slug params] |}).
Proof.
  assert (Hoptions :
            Client.cache (Pages.cacheOptions params)
            = Some (if previewing params then "no-store" else "force-cache")
            /\ Client.next (Pages.cacheOptions params)
               = (if previewing params then None
                  else Some {| Host.revalidate := 1800;
                               Host.tags := ["page"; "page-" +:+ Pages.slug params] |})).
  { unfold Pages.cacheOptions, previewing.
    destruct (Pages.preview params) as [[|] |]; split; reflexivity. }
  destruct (getPageBySlug_world params w) as (first & [-> | (endpoint & ->)]).
  - destruct (get_issued "pages" (Some first) (Pages.cacheOptions params) w)
      as [-> | (f1 & -> & Hcached1)].
    + exists []. split; [reflexivity |]. split; [cbn; lia |].
      split; [repeat first [apply Forall_cons_2; [assumption |] | apply Forall_nil_2]
             | exact Hoptions].
    + exists [f1]. split; [reflexivity |]. split; [cbn; lia |].
      split; [repeat first [apply Forall_cons_2; [assumption |] | apply Forall_nil_2]
             | exact Hoptions].
  - set (w1 := snd (Client.get "pages" (Some first) (Pages.cacheOptions params) w)).
    destruct (get_issued endpoint (Some []) (Pages.cacheOptions params) w1)
      as [-> | (f2 & -> & Hcached2)];
      subst w1;
      destruct (get_issued "pages" (Some first) (Pages.cacheOptions params) w)
        as [-> | (f1 & -> & Hcached1)].
    + exists []. split; [reflexivity |]. split; [cbn; lia |].
      split; [repeat first [apply Forall_cons_2; [assumption |] | apply Forall_nil_2]
             | exact Hoptions].
    + exists [f1]. split; [reflexivity |]. split; [cbn; lia |].
      split; [repeat first [apply Forall_cons_2; [assumption |] | apply Forall_nil_2]
             | exact Hoptions].
    + exists [f2]. split; [reflexivity |]. split; [cbn; lia |].
      split; [repeat first [apply Forall_cons_2; [assumption |] | apply Forall_nil_2]
             | exact Hoptions].
    + exists [f2; f1]. split; [reflexivity |]. split; [cbn; lia |].
      split; [repeat first [apply Forall_cons_2; [assumption |] | apply Forall_nil_2]
             | exact Hoptions].
Qed.
